(** * PortSight: proforma and return-metrics engines

    A shallow embedding of [analytics/proforma_engine.py] and
    [analytics/return_metrics_engine.py], and the properties of the
    projection, the equity waterfall, the amortization schedule and the
    IRR fallback chain.

    Numbers.  Python's [float] is embedded as [R]: the development reasons
    about the arithmetic the formulas denote, not about binary64 rounding,
    and the non-finite values (inf, nan) have no counterpart.  The sample
    records on which the engines are evaluated below are chosen so that
    every value that reaches a result is a small integer, for which the two
    agree.

    Libraries.  pandas, numpy, numpy_financial, scipy and xirr are not part
    of the repository.  Data frames are embedded as records of columns
    (lists); [npf.ipmt] and [npf.ppmt] follow the amortization formulas of
    the specification; string parsing, the date-aware root solver
    [xirr.xirr], [scipy.optimize.brentq] and [npf.irr] are parameters. *)

From Stdlib Require Import Reals Lra Lia ZArith List String Bool Sorted.
From stdpp Require Import base gmap.
Import ListNotations.

Local Open Scope Z_scope.
Local Open Scope R_scope.

(** ** Python values, exceptions and dictionaries *)

Inductive pyexn : Type :=
| KeyError (key : string)
| TypeError
| ValueError
| LibraryError.

(** The outcome of a Python expression: a value, or a raised exception. *)
Inductive py (A : Type) : Type :=
| Ok (a : A)
| Raise (e : pyexn).
Arguments Ok {A} a.
Arguments Raise {A} e.

Definition bind {A B : Type} (m : py A) (k : A -> py B) : py B :=
  match m with
  | Ok a => k a
  | Raise e => Raise e
  end.

Notation "'let*' x ':=' m 'in' k" := (bind m (fun x => k))
  (at level 10, x name, m at level 100, k at level 200).

(** [try: m  except Exception: h]. *)
Definition try_except {A : Type} (m : py A) (h : py A) : py A :=
  match m with
  | Ok a => Ok a
  | Raise _ => h
  end.

(** The values an assumption dictionary holds once it is loaded from JSON. *)
Inductive pyval : Type :=
| PNone
| PInt (z : Z)
| PFloat (r : R)
| PStr (s : string).

(** A [dict] in insertion order. *)
Definition pydict : Type := list (string * pyval).

Fixpoint dict_lookup (a : pydict) (key : string) : option pyval :=
  match a with
  | [] => None
  | (k, v) :: rest => if String.eqb k key then Some v else dict_lookup rest key
  end.

(** [a.get(key)] *)
Definition get (a : pydict) (key : string) : pyval :=
  match dict_lookup a key with
  | Some v => v
  | None => PNone
  end.

(** [a.get(key, default)] *)
Definition get_default (a : pydict) (key : string) (default : pyval) : pyval :=
  match dict_lookup a key with
  | Some v => v
  | None => default
  end.

(** [a[key]] *)
Definition getitem (a : pydict) (key : string) : py pyval :=
  match dict_lookup a key with
  | Some v => Ok v
  | None => Raise (KeyError key)
  end.

(** [a[key] = v] *)
Fixpoint setitem (a : pydict) (key : string) (v : pyval) : pydict :=
  match a with
  | [] => [(key, v)]
  | (k, w) :: rest =>
      if String.eqb k key then (k, v) :: rest else (k, w) :: setitem rest key v
  end.

(** Truth value of a Python object. *)
Definition truthy (v : pyval) : bool :=
  match v with
  | PNone => false
  | PInt z => negb (Z.eqb z 0)
  | PFloat r => if Req_dec_T r 0 then false else true
  | PStr s => negb (String.eqb s EmptyString)
  end.

(** [isinstance(value, (int, float, str))] *)
Definition is_int_float_str (v : pyval) : bool :=
  match v with
  | PNone => false
  | _ => true
  end.

(** ** Floating-point helpers *)

(** [b ** y] with a real exponent, as numpy computes it: the real power of
    a positive base, and the integer power of any base when the exponent is
    integral.  A negative base with a fractional exponent (nan) and a zero
    base with a negative exponent (inf) are not finite in numpy and have no
    counterpart here; every result below that reads a power off this
    function assumes a positive base. *)
Definition float_pow (b y : R) : R :=
  if Rlt_dec 0 b then Rpower b y
  else if Req_dec_T y (IZR (Int_part y)) then powerRZ b (Int_part y)
  else 0.

(** [int(x)]: truncation toward zero. *)
Definition py_int (x : R) : Z :=
  if Rle_dec 0 x then Int_part x else (- Int_part (- x))%Z.

(** [round(x, n)]: to [n] decimals, ties to the even neighbour. *)
Definition py_round (x : R) (n : nat) : R :=
  let s := x * 10 ^ n in
  let fl := Int_part s in
  let fr := s - IZR fl in
  let q :=
    if Rlt_dec fr (1 / 2) then fl
    else if Rlt_dec (1 / 2) fr then (fl + 1)%Z
    else if Z.even fl then fl else (fl + 1)%Z in
  IZR q / 10 ^ n.

Definition Rsum (l : list R) : R := fold_right Rplus 0 l.

(** [s.iloc[0:k]] and [s.iloc[-k:]] on a column. *)
Definition iloc_head {A : Type} (k : nat) (l : list A) : list A := firstn k l.
Definition iloc_tail {A : Type} (k : nat) (l : list A) : list A :=
  skipn (length l - k) l.

(** ** Calendar dates *)

Record date : Type := mkdate { year : Z; month : Z; day : Z }.

Definition is_leap (y : Z) : bool :=
  ((y mod 4 =? 0) && negb (y mod 100 =? 0) || (y mod 400 =? 0))%Z.

Definition days_in_month (y m : Z) : Z :=
  (if (m =? 2) then (if is_leap y then 29 else 28)
   else if (m =? 4) || (m =? 6) || (m =? 9) || (m =? 11) then 30
   else 31)%Z.

Definition valid_date (d : date) : Prop :=
  (1 <= month d <= 12 /\ 1 <= day d <= days_in_month (year d) (month d))%Z.

(** Dates compare as (year, month, day) triples. *)
Definition date_ltb (d1 d2 : date) : bool :=
  ((year d1 <? year d2)
   || (year d1 =? year d2) &&
      ((month d1 <? month d2)
       || (month d1 =? month d2) && (day d1 <? day d2)))%Z.

Definition date_eqb (d1 d2 : date) : bool :=
  ((year d1 =? year d2) && (month d1 =? month d2) && (day d1 =? day d2))%Z.

Definition date_lt (d1 d2 : date) : Prop := date_ltb d1 d2 = true.

(** Months counted from year 0: the order of two valid dates of different
    months is the order of their keys. *)
Definition month_key (d : date) : Z := (year d * 12 + month d - 1)%Z.

(** Year and month shifted by [k] months. *)
Definition shift_month (y m k : Z) : Z * Z :=
  let t := (y * 12 + (m - 1) + k)%Z in ((t / 12)%Z, (t mod 12 + 1)%Z).

(** [d + relativedelta(months=k)]: the day is clipped to the target month. *)
Definition add_months (d : date) (k : Z) : date :=
  let '(y, m) := shift_month (year d) (month d) k in
  mkdate y m (Z.min (day d) (days_in_month y m)).

(** The month end on or after [d], then [k] month ends further. *)
Definition month_end (d : date) (k : Z) : date :=
  let '(y, m) := shift_month (year d) (month d) k in
  mkdate y m (days_in_month y m).

(** [pd.date_range(start, periods=n, freq="M")], for dates within the
    range of pandas' timestamps. *)
Definition date_range_M (start : date) (periods : Z) : list date :=
  map (fun i => month_end start (Z.of_nat i)) (seq 0 (Z.to_nat periods)).

(** ** Amortization ([npf.ipmt], [npf.ppmt]) *)

(** Modelled from the spec: numpy_financial is not part of the repository;
    the level payment, the balance before month [per] and the split of a
    payment into interest and principal follow the AmortizationCalculator
    of the specification ([rate] is the monthly rate, [pv] the loan amount,
    payments are outflows and hence not positive). *)
Definition level_payment (rate : R) (nper : Z) (pv : R) : R :=
  if Req_dec_T rate 0 then - pv / IZR nper
  else - pv * rate / (1 - float_pow (1 + rate) (- IZR nper)).

Definition balance (rate : R) (per nper : Z) (pv : R) : R :=
  pv * float_pow (1 + rate) (IZR per - 1)
  + level_payment rate nper pv
    * (float_pow (1 + rate) (IZR per - 1) - 1) / rate.

Definition ipmt (rate : R) (per nper : Z) (pv : R) : R :=
  if Req_dec_T pv 0 then 0
  else if Req_dec_T rate 0 then 0
  else - (rate * balance rate per nper pv).

Definition ppmt (rate : R) (per nper : Z) (pv : R) : R :=
  if Req_dec_T pv 0 then 0
  else if Req_dec_T rate 0 then level_payment rate nper pv
  else level_payment rate nper pv - ipmt rate per nper pv.

(** ** Data frames *)

(** [monthly_cf]: one list per column, all of the length of [index]. *)
Record MonthlyFrame : Type := mkMonthly {
  index : list date;
  MonthNum : list Z;
  YearsFrac : list R;
  GrossPotentialRent : list R;
  VacancyLoss : list R;
  OtherIncome : list R;
  NetRentalRevenue : list R;
  OperatingExpenses : list R;
  NetOperatingIncome : list R;
  CapitalExpenses : list R;
  CashFlowBeforeDebtService : list R;
  InterestPayment : list R;
  PrincipalPayment : list R;
  CashFlowAfterDebtService : list R
}.

(** [equity_cf] *)
Record EquityFrame : Type := mkEquity {
  eq_index : list date;
  UnleveredCashFlow : list R;
  LeveredCashFlow : list R
}.

(** Element-wise sum of two columns. *)
Definition col_add (xs ys : list R) : list R := zip_with Rplus xs ys.

Fixpoint index_of (d : date) (l : list date) : option nat :=
  match l with
  | [] => None
  | x :: rest =>
      if date_eqb x d then Some O
      else match index_of d rest with Some i => Some (S i) | None => None end
  end.

(** [eq.loc[labels, col] = values] on a frame whose index labels are
    pairwise distinct: the row carrying the j-th label receives the j-th
    value. *)
Fixpoint loc_assign (idx : list date) (col : list R)
    (labels : list date) (values : list R) : list R :=
  match labels, values with
  | lab :: labels', v :: values' =>
      let col' :=
        match index_of lab idx with
        | Some i => <[ i := v ]> col
        | None => col
        end in
      loc_assign idx col' labels' values'
  | _, _ => col
  end.

(** [col.iloc[-1] += x] *)
Definition iloc_last_add (col : list R) (x : R) : list R :=
  match col !! (length col - 1)%nat with
  | Some v => <[ (length col - 1)%nat := v + x ]> col
  | None => col
  end.

(** ** The proforma engine *)

(** The local variables of [build_proforma] once the assumption dictionary
    has been read (its lines 49 to 71). *)
Record Assumptions : Type := mkAssumptions {
  date_of_close : date;
  hold_years : Z;
  purchase_price : R;
  closing_costs : R;
  rent_base : R;
  vacancy : R;
  other_income : R;
  expense_base : R;
  capex_initial : R;
  rent_growth : R;
  expense_growth : R;
  capex_growth : R;
  appreciation : R;
  exit_cap : R;
  cost_of_sale : R;
  ltv : R;
  interest_rate : R;
  amort_years : Z
}.

Definition hold_months (p : Assumptions) : Z := (hold_years p * 12)%Z.
Definition loan_amount (p : Assumptions) : R := purchase_price p * ltv p.
Definition monthly_rate (p : Assumptions) : R := interest_rate p / 12.
Definition nper (p : Assumptions) : Z := (amort_years p * 12)%Z.

(** The monthly frame [df] (lines 77 to 101). *)
Definition monthly_frame (p : Assumptions) : MonthlyFrame :=
  let idx := date_range_M (add_months (date_of_close p) 1) (hold_months p) in
  let month_num := map Z.of_nat (seq 1 (length idx)) in
  let years_frac := map (fun m => (IZR m - 1) / 12) month_num in
  let gpr :=
    map (fun y => rent_base p * float_pow (1 + rent_growth p) y) years_frac in
  let vac := map (fun g => - g * vacancy p) gpr in
  let oth :=
    map (fun y => other_income p * float_pow (1 + rent_growth p) y)
      years_frac in
  let nrr := col_add (col_add gpr vac) oth in
  let opex :=
    map (fun y => - expense_base p * float_pow (1 + expense_growth p) y)
      years_frac in
  let noi := col_add nrr opex in
  let capex :=
    map (fun y => - capex_initial p * float_pow (1 + capex_growth p) y)
      years_frac in
  let cfbds := col_add noi capex in
  let interest :=
    if Rlt_dec 0 (loan_amount p)
    then map (fun m => ipmt (monthly_rate p) m (nper p) (loan_amount p))
           month_num
    else map (fun _ => 0) idx in
  let principal :=
    if Rlt_dec 0 (loan_amount p)
    then map (fun m => ppmt (monthly_rate p) m (nper p) (loan_amount p))
           month_num
    else map (fun _ => 0) idx in
  let cfads := col_add (col_add cfbds interest) principal in
  mkMonthly idx month_num years_frac gpr vac oth nrr opex noi capex cfbds
    interest principal cfads.

(** The sale waterfall (lines 104 to 107). *)
Definition f12_noi (df : MonthlyFrame) : R :=
  Rsum (iloc_tail 12 (NetOperatingIncome df)).

Definition sale_price (p : Assumptions) (df : MonthlyFrame) : R :=
  if Req_dec_T (exit_cap p) 0 then 0 else f12_noi df / exit_cap p.

Definition sale_cost (p : Assumptions) (df : MonthlyFrame) : R :=
  sale_price p df * cost_of_sale p.

Definition loan_payoff (p : Assumptions) (df : MonthlyFrame) : R :=
  Rmax (loan_amount p - (- Rsum (PrincipalPayment df))) 0.

(** The equity frame [eq] (lines 109 to 116). *)
Definition equity_frame (p : Assumptions) (df : MonthlyFrame) : EquityFrame :=
  let eq_idx := date_of_close p :: index df in
  let zeros := map (fun _ => 0) eq_idx in
  let first_u := - purchase_price p - closing_costs p in
  let first_l := - purchase_price p - closing_costs p + loan_amount p in
  let u1 := <[ 0%nat := first_u ]> zeros in
  let l1 := <[ 0%nat := first_l ]> zeros in
  let u2 := loc_assign eq_idx u1 (index df) (CashFlowBeforeDebtService df) in
  let l2 := loc_assign eq_idx l1 (index df) (CashFlowAfterDebtService df) in
  let u3 := iloc_last_add u2 (sale_price p df - sale_cost p df) in
  let l3 :=
    iloc_last_add l2 (sale_price p df - sale_cost p df - loan_payoff p df) in
  mkEquity eq_idx u3 l3.

Definition project (p : Assumptions) : MonthlyFrame * EquityFrame :=
  let df := monthly_frame p in (df, equity_frame p df).

Section Engines.

(** [float(s)] on a string and [pd.Timestamp(v)] ([Ok None] is NaT). *)
Variable str_to_float : string -> option R.
Variable pd_Timestamp : pyval -> py (option date).

(** [float(v)]; the empty string is not a number.  An [int] is taken to be
    within the range of a float. *)
Definition py_float (v : pyval) : py R :=
  match v with
  | PNone => Raise TypeError
  | PInt z => Ok (IZR z)
  | PFloat r => Ok r
  | PStr s =>
      if String.eqb s EmptyString then Raise ValueError
      else match str_to_float s with
           | Some r => Ok r
           | None => Raise ValueError
           end
  end.

(** [def f(x): return float(x or 0)] *)
Definition f (x : pyval) : py R :=
  py_float (if truthy x then x else PInt 0).

(** Lines 49 to 71 of [build_proforma]; a NaT closing date makes
    [date_of_close + relativedelta(months=1)] on line 77 raise. *)
Definition read_assumptions (a : pydict) : py Assumptions :=
  let* doc := pd_Timestamp (get a "date_of_close") in
  let* hy := f (get_default a "hold_period_years" (PInt 10)) in
  let* pp := f (get a "purchase_price") in
  let* cc := f (get_default a "closing_costs" (PFloat (2 / 100))) in
  let* rb := f (get a "rent_immediately_after_purchase") in
  let* vc :=
    f (get_default a "vacancy_immediately_after_purchase" (PFloat (5 / 100))) in
  let* oi := f (get_default a "other_income_immediately_after_purchase" (PInt 0)) in
  let* eb := f (get a "operating_expenses_after_purchase") in
  let* cx := f (get a "capital_expense_after_purchase") in
  let* rg := f (get_default a "expected_rent_growth" (PFloat (4 / 100))) in
  let* eg := f (get_default a "expected_expense_growth" (PFloat (25 / 1000))) in
  let* cg := f (get_default a "expected_capex_growth" (PFloat (2 / 100))) in
  let* ap := f (get_default a "expected_appreciation" (PFloat (54 / 1000))) in
  let* ec := f (get_default a "exit_cap_rate_expectation" (PFloat (55 / 1000))) in
  let* cs := f (get_default a "cost_of_sale_percentage" (PFloat (5 / 100))) in
  let* lv := f (get_default a "ltv" (PFloat (7 / 10))) in
  let* ir := f (get_default a "interest_rate" (PFloat (45 / 1000))) in
  let* ay := f (get_default a "amortization_years" (PInt 30)) in
  match doc with
  | None => Raise TypeError
  | Some d =>
      Ok (mkAssumptions d (py_int hy) pp (pp * cc) rb vc oi eb cx rg eg cg ap
            ec cs lv ir (py_int ay))
  end.

Definition build_proforma (a : pydict) : py (MonthlyFrame * EquityFrame) :=
  let* p := read_assumptions a in Ok (project p).

(** ** The return-metrics engine *)

(** Arithmetic on dictionary values, as Python dispatches it. *)
Definition str_repeat (s : string) (n : Z) : string :=
  Nat.iter (Z.to_nat n) (String.append s) EmptyString.

Definition py_mul (x y : pyval) : py pyval :=
  match x, y with
  | PInt a, PInt b => Ok (PInt (a * b))
  | PInt a, PFloat b => Ok (PFloat (IZR a * b))
  | PFloat a, PInt b => Ok (PFloat (a * IZR b))
  | PFloat a, PFloat b => Ok (PFloat (a * b))
  | PStr s, PInt n => Ok (PStr (str_repeat s n))
  | PInt n, PStr s => Ok (PStr (str_repeat s n))
  | _, _ => Raise TypeError
  end.

Definition py_add (x y : pyval) : py pyval :=
  match x, y with
  | PInt a, PInt b => Ok (PInt (a + b))
  | PInt a, PFloat b => Ok (PFloat (IZR a + b))
  | PFloat a, PInt b => Ok (PFloat (a + IZR b))
  | PFloat a, PFloat b => Ok (PFloat (a + b))
  | PStr s, PStr t => Ok (PStr (String.append s t))
  | _, _ => Raise TypeError
  end.

Definition py_sub (x y : pyval) : py pyval :=
  match x, y with
  | PInt a, PInt b => Ok (PInt (a - b))
  | PInt a, PFloat b => Ok (PFloat (IZR a - b))
  | PFloat a, PInt b => Ok (PFloat (a - IZR b))
  | PFloat a, PFloat b => Ok (PFloat (a - b))
  | _, _ => Raise TypeError
  end.

(** [x / v] for a numpy float [x]: a non-number raises; a zero divisor
    does not raise but yields inf or nan in numpy, which [R] cannot
    express, so no result below reads the value of a quotient by zero. *)
Definition float_div (x : R) (v : pyval) : py R :=
  match v with
  | PInt b => Ok (x / IZR b)
  | PFloat b => Ok (x / b)
  | _ => Raise TypeError
  end.

Definition Rltb (x y : R) : bool := if Rlt_dec x y then true else false.
Definition Rnonzero (x : R) : bool := if Req_dec_T x 0 then false else true.

Definition going_in_cap_rate (df : MonthlyFrame) (a : pydict) : py (option R) :=
  let noi := Rsum (iloc_head 12 (NetOperatingIncome df)) in
  if truthy (get a "purchase_price")
  then let* pp := getitem a "purchase_price" in
       let* r := float_div noi pp in Ok (Some r)
  else Ok None.

Definition loan_constant (a : pydict) (df : MonthlyFrame) : py (option R) :=
  let* pp := getitem a "purchase_price" in
  let* lv := getitem a "ltv" in
  let* loan := py_mul pp lv in
  let total_debt_service :=
    Rsum (iloc_head 12 (PrincipalPayment df))
    + Rsum (iloc_head 12 (InterestPayment df)) in
  if truthy loan
  then let* r := float_div total_debt_service loan in Ok (Some r)
  else Ok None.

Definition going_in_dscr (a : pydict) (df : MonthlyFrame) : py (option R) :=
  let noi := Rsum (iloc_head 12 (NetOperatingIncome df)) in
  let total_debt_service :=
    Rsum (iloc_head 12 (PrincipalPayment df))
    + Rsum (iloc_head 12 (InterestPayment df)) in
  if Rnonzero total_debt_service
  then Ok (Some (noi / total_debt_service))
  else Ok None.

Definition going_in_debt_yield (a : pydict) (df : MonthlyFrame)
  : py (option R) :=
  let* pp := getitem a "purchase_price" in
  let* lv := getitem a "ltv" in
  let* loan := py_mul pp lv in
  let noi := Rsum (iloc_head 12 (NetOperatingIncome df)) in
  if truthy loan
  then let* r := float_div noi loan in Ok (Some r)
  else Ok None.

Definition exit_ltv (a : pydict) (eq : EquityFrame) : py (option R) :=
  let* pp := py_float (get_default a "purchase_price" (PInt 0)) in
  let* lv := py_float (get_default a "ltv" (PInt 0)) in
  let* ec :=
    py_float (get_default a "exit_cap_rate_expectation" (PFloat (55 / 1000))) in
  if Rlt_dec 0 ec then
    let estimated_sale_price := pp * (11 / 10) in
    let payoff := pp * lv * (8 / 10) in
    if Rlt_dec 0 estimated_sale_price
    then Ok (Some (payoff / estimated_sale_price))
    else Ok None
  else Ok None.

(** *** The IRR solver *)

(** [d.toordinal()] *)
Definition days_before_year (y : Z) : Z :=
  ((y - 1) * 365 + (y - 1) / 4 - (y - 1) / 100 + (y - 1) / 400)%Z.

Definition days_before_month (y m : Z) : Z :=
  fold_right Z.add 0%Z
    (map (fun i => days_in_month y (Z.of_nat i)) (seq 1 (Z.to_nat (m - 1)))).

Definition toordinal (d : date) : Z :=
  (days_before_year (year d) + days_before_month (year d) (month d) + day d)%Z.

(** A date-keyed [dict] in insertion order. *)
Definition cashflow_dict : Type := list (date * R).

Fixpoint cf_setitem (c : cashflow_dict) (d : date) (v : R) : cashflow_dict :=
  match c with
  | [] => [(d, v)]
  | (k, w) :: rest =>
      if date_eqb k d then (k, v) :: rest else (k, w) :: cf_setitem rest d v
  end.

(** [sorted(cashflows.items(), key=lambda kv: kv[0])] *)
Fixpoint insert_sorted (x : date * R) (l : list (date * R)) : list (date * R) :=
  match l with
  | [] => [x]
  | y :: rest =>
      if date_ltb (fst x) (fst y) then x :: y :: rest
      else y :: insert_sorted x rest
  end.

Definition sorted_items (c : cashflow_dict) : list (date * R) :=
  fold_right insert_sorted [] c.

(** [np.linspace(-0.95, 3.0, 200)[i]] *)
Definition grid (i : nat) : R :=
  - (95 / 100) + INR i * ((3 - - (95 / 100)) / 199).

(** The date-aware solver of the xirr package, scipy's [brentq] (with its
    [maxiter] and [xtol]) and [npf.irr]: library code, each either returns
    or raises. *)
Variable xirr_xirr : cashflow_dict -> py (option R).
Variable brentq : (R -> R) -> R -> R -> nat -> R -> py R.
Variable npf_irr : list R -> py R.

(** The loop of [_xirr_fallback] over the grid positions [idxs]. *)
Fixpoint bracket_scan (npv : R -> R) (idxs : list nat) : option R :=
  match idxs with
  | [] => None
  | i :: rest =>
      if Rlt_dec (npv (grid i) * npv (grid (S i))) 0
      then match brentq npv (grid i) (grid (S i)) 200 (1 / 10 ^ 10) with
           | Ok r => Some r
           | Raise _ => bracket_scan npv rest
           end
      else bracket_scan npv rest
  end.

Definition _xirr_fallback (cashflows : cashflow_dict) : option R :=
  if (length cashflows <? 2)%nat then None
  else
    let items := sorted_items cashflows in
    match items with
    | [] => None
    | (d0, _) :: _ =>
        let days_frac d := IZR (toordinal d - toordinal d0) / 365 in
        let ts := map (fun kv => days_frac (fst kv)) items in
        let cfs := map snd items in
        if existsb (fun c => Rltb 0 c) cfs && existsb (fun c => Rltb c 0) cfs
        then
          let npv r :=
            Rsum (zip_with (fun c t => c / float_pow (1 + r) t) cfs ts) in
          bracket_scan npv (seq 0 199)
        else None
    end.

(** A date-indexed column of the equity frame, as [series.items()]. *)
Definition series : Type := list (date * R).

(** The dict comprehension of [_calc_xirr]: the entries that are not zero,
    keyed by date (a later entry on the same date replaces the earlier). *)
Definition lib_of_series (s : series) : cashflow_dict :=
  fold_left
    (fun acc kv => if Rnonzero (snd kv) then cf_setitem acc (fst kv) (snd kv)
                   else acc)
    s [].

(** The entries of a series that are not zero; a series is degenerate when
    there are fewer than two of them or they are all of one sign. *)
Definition nonzero_entries (s : series) : series :=
  List.filter (fun kv => Rnonzero (snd kv)) s.

Definition degenerate (s : series) : Prop :=
  (length (nonzero_entries s) < 2)%nat
  \/ Forall (fun kv => ~ 0 < snd kv) (nonzero_entries s)
  \/ Forall (fun kv => ~ snd kv < 0) (nonzero_entries s).

Definition _calc_xirr (s : series) : py (option R) :=
  let lib := lib_of_series s in
  try_except (xirr_xirr lib)
    (match _xirr_fallback lib with
     | Some fb => Ok (Some fb)
     | None =>
         try_except
           (let* irr_m := npf_irr (map snd s) in
            if Rnonzero irr_m then Ok (Some ((1 + irr_m) ^ 12 - 1))
            else Ok None)
           (Ok None)
     end).

Definition unlevered_irr (eq : EquityFrame) : py (option R) :=
  _calc_xirr (zip (eq_index eq) (UnleveredCashFlow eq)).

Definition levered_irr (eq : EquityFrame) : py (option R) :=
  _calc_xirr (zip (eq_index eq) (LeveredCashFlow eq)).

(** *** Multiples and cash-on-cash *)

Definition equity_multiple (col : list R) : option R :=
  let total_invested := Rsum (List.filter (fun v => Rltb v 0) col) in
  let total_returned := Rsum (List.filter (fun v => Rltb 0 v) col) in
  if Rnonzero total_invested
  then Some (total_returned / Rabs total_invested)
  else None.

Definition unlevered_equity_multiple (eq : EquityFrame) : option R :=
  equity_multiple (UnleveredCashFlow eq).

Definition levered_equity_multiple (eq : EquityFrame) : option R :=
  equity_multiple (LeveredCashFlow eq).

Definition avg_unlevered_coc (df : MonthlyFrame) (a : pydict) : py (option R) :=
  let* pp := getitem a "purchase_price" in
  let* hy := getitem a "hold_period_years" in
  let* hm := py_mul hy (PInt 12) in
  let* den := py_mul pp hm in
  let* avg := float_div (Rsum (CashFlowBeforeDebtService df)) den in
  if truthy pp then Ok (Some avg) else Ok None.

Definition avg_levered_coc (df : MonthlyFrame) (a : pydict) : py (option R) :=
  let* pp := getitem a "purchase_price" in
  let* lv := getitem a "ltv" in
  let* loan := py_mul pp lv in
  let* hy := getitem a "hold_period_years" in
  let* hm := py_mul hy (PInt 12) in
  let* net := py_sub pp loan in
  let* cc := py_mul (get_default a "closing_costs" (PInt 0)) pp in
  let* equity_invested := py_add net cc in
  let* den := py_mul equity_invested hm in
  let* avg := float_div (Rsum (CashFlowAfterDebtService df)) den in
  if truthy equity_invested then Ok (Some avg) else Ok None.

Definition year1_op_ex_ratio (df : MonthlyFrame) : option R :=
  let op_ex := Rabs (Rsum (iloc_head 12 (OperatingExpenses df))) in
  let egr := Rsum (iloc_head 12 (GrossPotentialRent df)) in
  if Rnonzero egr then Some (op_ex / egr) else None.

(** *** The main engine function *)

(** The result dictionary: a metric is a number or [None]. *)
Definition metrics : Type := list (string * option R).

Definition metric (m : metrics) (key : string) : option (option R) :=
  snd <$> List.find (fun kv => String.eqb (fst kv) key) m.

Definition _safe_float (val : pyval) : R :=
  match val with
  | PNone => 0
  | _ => match py_float val with Ok r => r | Raise _ => 0 end
  end.

Definition non_numeric_keys : list string :=
  ["date_of_close"; "acquisition_date"; "name"; "address"; "city"; "state";
   "zip"; "property_type"; "ownership_type"; "portfolio_name"; "notes"]%string.

Definition is_non_numeric_key (key : string) : bool :=
  existsb (String.eqb key) non_numeric_keys.

(** Dictionaries are objects on a heap: [data.copy()] allocates, and
    [data_clean[key] = v] updates the object [data_clean] refers to. *)
Definition heap : Type := gmap nat pydict.

Definition heap_setitem (h : gmap nat pydict) (l : nat) (key : string)
    (v : pyval) : gmap nat pydict :=
  match h !! l with
  | Some d => <[ l := setitem d key v ]> h
  | None => h
  end.

(** One iteration of the cleaning loop (lines 189 to 194). *)
Definition clean_step (data_clean : nat) (h : gmap nat pydict)
    (kv : string * pyval) : gmap nat pydict :=
  if is_int_float_str (snd kv) && negb (is_non_numeric_key (fst kv))
  then heap_setitem h data_clean (fst kv) (PFloat (_safe_float (snd kv)))
  else h.

(** The dictionary [data_clean] refers to once the loop has run over the
    items of [d]. *)
Definition clean_dict (d : pydict) : pydict :=
  fold_left
    (fun acc kv =>
       if is_int_float_str (snd kv) && negb (is_non_numeric_key (fst kv))
       then setitem acc (fst kv) (PFloat (_safe_float (snd kv)))
       else acc)
    d d.

(** [round(v, 6)] over every metric that is not [None] (lines 240 to 242). *)
Definition round_metrics (m : metrics) : metrics :=
  map (fun kv => (fst kv, (fun v => py_round v 6) <$> snd kv)) m.

(** Lines 196 to 245, on the cleaned dictionary. *)
Definition compute_metrics (data_clean : pydict) : py metrics :=
  let* frames := build_proforma data_clean in
  let monthly_cf := fst frames in
  let equity_cf := snd frames in
  let* m1 := going_in_cap_rate monthly_cf data_clean in
  let* m2 := loan_constant data_clean monthly_cf in
  let* m3 := going_in_dscr data_clean monthly_cf in
  let* m4 := going_in_debt_yield data_clean monthly_cf in
  let* m5 := exit_ltv data_clean equity_cf in
  let* m6 := unlevered_irr equity_cf in
  let* m7 := levered_irr equity_cf in
  let m8 := unlevered_equity_multiple equity_cf in
  let m9 := levered_equity_multiple equity_cf in
  let* m10 := avg_unlevered_coc monthly_cf data_clean in
  let* m11 := avg_levered_coc monthly_cf data_clean in
  let m12 := year1_op_ex_ratio monthly_cf in
  let final_unlevered := List.last (UnleveredCashFlow equity_cf) 0 in
  let final_levered := List.last (LeveredCashFlow equity_cf) 0 in
  let* pp := py_float (get_default data_clean "purchase_price" (PInt 0)) in
  let* cost_of_sale_pct :=
    py_float
      (get_default data_clean "cost_of_sale_percentage" (PFloat (5 / 100))) in
  let estimated_sale_price := pp * (12 / 10) in
  let net_sale_proceeds := final_levered in
  Ok (round_metrics
        [("going_in_cap_rate", m1); ("loan_constant", m2);
         ("going_in_dscr", m3); ("going_in_debt_yield", m4);
         ("exit_ltv", m5); ("unlevered_irr", m6); ("levered_irr", m7);
         ("unlevered_equity_multiple", m8); ("levered_equity_multiple", m9);
         ("avg_unlevered_coc", m10); ("avg_levered_coc", m11);
         ("year1_op_ex_ratio", m12);
         ("projected_sale_price", Some (py_round estimated_sale_price 2));
         ("net_sale_proceeds", Some (py_round net_sale_proceeds 2))]%string).

(** [generate_return_metrics(data)], where [data] refers to a dictionary on
    the heap [h]: the heap after the call and the outcome. *)
Definition generate_return_metrics (data : nat) (h : gmap nat pydict)
  : gmap nat pydict * py metrics :=
  match h !! data with
  | None => (h, Raise TypeError)
  | Some d =>
      let data_clean := fresh (dom h) in
      let h1 := <[ data_clean := d ]> h in
      let h2 := fold_left (clean_step data_clean) d h1 in
      match h2 !! data_clean with
      | None => (h2, Raise TypeError)
      | Some dc => (h2, compute_metrics dc)
      end
  end.

End Engines.

(** The keys of the metrics dictionary, in the order they are inserted. *)
Definition metric_keys : list string :=
  ["going_in_cap_rate"; "loan_constant"; "going_in_dscr";
   "going_in_debt_yield"; "exit_ltv"; "unlevered_irr"; "levered_irr";
   "unlevered_equity_multiple"; "levered_equity_multiple";
   "avg_unlevered_coc"; "avg_levered_coc"; "year1_op_ex_ratio";
   "projected_sale_price"; "net_sale_proceeds"]%string.

(** ** The owned-property processor *)

(** [metrics.get(key)]: the metric, [None] also for a key that is missing. *)
Definition metrics_get (m : metrics) (key : string) : pyval :=
  match metric m key with
  | Some (Some r) => PFloat r
  | _ => PNone
  end.

(** The metric columns of [proforma_data], in the order of the statement of
    [insert_proforma_data]. *)
Definition proforma_columns : list string :=
  ["going_in_cap_rate"; "loan_constant"; "going_in_dscr";
   "going_in_debt_yield"; "unlevered_irr"; "avg_unlevered_coc";
   "unlevered_equity_multiple"; "levered_irr"; "avg_levered_coc";
   "levered_equity_multiple"; "exit_ltv"; "year1_op_ex_ratio";
   "projected_sale_price"; "net_sale_proceeds"]%string.

(** The tuple [values] of [insert_proforma_data]. *)
Definition proforma_values (property_id : Z) (m : metrics) : list pyval :=
  PInt property_id :: map (metrics_get m) proforma_columns.

(** The tuple [values] of [insert_acquisition_data]. *)
Definition acquisition_values (property_id : Z) (data : pydict)
  : list pyval :=
  [PInt property_id;
   get data "purchase_price";
   get data "closing_costs";
   get data "date_of_close";
   get data "property_sf";
   get data "rent_immediately_after_purchase";
   get data "vacancy_immediately_after_purchase";
   get data "other_income_immediately_after_purchase";
   get data "operating_expenses_after_purchase";
   get data "capital_expense_after_purchase";
   get data "tax_assessment_price_immediately_after_purchase";
   get data "capital_expenses_right_after_purchase";
   get data "exit_cap_rate_expectation";
   get data "hold_period_years";
   get data "cost_of_sale_percentage";
   get data "ltv";
   get data "loan_origination_fee";
   get data "interest_rate";
   get data "amortization_years";
   PFloat (4 / 100);
   PFloat (25 / 1000);
   PFloat (2 / 100);
   PFloat (54 / 1000)].

(** The local function [npv] of [_xirr_fallback], for the sorted items. *)
Definition npv_of_items (items : list (date * R)) (r : R) : R :=
  match items with
  | [] => 0
  | (d0, _) :: _ =>
      Rsum (zip_with (fun c t => c / float_pow (1 + r) t)
              (map snd items)
              (map (fun kv => IZR (toordinal (fst kv) - toordinal d0) / 365)
                 items))
  end.

(** ** Sample inputs *)

(** Library behaviours for the examples: no numeric strings occur, the
    closing date is "2020-01-01", and the solvers either fail or return a
    fixed value. *)
Definition no_numeric_strings : string -> option R := fun _ => None.

Definition Timestamp_2020 (v : pyval) : py (option date) :=
  match v with
  | PNone => Ok None
  | PStr s =>
      if String.eqb s "2020-01-01" then Ok (Some (mkdate 2020 1 1))
      else Raise ValueError
  | _ => Raise ValueError
  end.

Definition xirr_returns (v : option R) : cashflow_dict -> py (option R) :=
  fun _ => Ok v.
Definition xirr_fails : cashflow_dict -> py (option R) :=
  fun _ => Raise LibraryError.
Definition brentq_fails : (R -> R) -> R -> R -> nat -> R -> py R :=
  fun _ _ _ _ _ => Raise LibraryError.
Definition brentq_returns (r : R) : (R -> R) -> R -> R -> nat -> R -> py R :=
  fun _ _ _ _ _ => Ok r.
Definition npf_irr_fails : list R -> py R := fun _ => Raise LibraryError.
Definition npf_irr_returns (x : R) : list R -> py R := fun _ => Ok x.

(** A one-year hold without leverage and without growth: rent 10 a month,
    bought for 1000, sold at an exit cap rate of 1. *)
Definition flat_year : pydict :=
  [("date_of_close", PStr "2020-01-01");
   ("hold_period_years", PInt 1);
   ("purchase_price", PInt 1000);
   ("closing_costs", PInt 0);
   ("rent_immediately_after_purchase", PInt 10);
   ("vacancy_immediately_after_purchase", PInt 0);
   ("operating_expenses_after_purchase", PInt 0);
   ("capital_expense_after_purchase", PInt 0);
   ("expected_rent_growth", PInt 0);
   ("expected_expense_growth", PInt 0);
   ("expected_capex_growth", PInt 0);
   ("exit_cap_rate_expectation", PInt 1);
   ("cost_of_sale_percentage", PInt 0);
   ("ltv", PInt 0);
   ("interest_rate", PInt 0);
   ("amortization_years", PInt 30)]%string.

Definition flat_year_assumptions : Assumptions :=
  mkAssumptions (mkdate 2020 1 1) 1 1000 0 10 0 0 0 0 0 0 0 (54 / 1000) 1 0 0
    0 30.

(** A record with a hold period of zero years, and a purchase price of 0
    so that no metric divides a nonzero price by the zero hold period. *)
Definition zero_hold : pydict :=
  [("date_of_close", PStr "2020-01-01");
   ("hold_period_years", PInt 0);
   ("purchase_price", PInt 0);
   ("closing_costs", PInt 0);
   ("rent_immediately_after_purchase", PInt 10);
   ("vacancy_immediately_after_purchase", PInt 0);
   ("operating_expenses_after_purchase", PInt 0);
   ("capital_expense_after_purchase", PInt 0);
   ("expected_rent_growth", PInt 0);
   ("expected_expense_growth", PInt 0);
   ("expected_capex_growth", PInt 0);
   ("exit_cap_rate_expectation", PInt 1);
   ("cost_of_sale_percentage", PInt 0);
   ("ltv", PInt 0);
   ("interest_rate", PInt 0);
   ("amortization_years", PInt 30)]%string.

Definition zero_hold_assumptions : Assumptions :=
  mkAssumptions (mkdate 2020 1 1) 0 0 0 10 0 0 0 0 0 0 0 (54 / 1000) 1 0 0
    0 30.

(** A record that leaves [ltv] out. *)
Definition no_ltv : pydict :=
  [("date_of_close", PStr "2020-01-01");
   ("hold_period_years", PInt 1);
   ("purchase_price", PInt 1000)]%string.

Definition no_ltv_assumptions : Assumptions :=
  mkAssumptions (mkdate 2020 1 1) 1 1000 (1000 * (2 / 100)) 0 (5 / 100) 0 0 0
    (4 / 100) (25 / 1000) (2 / 100) (54 / 1000) (55 / 1000) (5 / 100)
    (7 / 10) (45 / 1000) 30.

(** The keys [build_proforma] reads as numbers. *)
Definition projection_keys : list string :=
  ["hold_period_years"; "purchase_price"; "closing_costs";
   "rent_immediately_after_purchase"; "vacancy_immediately_after_purchase";
   "other_income_immediately_after_purchase";
   "operating_expenses_after_purchase"; "capital_expense_after_purchase";
   "expected_rent_growth"; "expected_expense_growth";
   "expected_capex_growth"; "expected_appreciation";
   "exit_cap_rate_expectation"; "cost_of_sale_percentage"; "ltv";
   "interest_rate"; "amortization_years"]%string.

(** A record whose hold period is [None]. *)
Definition null_hold : pydict :=
  [("date_of_close", PStr "2020-01-01");
   ("hold_period_years", PNone);
   ("purchase_price", PInt 1000)]%string.

(** A record whose purchase price is a string that is not a number. *)
Definition unpriced : pydict :=
  [("date_of_close", PStr "2020-01-01");
   ("hold_period_years", PInt 1);
   ("purchase_price", PStr "n/a")]%string.

(** An equity series of two events: 100 paid in, 150 paid out a year
    later. *)
Definition one_period : EquityFrame :=
  mkEquity [mkdate 2021 1 1; mkdate 2022 1 1] [-100; 150] [-100; 150].

(** Two cash flows 365 days apart: 100 paid in, 121 paid out, a return of
    21 percent a year. *)
Definition two_flows : cashflow_dict :=
  [(mkdate 2021 1 1, -100); (mkdate 2022 1 1, 121)].

(** A two-year hold with rent growing 4 percent a year. *)
Definition two_years : Assumptions :=
  mkAssumptions (mkdate 2020 1 1) 2 1000 0 10 0 0 0 0 (4 / 100) 0 0
    (54 / 1000) 1 0 0 0 30.

(** A loan of 700 at 12 percent a year over 30 years. *)
Definition levered_year : Assumptions :=
  mkAssumptions (mkdate 2020 1 1) 1 1000 0 10 0 0 0 0 0 0 0 (54 / 1000) 1 0
    (7 / 10) (12 / 100) 30.

(** * Properties *)

(** ** Lists and columns *)

Lemma lookup_map {A B : Type} (g : A -> B) (l : list A) (i : nat) :
  map g l !! i = g <$> (l !! i).
Proof.
  revert i; induction l as [|x l IH]; intros [|i]; simpl; auto.
Qed.

Lemma length_date_range_M (start : date) (n : Z) :
  length (date_range_M start n) = Z.to_nat n.
Proof. unfold date_range_M. now rewrite length_map, length_seq. Qed.

Lemma lookup_date_range_M (start : date) (n : Z) (i : nat) :
  (i < Z.to_nat n)%nat ->
  date_range_M start n !! i = Some (month_end start (Z.of_nat i)).
Proof.
  intros Hi. unfold date_range_M.
  rewrite lookup_map, lookup_seq_lt by assumption. reflexivity.
Qed.

Lemma length_index (p : Assumptions) :
  length (index (monthly_frame p)) = Z.to_nat (hold_months p).
Proof. apply length_date_range_M. Qed.

Lemma lookup_MonthNum (p : Assumptions) (i : nat) :
  (i < Z.to_nat (hold_months p))%nat ->
  MonthNum (monthly_frame p) !! i = Some (Z.of_nat (S i)).
Proof.
  intros Hi. simpl. rewrite lookup_map, length_date_range_M.
  rewrite lookup_seq_lt by assumption. reflexivity.
Qed.

Lemma lookup_YearsFrac (p : Assumptions) (i : nat) :
  (i < Z.to_nat (hold_months p))%nat ->
  YearsFrac (monthly_frame p) !! i = Some ((IZR (Z.of_nat (S i)) - 1) / 12).
Proof.
  intros Hi. pose proof (lookup_MonthNum p i Hi) as H. simpl in *.
  rewrite lookup_map, H. reflexivity.
Qed.

(** ** The monthly projection *)

(** A power of a positive base is the real power [exp (y * ln b)]. *)
Lemma float_pow_Rpower (b y : R) : 0 < b -> float_pow b y = Rpower b y.
Proof. intros Hb. unfold float_pow. destruct (Rlt_dec 0 b); tauto. Qed.

(** C3: for growth rates above -1, in month [t] of the schedule, with
    [y = (t-1)/12], gross potential rent is [rent_base*(1+rent_growth)^y],
    other income grows on the same rent curve, operating expenses are
    [-expense_base*(1+expense_growth)^y], vacancy loss is [-rent*vacancy],
    and NOI is the sum of the four.  The powers are real powers
    [Rpower b y = exp (y * ln b)]; the schedule has
    [hold_years * 12] months. *)
Theorem C3_monthly_row (p : Assumptions) (t : Z) :
  0 < 1 + rent_growth p ->
  0 < 1 + expense_growth p ->
  (1 <= t <= hold_years p * 12)%Z ->
  let df := monthly_frame p in
  let i := Z.to_nat (t - 1) in
  let y := (IZR t - 1) / 12 in
  let gpr := rent_base p * Rpower (1 + rent_growth p) y in
  let vac := - gpr * vacancy p in
  let oth := other_income p * Rpower (1 + rent_growth p) y in
  let opex := - expense_base p * Rpower (1 + expense_growth p) y in
  MonthNum df !! i = Some t /\
  GrossPotentialRent df !! i = Some gpr /\
  VacancyLoss df !! i = Some vac /\
  OtherIncome df !! i = Some oth /\
  OperatingExpenses df !! i = Some opex /\
  NetOperatingIncome df !! i = Some (gpr + vac + oth + opex).
Proof.
  intros Hrg Heg Ht df i y gpr vac oth opex.
  assert (Hi : (i < Z.to_nat (hold_months p))%nat)
    by (subst i; unfold hold_months; lia).
  assert (HS : Z.of_nat (S i) = t) by (subst i; lia).
  pose proof (lookup_MonthNum p i Hi) as Hm.
  pose proof (lookup_YearsFrac p i Hi) as Hy.
  rewrite HS in Hm, Hy.
  assert (Hg : GrossPotentialRent df !! i = Some gpr).
  { subst df gpr; simpl in *. rewrite lookup_map, Hy. simpl.
    now rewrite float_pow_Rpower. }
  assert (Hv : VacancyLoss df !! i = Some vac).
  { subst df; simpl in *. rewrite lookup_map, Hg. reflexivity. }
  assert (Ho : OtherIncome df !! i = Some oth).
  { subst df oth; simpl in *. rewrite lookup_map, Hy. simpl.
    now rewrite float_pow_Rpower. }
  assert (He : OperatingExpenses df !! i = Some opex).
  { subst df opex; simpl in *. rewrite lookup_map, Hy. simpl.
    now rewrite float_pow_Rpower. }
  repeat split; try assumption.
  subst df; simpl in *. unfold col_add.
  rewrite !lookup_zip_with, Hg, Hv, Ho, He. reflexivity.
Qed.

(** ** Dates of the schedule *)

Lemma date_eqb_eq (d1 d2 : date) : date_eqb d1 d2 = true <-> d1 = d2.
Proof.
  destruct d1 as [y1 m1 a1], d2 as [y2 m2 a2]; unfold date_eqb; simpl.
  rewrite !andb_true_iff, !Z.eqb_eq. split.
  - intros [[-> ->] ->]; reflexivity.
  - intros H; injection H; auto.
Qed.

Lemma date_eqb_neq (d1 d2 : date) : d1 <> d2 -> date_eqb d1 d2 = false.
Proof.
  intros H. destruct (date_eqb d1 d2) eqn:E; [|reflexivity].
  apply date_eqb_eq in E. contradiction.
Qed.

Lemma shift_month_key (y m k : Z) :
  (fst (shift_month y m k) * 12 + snd (shift_month y m k) - 1
   = y * 12 + m - 1 + k)%Z.
Proof. unfold shift_month; simpl. Z.div_mod_to_equations. lia. Qed.

Lemma shift_month_range (y m k : Z) :
  (1 <= snd (shift_month y m k) <= 12)%Z.
Proof. unfold shift_month; simpl. Z.div_mod_to_equations. lia. Qed.

Lemma month_key_add_months (d : date) (k : Z) :
  month_key (add_months d k) = (month_key d + k)%Z.
Proof.
  unfold add_months, month_key.
  pose proof (shift_month_key (year d) (month d) k) as H.
  destruct (shift_month (year d) (month d) k) as [y m]; simpl in *. lia.
Qed.

Lemma month_key_month_end (d : date) (k : Z) :
  month_key (month_end d k) = (month_key d + k)%Z.
Proof.
  unfold month_end, month_key.
  pose proof (shift_month_key (year d) (month d) k) as H.
  destruct (shift_month (year d) (month d) k) as [y m]; simpl in *. lia.
Qed.

Lemma month_range_month_end (d : date) (k : Z) :
  (1 <= month (month_end d k) <= 12)%Z.
Proof.
  unfold month_end.
  pose proof (shift_month_range (year d) (month d) k) as H.
  destruct (shift_month (year d) (month d) k) as [y m]; simpl in *. lia.
Qed.

Lemma month_key_lt (d1 d2 : date) :
  (1 <= month d1 <= 12)%Z -> (1 <= month d2 <= 12)%Z ->
  (month_key d1 < month_key d2)%Z -> date_lt d1 d2.
Proof.
  unfold month_key, date_lt, date_ltb. intros H1 H2 Hk.
  destruct (Z.ltb_spec (year d1) (year d2)) as [|Hy]; [reflexivity|].
  assert (year d1 = year d2) as -> by lia.
  rewrite Z.eqb_refl; simpl.
  destruct (Z.ltb_spec (month d1) (month d2)); [reflexivity|lia].
Qed.

(** The dates of the equity frame: the closing date, then the month ends. *)
Lemma lookup_eq_index_key (p : Assumptions) (i : nat) (d : date) :
  (date_of_close p :: index (monthly_frame p)) !! i = Some d ->
  month_key d = (month_key (date_of_close p) + Z.of_nat i)%Z
  /\ ((1 <= month (date_of_close p) <= 12)%Z -> (1 <= month d <= 12)%Z).
Proof.
  destruct i as [|i]; simpl.
  - intros [= <-]. split; [lia|auto].
  - intros H.
    assert (Hi : (i < Z.to_nat (hold_months p))%nat).
    { apply lookup_lt_Some in H. now rewrite length_date_range_M in H. }
    rewrite lookup_date_range_M in H by assumption.
    injection H as <-. split.
    + rewrite month_key_month_end, month_key_add_months. lia.
    + intros _. apply month_range_month_end.
Qed.

Lemma NoDup_eq_index (p : Assumptions) :
  NoDup (date_of_close p :: index (monthly_frame p)).
Proof.
  apply NoDup_alt. intros i j d Hi Hj.
  apply lookup_eq_index_key in Hi as [Hi _].
  apply lookup_eq_index_key in Hj as [Hj _]. lia.
Qed.

(** ** Label-based assignment *)

Lemma index_of_middle (pre rest : list date) (d : date) :
  d ∉ pre -> index_of d (pre ++ d :: rest) = Some (length pre).
Proof.
  induction pre as [|x pre IH]; simpl; intros Hd.
  - assert (E : date_eqb d d = true) by now apply date_eqb_eq.
    now rewrite E.
  - apply not_elem_of_cons in Hd as [Hx Hd].
    rewrite date_eqb_neq by congruence. now rewrite IH.
Qed.

Lemma loc_assign_suffix (labels : list date) :
  forall (pre : list date) (cpre ctail values : list R),
    NoDup (pre ++ labels) ->
    length cpre = length pre ->
    length ctail = length labels ->
    length values = length labels ->
    loc_assign (pre ++ labels) (cpre ++ ctail) labels values = cpre ++ values.
Proof.
  induction labels as [|lab labels IH]; intros pre cpre ctail values Hnd Hc Ht Hv.
  - destruct values; [|discriminate]. destruct ctail; [|discriminate].
    reflexivity.
  - destruct values as [|v values]; [discriminate|].
    destruct ctail as [|c ctail]; [discriminate|].
    simpl. rewrite index_of_middle.
    2:{ apply NoDup_app in Hnd as (_ & Hdis & _). intros Hin.
        apply (Hdis lab Hin). left. }
    rewrite <- Hc. replace (length cpre) with (length cpre + 0)%nat by lia.
    rewrite insert_app_r. cbn [insert list_insert].
    replace (pre ++ lab :: labels) with ((pre ++ [lab]) ++ labels)
      by now rewrite <- app_assoc.
    replace (cpre ++ v :: ctail) with ((cpre ++ [v]) ++ ctail)
      by now rewrite <- app_assoc.
    rewrite IH.
    + now rewrite <- app_assoc.
    + now rewrite <- app_assoc.
    + rewrite !length_app; simpl; lia.
    + simpl in Ht; lia.
    + simpl in Hv; lia.
Qed.

Lemma length_col_add (xs ys : list R) :
  length ys = length xs -> length (col_add xs ys) = length xs.
Proof. intros H. unfold col_add. rewrite length_zip_with. lia. Qed.

Lemma length_CashFlowBeforeDebtService (p : Assumptions) :
  length (CashFlowBeforeDebtService (monthly_frame p))
  = length (index (monthly_frame p)).
Proof.
  simpl. repeat (rewrite length_col_add); now rewrite ?length_map, ?length_seq.
Qed.

Lemma length_InterestPayment (p : Assumptions) :
  length (InterestPayment (monthly_frame p))
  = length (index (monthly_frame p)).
Proof.
  simpl. destruct (Rlt_dec 0 (loan_amount p));
    now rewrite ?length_map, ?length_seq.
Qed.

Lemma length_PrincipalPayment (p : Assumptions) :
  length (PrincipalPayment (monthly_frame p))
  = length (index (monthly_frame p)).
Proof.
  simpl. destruct (Rlt_dec 0 (loan_amount p));
    now rewrite ?length_map, ?length_seq.
Qed.

Lemma length_CashFlowAfterDebtService (p : Assumptions) :
  length (CashFlowAfterDebtService (monthly_frame p))
  = length (index (monthly_frame p)).
Proof.
  pose proof (length_CashFlowBeforeDebtService p) as Hb.
  pose proof (length_InterestPayment p) as Hi.
  pose proof (length_PrincipalPayment p) as Hp.
  change (CashFlowAfterDebtService (monthly_frame p))
    with (col_add (col_add (CashFlowBeforeDebtService (monthly_frame p))
                     (InterestPayment (monthly_frame p)))
            (PrincipalPayment (monthly_frame p))).
  assert (Hbi : length (col_add (CashFlowBeforeDebtService (monthly_frame p))
                           (InterestPayment (monthly_frame p)))
                = length (index (monthly_frame p))).
  { rewrite length_col_add; congruence. }
  rewrite length_col_add; congruence.
Qed.

(** Before the sale is added, the equity columns are the closing amount
    followed by the monthly column. *)
Lemma loc_assign_equity (p : Assumptions) (first : R) (col : list R) :
  length col = length (index (monthly_frame p)) ->
  loc_assign (date_of_close p :: index (monthly_frame p))
    (<[ 0%nat := first ]>
       (map (fun _ => 0) (date_of_close p :: index (monthly_frame p))))
    (index (monthly_frame p)) col
  = first :: col.
Proof.
  intros Hlen.
  pose proof (loc_assign_suffix (index (monthly_frame p)) [date_of_close p]
                [first] (map (fun _ => 0) (index (monthly_frame p))) col) as H.
  apply H; try reflexivity.
  - apply NoDup_eq_index.
  - now rewrite length_map.
  - assumption.
Qed.

(** ** The equity frame *)

Lemma length_iloc_last_add (col : list R) (x : R) :
  length (iloc_last_add col x) = length col.
Proof.
  unfold iloc_last_add.
  destruct (col !! (length col - 1)%nat); [apply length_insert|reflexivity].
Qed.

Lemma iloc_last_add_snoc (l : list R) (v x : R) :
  iloc_last_add (l ++ [v]) x = l ++ [v + x].
Proof.
  unfold iloc_last_add. rewrite length_app; simpl.
  replace (length l + 1 - 1)%nat with (length l + 0)%nat by lia.
  rewrite lookup_app_r by lia.
  replace (length l + 0 - length l)%nat with 0%nat by lia.
  cbn [lookup list_lookup]. now rewrite insert_app_r.
Qed.

Lemma lookup_iloc_last_add_lt (col : list R) (x : R) (i : nat) :
  (S i < length col)%nat -> iloc_last_add col x !! i = col !! i.
Proof.
  intros Hi. unfold iloc_last_add.
  destruct (col !! (length col - 1)%nat); [|reflexivity].
  apply list_lookup_insert_ne. lia.
Qed.

Lemma lookup_iloc_last_add_last (col : list R) (x v : R) :
  col !! (length col - 1)%nat = Some v ->
  iloc_last_add col x !! (length col - 1)%nat = Some (v + x).
Proof.
  intros Hv. unfold iloc_last_add. rewrite Hv.
  apply list_lookup_insert_eq. now apply lookup_lt_Some in Hv.
Qed.

Lemma UnleveredCashFlow_equity (p : Assumptions) :
  let df := monthly_frame p in
  UnleveredCashFlow (equity_frame p df)
  = iloc_last_add
      ((- purchase_price p - closing_costs p) :: CashFlowBeforeDebtService df)
      (sale_price p df - sale_cost p df).
Proof.
  intros df. unfold equity_frame. cbn [UnleveredCashFlow].
  subst df. now rewrite loc_assign_equity
    by apply length_CashFlowBeforeDebtService.
Qed.

Lemma LeveredCashFlow_equity (p : Assumptions) :
  let df := monthly_frame p in
  LeveredCashFlow (equity_frame p df)
  = iloc_last_add
      ((- purchase_price p - closing_costs p + loan_amount p)
         :: CashFlowAfterDebtService df)
      (sale_price p df - sale_cost p df - loan_payoff p df).
Proof.
  intros df. unfold equity_frame. cbn [LeveredCashFlow].
  subst df. now rewrite loc_assign_equity
    by apply length_CashFlowAfterDebtService.
Qed.

Lemma length_UnleveredCashFlow (p : Assumptions) :
  length (UnleveredCashFlow (equity_frame p (monthly_frame p)))
  = S (Z.to_nat (hold_months p)).
Proof.
  rewrite UnleveredCashFlow_equity, length_iloc_last_add. cbn [length].
  now rewrite length_CashFlowBeforeDebtService, length_index.
Qed.

Lemma length_LeveredCashFlow (p : Assumptions) :
  length (LeveredCashFlow (equity_frame p (monthly_frame p)))
  = S (Z.to_nat (hold_months p)).
Proof.
  rewrite LeveredCashFlow_equity, length_iloc_last_add. cbn [length].
  now rewrite length_CashFlowAfterDebtService, length_index.
Qed.

(** The sale lands on the last row: the last monthly amount, when there is
    one, and the amount [x] added to it. *)
Lemma lookup_terminal (first x : R) (col : list R) (n : nat) (v : R) :
  length col = n -> col !! (n - 1)%nat = Some v -> (1 <= n)%nat ->
  iloc_last_add (first :: col) x !! n = Some (v + x).
Proof.
  intros Hlen Hv Hn.
  pose proof (lookup_iloc_last_add_last (first :: col) x v) as H.
  cbn [length] in H. rewrite Hlen in H.
  replace (S n - 1)%nat with n in H by lia. apply H.
  destruct n as [|n]; [lia|]. simpl. now replace (S n - 1)%nat with n in Hv by lia.
Qed.

Lemma length_NetOperatingIncome (p : Assumptions) :
  length (NetOperatingIncome (monthly_frame p)) = Z.to_nat (hold_months p).
Proof.
  simpl. repeat (rewrite length_col_add);
    now rewrite ?length_map, ?length_seq, ?length_date_range_M.
Qed.

(** C5: the sale is booked on the last monthly event, not on an event of its
    own.  Trailing NOI sums the final min(12, hold_months) rows, the sale
    price is trailing NOI over the exit cap rate (0 for a zero cap rate),
    the cost of sale is the sale price times the cost-of-sale fraction, the
    loan payoff is the loan amount [purchase_price * ltv] less the principal
    paid, floored at 0, and the last unlevered and levered amounts are the
    month's cash flow before and after debt service plus the net sale
    amounts. *)
Theorem C5_terminal_event (p : Assumptions) :
  (1 <= hold_years p)%Z ->
  let df := monthly_frame p in
  let eq := equity_frame p df in
  let n := Z.to_nat (hold_years p * 12) in
  let trailing_noi := Rsum (drop (n - Nat.min 12 n) (NetOperatingIncome df)) in
  let cumulative_principal_paid := - Rsum (PrincipalPayment df) in
  length (eq_index eq) = S n /\
  length (UnleveredCashFlow eq) = S n /\
  length (LeveredCashFlow eq) = S n /\
  length (drop (n - Nat.min 12 n) (NetOperatingIncome df)) = Nat.min 12 n /\
  f12_noi df = trailing_noi /\
  (exit_cap p <> 0 -> sale_price p df = trailing_noi / exit_cap p) /\
  (exit_cap p = 0 -> sale_price p df = 0) /\
  sale_cost p df = sale_price p df * cost_of_sale p /\
  loan_amount p = purchase_price p * ltv p /\
  loan_payoff p df
  = Rmax (purchase_price p * ltv p - cumulative_principal_paid) 0 /\
  exists cfb cfa : R,
    CashFlowBeforeDebtService df !! (n - 1)%nat = Some cfb /\
    CashFlowAfterDebtService df !! (n - 1)%nat = Some cfa /\
    UnleveredCashFlow eq !! n
    = Some (cfb + (sale_price p df - sale_cost p df)) /\
    LeveredCashFlow eq !! n
    = Some (cfa + (sale_price p df - sale_cost p df - loan_payoff p df)).
Proof.
  intros Hh df eq n trailing_noi cum.
  change (hold_years p * 12)%Z with (hold_months p) in n.
  assert (Hn : (1 <= n)%nat) by (subst n; unfold hold_months; lia).
  assert (Htail : f12_noi df = trailing_noi).
  { unfold f12_noi, iloc_tail, trailing_noi. subst df.
    rewrite length_NetOperatingIncome. fold n.
    replace (n - Nat.min 12 n)%nat with (n - 12)%nat by lia. reflexivity. }
  split; [|split; [|split; [|split; [|split; [|split; [|split; [|split;
    [|split; [|split]]]]]]]]].
  - subst eq df n. cbn [equity_frame eq_index length].
    now rewrite length_index.
  - apply length_UnleveredCashFlow.
  - apply length_LeveredCashFlow.
  - rewrite length_drop. subst df. rewrite length_NetOperatingIncome.
    fold n. lia.
  - exact Htail.
  - intros Hec. unfold sale_price.
    destruct (Req_dec_T (exit_cap p) 0); [contradiction|]. now rewrite Htail.
  - intros Hec. unfold sale_price.
    destruct (Req_dec_T (exit_cap p) 0); [reflexivity|contradiction].
  - reflexivity.
  - reflexivity.
  - reflexivity.
  - assert (Hlb : length (CashFlowBeforeDebtService df) = n).
    { subst df n. now rewrite length_CashFlowBeforeDebtService, length_index. }
    assert (Hla : length (CashFlowAfterDebtService df) = n).
    { subst df n. now rewrite length_CashFlowAfterDebtService, length_index. }
    destruct (lookup_lt_is_Some_2 (CashFlowBeforeDebtService df) (n - 1))
      as [cfb Hcfb]; [lia|].
    destruct (lookup_lt_is_Some_2 (CashFlowAfterDebtService df) (n - 1))
      as [cfa Hcfa]; [lia|].
    exists cfb, cfa. repeat split; try assumption.
    + subst eq df. rewrite UnleveredCashFlow_equity.
      now apply lookup_terminal.
    + subst eq df. rewrite LeveredCashFlow_equity.
      now apply lookup_terminal.
Qed.

(** C6: the equity series has [hold_years * 12 + 1] events on strictly
    increasing, pairwise distinct dates; the first is the closing event,
    with the purchase outflow (plus the loan [purchase_price * ltv] on the
    levered side); the last date is the date of the last monthly row. *)
Theorem C6_equity_events (p : Assumptions) :
  (1 <= hold_years p)%Z ->
  valid_date (date_of_close p) ->
  let df := monthly_frame p in
  let eq := equity_frame p df in
  Z.of_nat (length (eq_index eq)) = (hold_years p * 12 + 1)%Z /\
  Z.of_nat (length (UnleveredCashFlow eq)) = (hold_years p * 12 + 1)%Z /\
  Z.of_nat (length (LeveredCashFlow eq)) = (hold_years p * 12 + 1)%Z /\
  (forall (i j : nat) (di dj : date),
      (i < j)%nat -> eq_index eq !! i = Some di -> eq_index eq !! j = Some dj ->
      date_lt di dj) /\
  NoDup (eq_index eq) /\
  eq_index eq !! 0%nat = Some (date_of_close p) /\
  UnleveredCashFlow eq !! 0%nat
  = Some (- purchase_price p - closing_costs p) /\
  LeveredCashFlow eq !! 0%nat
  = Some (- purchase_price p - closing_costs p + purchase_price p * ltv p) /\
  index df <> [] /\
  last (eq_index eq) = last (index df).
Proof.
  intros Hh [Hm _] df eq.
  change (hold_years p * 12)%Z with (hold_months p).
  assert (Hn : (1 <= Z.to_nat (hold_months p))%nat)
    by (unfold hold_months; lia).
  assert (Hz : Z.of_nat (S (Z.to_nat (hold_months p))) = (hold_months p + 1)%Z)
    by (unfold hold_months in *; lia).
  assert (Hidx : index df <> []).
  { intros E. pose proof (length_index p) as L. subst df.
    rewrite E in L. simpl in L. lia. }
  split; [|split; [|split; [|split; [|split; [|split; [|split;
    [|split; [|split]]]]]]]].
  - subst eq df. cbn [equity_frame eq_index length].
    now rewrite length_index.
  - subst eq df. now rewrite length_UnleveredCashFlow.
  - subst eq df. now rewrite length_LeveredCashFlow.
  - intros i j di dj Hij Hi Hj. subst eq df.
    cbn [equity_frame eq_index] in Hi, Hj.
    apply lookup_eq_index_key in Hi as [Hki Hmi].
    apply lookup_eq_index_key in Hj as [Hkj Hmj].
    apply month_key_lt; auto. lia.
  - apply NoDup_eq_index.
  - reflexivity.
  - subst eq df. rewrite UnleveredCashFlow_equity.
    rewrite lookup_iloc_last_add_lt; [reflexivity|].
    cbn [length]. rewrite length_CashFlowBeforeDebtService, length_index. lia.
  - subst eq df. rewrite LeveredCashFlow_equity.
    rewrite lookup_iloc_last_add_lt; [reflexivity|].
    cbn [length]. rewrite length_CashFlowAfterDebtService, length_index. lia.
  - exact Hidx.
  - subst eq. cbn [equity_frame eq_index].
    destruct (index df) as [|d l] eqn:E; [contradiction|].
    reflexivity.
Qed.

(** ** No leverage *)

Lemma map_const_repeat {A : Type} (l : list A) (c : R) :
  map (fun _ => c) l = repeat c (length l).
Proof. induction l; simpl; congruence. Qed.

Lemma Rsum_repeat_0 (n : nat) : Rsum (repeat 0 n) = 0.
Proof. induction n; simpl; [reflexivity|]. fold (Rsum (repeat 0 n)). lra. Qed.

Lemma col_add_zeros (xs : list R) (n : nat) :
  length xs = n -> col_add xs (repeat 0 n) = xs.
Proof.
  revert n; induction xs as [|x xs IH]; intros [|n] H; try discriminate;
    try reflexivity.
  simpl in *. unfold col_add in *. simpl. rewrite IH by lia.
  f_equal. lra.
Qed.

(** C9: without a loan the interest and principal columns are 0 in every
    month and nothing is owed at sale, so the levered series is the
    unlevered series. *)
Theorem C9_no_loan (p : Assumptions) :
  loan_amount p = 0 ->
  let df := monthly_frame p in
  let eq := equity_frame p df in
  let n := Z.to_nat (hold_months p) in
  InterestPayment df = repeat 0 n /\
  PrincipalPayment df = repeat 0 n /\
  loan_payoff p df = 0 /\
  LeveredCashFlow eq = UnleveredCashFlow eq.
Proof.
  intros Hl df eq n.
  assert (Hi : InterestPayment df = repeat 0 n).
  { subst df n. cbn [monthly_frame InterestPayment].
    destruct (Rlt_dec 0 (loan_amount p)); [lra|].
    now rewrite map_const_repeat, length_date_range_M. }
  assert (Hp : PrincipalPayment df = repeat 0 n).
  { subst df n. cbn [monthly_frame PrincipalPayment].
    destruct (Rlt_dec 0 (loan_amount p)); [lra|].
    now rewrite map_const_repeat, length_date_range_M. }
  assert (Ho : loan_payoff p df = 0).
  { unfold loan_payoff. rewrite Hp, Rsum_repeat_0, Hl.
    unfold Rmax. destruct (Rle_dec (0 - - 0) 0); lra. }
  repeat split; try assumption.
  subst eq. unfold df at 1 2.
  rewrite LeveredCashFlow_equity, UnleveredCashFlow_equity.
  fold df. rewrite Ho, Hl.
  assert (Ha : CashFlowAfterDebtService df = CashFlowBeforeDebtService df).
  { change (CashFlowAfterDebtService df)
      with (col_add (col_add (CashFlowBeforeDebtService df)
                       (InterestPayment df)) (PrincipalPayment df)).
    rewrite Hi, Hp.
    assert (Hb : length (CashFlowBeforeDebtService df) = n).
    { subst df n. now rewrite length_CashFlowBeforeDebtService, length_index. }
    rewrite (col_add_zeros _ n Hb). now apply col_add_zeros. }
  rewrite Ha. f_equal; [f_equal|]; lra.
Qed.

(** ** Amortization *)

Lemma Rsum_app (l1 l2 : list R) : Rsum (l1 ++ l2) = Rsum l1 + Rsum l2.
Proof.
  induction l1 as [|x l1 IH]; simpl; [lra|].
  fold (Rsum (l1 ++ l2)) (Rsum l1). lra.
Qed.

Lemma Rsum_geometric (c r : R) (n : nat) :
  r <> 0 ->
  Rsum (map (fun k => c * (1 + r) ^ k) (seq 0 n)) = c * ((1 + r) ^ n - 1) / r.
Proof.
  intros Hr. induction n as [|n IH].
  - simpl. field. exact Hr.
  - rewrite seq_S, map_app, Rsum_app, IH. simpl. field. exact Hr.
Qed.

Lemma float_pow_nat (b : R) (k : nat) :
  0 < b -> float_pow b (INR k) = b ^ k.
Proof.
  intros Hb. unfold float_pow. destruct (Rlt_dec 0 b); [|contradiction].
  now apply Rpower_pow.
Qed.

Lemma float_pow_neg_nat (b : R) (k : nat) :
  0 < b -> float_pow b (- INR k) = / b ^ k.
Proof.
  intros Hb. unfold float_pow. destruct (Rlt_dec 0 b); [|contradiction].
  now rewrite Rpower_Ropp, Rpower_pow.
Qed.

Lemma pow_gt_1 (r : R) (n : nat) : 0 < r -> (1 <= n)%nat -> 1 < (1 + r) ^ n.
Proof.
  intros Hr Hn. apply Rlt_pow_R1; [lra|lia].
Qed.

(** With a positive rate, the principal part of payment [k+1] is the
    principal part of the first payment compounded [k] times. *)
Lemma ppmt_geometric (rate pv : R) (n k : nat) :
  0 < rate -> 0 < pv ->
  ppmt rate (Z.of_nat (S k)) (Z.of_nat n) pv
  = (level_payment rate (Z.of_nat n) pv + rate * pv) * (1 + rate) ^ k.
Proof.
  intros Hr Hpv. unfold ppmt, ipmt, balance.
  destruct (Req_dec_T pv 0); [lra|].
  destruct (Req_dec_T rate 0); [lra|].
  replace (IZR (Z.of_nat (S k)) - 1) with (INR k)
    by (rewrite <- INR_IZR_INZ, S_INR; lra).
  rewrite float_pow_nat by lra. field. lra.
Qed.

Lemma level_payment_annuity (rate pv : R) (n : nat) :
  0 < rate -> (1 <= n)%nat ->
  level_payment rate (Z.of_nat n) pv
  = - pv * rate * (1 + rate) ^ n / ((1 + rate) ^ n - 1).
Proof.
  intros Hr Hn. unfold level_payment.
  destruct (Req_dec_T rate 0); [lra|].
  rewrite <- INR_IZR_INZ, float_pow_neg_nat by lra.
  pose proof (pow_gt_1 rate n Hr Hn). field. split; lra.
Qed.

Lemma Rsum_ppmt (rate pv : R) (n : nat) :
  0 < rate -> 0 < pv -> (1 <= n)%nat ->
  Rsum (map (fun m => ppmt rate m (Z.of_nat n) pv)
          (map Z.of_nat (seq 1 n)))
  = - pv.
Proof.
  intros Hr Hpv Hn.
  rewrite <- seq_shift, !map_map.
  rewrite (map_ext _ (fun k => (level_payment rate (Z.of_nat n) pv + rate * pv)
                               * (1 + rate) ^ k))
    by (intros k; now apply ppmt_geometric).
  rewrite Rsum_geometric by lra.
  rewrite level_payment_annuity by assumption.
  pose proof (pow_gt_1 rate n Hr Hn). field. split; lra.
Qed.

(** C4: over the full amortization term the principal payments add up to
    minus the loan amount, each payment being the constant annuity payment
    split into interest and principal. *)
Theorem C4_full_amortization (p : Assumptions) :
  0 < loan_amount p -> 0 < monthly_rate p -> (1 <= amort_years p)%Z ->
  let principal_payment m :=
    ppmt (monthly_rate p) m (nper p) (loan_amount p) in
  let interest_payment m :=
    ipmt (monthly_rate p) m (nper p) (loan_amount p) in
  let schedule :=
    map principal_payment (map Z.of_nat (seq 1 (Z.to_nat (nper p)))) in
  Rsum schedule = - loan_amount p /\
  Rabs (Rsum schedule - - loan_amount p) <= 1 / 10 ^ 6 * Rabs (loan_amount p) /\
  (forall m : Z,
      interest_payment m + principal_payment m
      = - loan_amount p * monthly_rate p
        / (1 - float_pow (1 + monthly_rate p) (- IZR (nper p)))) /\
  (hold_years p = amort_years p ->
   PrincipalPayment (monthly_frame p) = schedule).
Proof.
  intros Hl Hr Ha principal_payment interest_payment schedule.
  assert (Hn : (1 <= Z.to_nat (nper p))%nat) by (unfold nper; lia).
  assert (Hz : Z.of_nat (Z.to_nat (nper p)) = nper p) by (unfold nper; lia).
  assert (Hs : Rsum schedule = - loan_amount p).
  { subst schedule principal_payment.
    pose proof (Rsum_ppmt (monthly_rate p) (loan_amount p)
                  (Z.to_nat (nper p)) Hr Hl Hn) as H.
    now rewrite Hz in H. }
  split; [exact Hs|]. split; [|split].
  - rewrite Hs. replace (- loan_amount p - - loan_amount p) with 0 by lra.
    rewrite Rabs_R0. apply Rmult_le_pos; [|apply Rabs_pos].
    apply Rlt_le, Rdiv_lt_0_compat; [lra|]. apply pow_lt; lra.
  - intros m. subst principal_payment interest_payment.
    unfold ppmt, ipmt, level_payment.
    destruct (Req_dec_T (loan_amount p) 0); [lra|].
    destruct (Req_dec_T (monthly_rate p) 0); [lra|]. lra.
  - intros Hh. subst schedule principal_payment.
    cbn [monthly_frame PrincipalPayment].
    destruct (Rlt_dec 0 (loan_amount p)); [|contradiction].
    rewrite length_date_range_M. unfold hold_months, nper. now rewrite Hh.
Qed.

(** ** The caller's dictionary *)

Section Frame.

Variable str_to_float : string -> option R.
Variable pd_Timestamp : pyval -> py (option date).
Variable xirr_xirr : cashflow_dict -> py (option R).
Variable brentq : (R -> R) -> R -> R -> nat -> R -> py R.
Variable npf_irr : list R -> py R.

Lemma lookup_heap_setitem_ne (h : gmap nat pydict) (l l' : nat)
    (key : string) (v : pyval) :
  l <> l' -> heap_setitem h l key v !! l' = h !! l'.
Proof.
  intros Hne. unfold heap_setitem.
  destruct (h !! l); [|reflexivity]. now apply lookup_insert_ne.
Qed.

Lemma lookup_clean_step_ne (h : gmap nat pydict) (dc l : nat)
    (kv : string * pyval) :
  dc <> l -> clean_step str_to_float dc h kv !! l = h !! l.
Proof.
  intros Hne. unfold clean_step.
  destruct (is_int_float_str (snd kv) && negb (is_non_numeric_key (fst kv)));
    [|reflexivity].
  now apply lookup_heap_setitem_ne.
Qed.

Lemma lookup_clean_loop_ne (items : pydict) :
  forall (h : gmap nat pydict) (dc l : nat),
    dc <> l ->
    fold_left (clean_step str_to_float dc) items h !! l = h !! l.
Proof.
  induction items as [|kv items IH]; intros h dc l Hne; simpl.
  - reflexivity.
  - rewrite IH by assumption. now apply lookup_clean_step_ne.
Qed.

(** C10: after [generate_return_metrics(data)] the dictionary [data] refers
    to holds what it held before the call; the coercion to floats is done
    on the copy. *)
Theorem C10_input_unchanged (data : nat) (h : gmap nat pydict) :
  fst (generate_return_metrics str_to_float pd_Timestamp xirr_xirr brentq
         npf_irr data h) !! data
  = h !! data.
Proof.
  unfold generate_return_metrics.
  destruct (h !! data) as [d|] eqn:Hd; [|simpl; exact Hd].
  assert (Hne : fresh (dom h) <> data).
  { intros E. apply (is_fresh (dom h)). rewrite E.
    apply elem_of_dom. now exists d. }
  set (dc := fresh (dom h)) in *.
  assert (Hl : fold_left (clean_step str_to_float dc) d (<[dc:=d]> h) !! data
               = Some d).
  { rewrite lookup_clean_loop_ne by assumption.
    now rewrite lookup_insert_ne by assumption. }
  destruct (fold_left (clean_step str_to_float dc) d (<[dc:=d]> h) !! dc);
    simpl; exact Hl.
Qed.

End Frame.

(** ** The IRR solver *)

Lemma Forall_cf_setitem (P : date * R -> Prop) (c : cashflow_dict)
    (d : date) (v : R) :
  (forall k, P (k, v)) -> Forall P c -> Forall P (cf_setitem c d v).
Proof.
  intros Hv. induction c as [|[k w] c IH]; intros Hc; simpl.
  - constructor; [apply Hv|constructor].
  - apply Forall_cons in Hc as [Hk Hc].
    destruct (date_eqb k d); constructor; auto.
Qed.

Lemma length_cf_setitem (c : cashflow_dict) (d : date) (v : R) :
  (length (cf_setitem c d v) <= S (length c))%nat.
Proof.
  induction c as [|[k w] c IH]; simpl; [lia|].
  destruct (date_eqb k d); simpl; lia.
Qed.

(** The dictionary holds at most the nonzero entries of the series, and
    what holds of the value of each of them holds of its values. *)
Lemma lib_of_series_acc (P : R -> Prop) (s : series) :
  forall acc : cashflow_dict,
    Forall (fun kv => P (snd kv)) (nonzero_entries s) ->
    Forall (fun kv => P (snd kv)) acc ->
    let lib :=
      fold_left
        (fun acc kv =>
           if Rnonzero (snd kv) then cf_setitem acc (fst kv) (snd kv) else acc)
        s acc in
    Forall (fun kv => P (snd kv)) lib
    /\ (length lib <= length acc + length (nonzero_entries s))%nat.
Proof.
  induction s as [|[d v] s IH]; intros acc Hs Hacc; simpl.
  - split; [assumption|lia].
  - unfold nonzero_entries in Hs; simpl in Hs.
    destruct (Rnonzero v) eqn:Hv; simpl.
    + apply Forall_cons in Hs as [Hd Hs].
      destruct (IH (cf_setitem acc d v)) as [H1 H2]; [exact Hs| |].
      * apply Forall_cf_setitem; [intros k; exact Hd|exact Hacc].
      * split; [exact H1|].
        pose proof (length_cf_setitem acc d v).
        unfold nonzero_entries in *. lia.
    + destruct (IH acc) as [H1 H2]; [exact Hs|exact Hacc|].
      split; [exact H1|]. unfold nonzero_entries in *. lia.
Qed.

Lemma Forall_lib_of_series (P : R -> Prop) (s : series) :
  Forall (fun kv => P (snd kv)) (nonzero_entries s) ->
  Forall (fun kv => P (snd kv)) (lib_of_series s).
Proof.
  intros Hs. now apply (lib_of_series_acc P s []).
Qed.

Lemma length_lib_of_series (s : series) :
  (length (lib_of_series s) <= length (nonzero_entries s))%nat.
Proof.
  destruct (lib_of_series_acc (fun _ => True) s []) as [_ H].
  - apply Forall_forall; auto.
  - constructor.
  - exact H.
Qed.

Lemma Forall_insert_sorted (P : date * R -> Prop) (x : date * R)
    (l : list (date * R)) :
  P x -> Forall P l -> Forall P (insert_sorted x l).
Proof.
  intros Hx. induction l as [|y l IH]; intros Hl; simpl.
  - constructor; [exact Hx|constructor].
  - apply Forall_cons in Hl as [Hy Hl].
    destruct (date_ltb (fst x) (fst y)); repeat constructor; auto.
Qed.

Lemma Forall_sorted_items (P : date * R -> Prop) (c : cashflow_dict) :
  Forall P c -> Forall P (sorted_items c).
Proof.
  induction c as [|x c IH]; intros Hc; simpl; [constructor|].
  apply Forall_cons in Hc as [Hx Hc]. apply Forall_insert_sorted; auto.
Qed.

Lemma existsb_false_Forall (g : R -> bool) (P : R -> Prop)
    (l : list (date * R)) :
  (forall v, P v -> g v = false) ->
  Forall (fun kv => P (snd kv)) l -> existsb g (map snd l) = false.
Proof.
  intros Hg. induction 1 as [|x l Hx Hl IH]; simpl; [reflexivity|].
  now rewrite (Hg _ Hx), IH.
Qed.

Section Solver.

Variable brentq : (R -> R) -> R -> R -> nat -> R -> py R.

(** The bracket scan gives up on a degenerate series. *)
Lemma _xirr_fallback_degenerate (s : series) :
  degenerate s -> _xirr_fallback brentq (lib_of_series s) = None.
Proof.
  intros Hdeg. unfold _xirr_fallback.
  destruct (Nat.ltb_spec (length (lib_of_series s)) 2) as [|Hlen];
    [reflexivity|].
  destruct (sorted_items (lib_of_series s)) as [|[d0 v0] items] eqn:Es;
    [reflexivity|].
  rewrite <- Es.
  destruct Hdeg as [Hlt|[Hpos|Hneg]].
  - pose proof (length_lib_of_series s). lia.
  - rewrite (existsb_false_Forall _ (fun v => ~ 0 < v)); [reflexivity| |].
    + intros v Hv. unfold Rltb. destruct (Rlt_dec 0 v); [contradiction|auto].
    + apply Forall_sorted_items.
      now apply (Forall_lib_of_series (fun v => ~ 0 < v)).
  - rewrite (existsb_false_Forall (fun c => Rltb c 0) (fun v => ~ v < 0)).
    + now rewrite andb_false_r.
    + intros v Hv. unfold Rltb. destruct (Rlt_dec v 0); [contradiction|auto].
    + apply Forall_sorted_items.
      now apply (Forall_lib_of_series (fun v => ~ v < 0)).
Qed.

End Solver.

Section SolverChain.

Variable xirr_xirr : cashflow_dict -> py (option R).
Variable brentq : (R -> R) -> R -> R -> nat -> R -> py R.
Variable npf_irr : list R -> py R.

(** Every exception of the three tiers is handled. *)
Lemma _calc_xirr_returns (s : series) :
  exists v : option R, _calc_xirr xirr_xirr brentq npf_irr s = Ok v.
Proof.
  unfold _calc_xirr.
  destruct (xirr_xirr (lib_of_series s)) as [v|e]; simpl; [now exists v|].
  destruct (_xirr_fallback brentq (lib_of_series s)) as [fb|];
    [now exists (Some fb)|].
  destruct (npf_irr (map snd s)) as [x|e']; simpl; [|now exists None].
  destruct (Rnonzero x); eauto.
Qed.

(** C2, as the code has it: the bracket scan returns null on a degenerate
    series, but it only runs once the library solver has raised.  The
    result is the library's when it returns one; otherwise null, unless the
    periodic IRR returns a nonzero rate, which is annualised.  No series
    makes the solver raise. *)
Theorem C2_degenerate_series (s : series) :
  degenerate s ->
  _xirr_fallback brentq (lib_of_series s) = None /\
  (forall v : option R,
      xirr_xirr (lib_of_series s) = Ok v ->
      _calc_xirr xirr_xirr brentq npf_irr s = Ok v) /\
  (forall e : pyexn,
      xirr_xirr (lib_of_series s) = Raise e ->
      (forall e' : pyexn,
          npf_irr (map snd s) = Raise e' ->
          _calc_xirr xirr_xirr brentq npf_irr s = Ok None) /\
      (npf_irr (map snd s) = Ok 0 ->
       _calc_xirr xirr_xirr brentq npf_irr s = Ok None) /\
      (forall x : R,
          npf_irr (map snd s) = Ok x -> x <> 0 ->
          _calc_xirr xirr_xirr brentq npf_irr s
          = Ok (Some ((1 + x) ^ 12 - 1)))) /\
  (forall s' : series,
      exists v : option R, _calc_xirr xirr_xirr brentq npf_irr s' = Ok v).
Proof.
  intros Hdeg.
  pose proof (_xirr_fallback_degenerate brentq s Hdeg) as Hfb.
  split; [exact Hfb|]. split; [|split].
  - intros v Hv. unfold _calc_xirr. now rewrite Hv.
  - intros e He. unfold _calc_xirr. rewrite He, Hfb. simpl.
    split; [|split].
    + intros e' Hn. now rewrite Hn.
    + intros Hn. rewrite Hn. simpl. unfold Rnonzero.
      destruct (Req_dec_T 0 0); [reflexivity|contradiction].
    + intros x Hn Hx. rewrite Hn. simpl. unfold Rnonzero.
      destruct (Req_dec_T x 0); [contradiction|reflexivity].
  - apply _calc_xirr_returns.
Qed.

End SolverChain.

Lemma degenerate_single (d : date) (v : R) : degenerate [(d, v)].
Proof.
  left. unfold nonzero_entries. simpl.
  destruct (Rnonzero v); simpl; lia.
Qed.

(** The theorem at a single inflow of 100, with a library solver that
    fails. *)
Lemma C2_degenerate_series_witness :
  _calc_xirr xirr_fails brentq_fails npf_irr_fails [(mkdate 2020 1 1, 100)]
  = Ok None.
Proof.
  destruct (C2_degenerate_series xirr_fails brentq_fails npf_irr_fails
              [(mkdate 2020 1 1, 100)] (degenerate_single _ _))
    as (_ & _ & H & _).
  destruct (H LibraryError eq_refl) as (H1 & _).
  exact (H1 LibraryError eq_refl).
Defined.

(** C2 as stated fails on a single inflow, a degenerate series: where the
    library solver returns a value the solver hands it back, and where it
    raises, a nonzero periodic rate from [npf.irr] is annualised and
    returned. *)
Lemma C2_counterexample :
  degenerate [(mkdate 2020 1 1, 100)] /\
  _calc_xirr (xirr_returns (Some 1)) brentq_fails npf_irr_fails
    [(mkdate 2020 1 1, 100)]
  = Ok (Some 1) /\
  _calc_xirr xirr_fails brentq_fails (npf_irr_returns 1)
    [(mkdate 2020 1 1, 100)]
  = Ok (Some ((1 + 1) ^ 12 - 1)).
Proof.
  split; [apply degenerate_single|]. split.
  - reflexivity.
  - unfold _calc_xirr, xirr_fails. cbn [try_except].
    rewrite (_xirr_fallback_degenerate brentq_fails _ (degenerate_single _ _)).
    unfold npf_irr_returns, Rnonzero. cbn [bind try_except].
    destruct (Req_dec_T 1 0); [lra|reflexivity].
Qed.

(** ** Evaluating the helpers *)

Lemma Int_part_IZR (z : Z) : Int_part (IZR z) = z.
Proof. symmetry. apply Int_part_spec. lra. Qed.

Lemma py_int_IZR (z : Z) : py_int (IZR z) = z.
Proof.
  unfold py_int. destruct (Rle_dec 0 (IZR z)); [apply Int_part_IZR|].
  rewrite <- opp_IZR, Int_part_IZR. lia.
Qed.

Lemma py_round_IZR (z : Z) (n : nat) : py_round (IZR z) n = IZR z.
Proof.
  unfold py_round.
  assert (Hp : 0 < 10 ^ n) by (apply pow_lt; lra).
  assert (Hs : IZR z * 10 ^ n = IZR (z * 10 ^ Z.of_nat n)).
  { now rewrite mult_IZR, <- pow_IZR. }
  rewrite Hs, Int_part_IZR.
  replace (IZR (z * 10 ^ Z.of_nat n) - IZR (z * 10 ^ Z.of_nat n)) with 0
    by lra.
  destruct (Rlt_dec 0 (1 / 2)); [|lra].
  rewrite <- Hs. field. lra.
Qed.

Lemma float_pow_one (b y : R) : b = 1 -> float_pow b y = 1.
Proof.
  intros ->. unfold float_pow. destruct (Rlt_dec 0 1); [|lra].
  unfold Rpower. now rewrite ln_1, Rmult_0_r, exp_0.
Qed.

Lemma Rsum_repeat (c : R) (n : nat) : Rsum (repeat c n) = INR n * c.
Proof.
  induction n as [|n IH]; [simpl; lra|].
  rewrite S_INR. simpl. fold (Rsum (repeat c n)). rewrite IH. lra.
Qed.

Lemma col_add_map {A : Type} (g h : A -> R) (l : list A) :
  col_add (map g l) (map h l) = map (fun x => g x + h x) l.
Proof. unfold col_add. induction l; simpl; congruence. Qed.

Lemma map_constant {A : Type} (g : A -> R) (c : R) (l : list A) :
  (forall x, g x = c) -> map g l = repeat c (length l).
Proof. intros H. induction l; simpl; congruence. Qed.

Section Values.

Variable str_to_float : string -> option R.

Lemma f_PNone : f str_to_float PNone = Ok 0.
Proof. reflexivity. Qed.

Lemma f_PInt (z : Z) : f str_to_float (PInt z) = Ok (IZR z).
Proof.
  unfold f, truthy. destruct (Z.eqb_spec z 0) as [->|]; reflexivity.
Qed.

Lemma f_PFloat (r : R) : f str_to_float (PFloat r) = Ok r.
Proof.
  unfold f, truthy. destruct (Req_dec_T r 0) as [->|]; reflexivity.
Qed.

(** Where both conversions of a field succeed, they agree. *)
Lemma f_get_py_float (a : pydict) (key : string) (x y : R) :
  f str_to_float (get a key) = Ok x ->
  py_float str_to_float (get_default a key (PInt 0)) = Ok y ->
  x = y.
Proof.
  unfold get, get_default. destruct (dict_lookup a key) as [v|].
  - destruct v as [|z|r|s]; simpl.
    + discriminate.
    + rewrite f_PInt. congruence.
    + rewrite f_PFloat. congruence.
    + unfold f, truthy. destruct (String.eqb s EmptyString) eqn:E; simpl.
      * discriminate.
      * rewrite E. congruence.
  - rewrite f_PNone. simpl. congruence.
Qed.

End Values.

(** ** A projection without growth *)

Lemma iloc_tail_all {A : Type} (k : nat) (l : list A) :
  (length l <= k)%nat -> iloc_tail k l = l.
Proof.
  intros H. unfold iloc_tail.
  replace (length l - k)%nat with 0%nat by lia. reflexivity.
Qed.

(** With the three growth rates at 0 every month of the projection is the
    same. *)
Lemma flat_projection (p : Assumptions) :
  rent_growth p = 0 -> expense_growth p = 0 -> capex_growth p = 0 ->
  let df := monthly_frame p in
  let n := Z.to_nat (hold_months p) in
  let noi :=
    rent_base p + - rent_base p * vacancy p + other_income p
    + - expense_base p in
  GrossPotentialRent df = repeat (rent_base p) n /\
  OperatingExpenses df = repeat (- expense_base p) n /\
  NetOperatingIncome df = repeat noi n /\
  CashFlowBeforeDebtService df = repeat (noi + - capex_initial p) n.
Proof.
  intros Hr He Hc df n noi.
  set (l := map (fun m => (IZR m - 1) / 12)
              (map Z.of_nat (seq 1 (length (index df))))).
  assert (Hl : length l = n).
  { subst l n df. now rewrite !length_map, length_seq, length_index. }
  assert (Hg : GrossPotentialRent df = repeat (rent_base p) n).
  { rewrite <- Hl. apply map_constant. intros y.
    rewrite float_pow_one by lra. lra. }
  assert (Hv : VacancyLoss df = repeat (- rent_base p * vacancy p) n).
  { change (VacancyLoss df)
      with (map (fun g => - g * vacancy p) (GrossPotentialRent df)).
    rewrite Hg. clear. induction n; simpl; congruence. }
  assert (Ho : OtherIncome df = repeat (other_income p) n).
  { rewrite <- Hl. apply map_constant. intros y.
    rewrite float_pow_one by lra. lra. }
  assert (Hx : OperatingExpenses df = repeat (- expense_base p) n).
  { rewrite <- Hl. apply map_constant. intros y.
    rewrite float_pow_one by lra. lra. }
  assert (Hk : CapitalExpenses df = repeat (- capex_initial p) n).
  { rewrite <- Hl. apply map_constant. intros y.
    rewrite float_pow_one by lra. lra. }
  assert (Hadd : forall a b, col_add (repeat a n) (repeat b n)
                             = repeat (a + b) n).
  { intros a b. unfold col_add. clear. induction n; simpl; congruence. }
  assert (Hn : NetOperatingIncome df = repeat noi n).
  { change (NetOperatingIncome df)
      with (col_add (col_add (col_add (GrossPotentialRent df)
                                (VacancyLoss df)) (OtherIncome df))
              (OperatingExpenses df)).
    now rewrite Hg, Hv, Ho, Hx, !Hadd. }
  repeat split; try assumption.
  change (CashFlowBeforeDebtService df)
    with (col_add (NetOperatingIncome df) (CapitalExpenses df)).
  now rewrite Hn, Hk, Hadd.
Qed.

(** Without a loan, cash flow after debt service is cash flow before it. *)
Lemma no_loan_after_debt_service (p : Assumptions) :
  ~ 0 < loan_amount p ->
  let df := monthly_frame p in
  InterestPayment df = repeat 0 (Z.to_nat (hold_months p)) /\
  PrincipalPayment df = repeat 0 (Z.to_nat (hold_months p)) /\
  CashFlowAfterDebtService df = CashFlowBeforeDebtService df.
Proof.
  intros Hl df.
  assert (Hi : InterestPayment df = repeat 0 (Z.to_nat (hold_months p))).
  { subst df. cbn [monthly_frame InterestPayment].
    destruct (Rlt_dec 0 (loan_amount p)); [contradiction|].
    now rewrite map_const_repeat, length_date_range_M. }
  assert (Hp : PrincipalPayment df = repeat 0 (Z.to_nat (hold_months p))).
  { subst df. cbn [monthly_frame PrincipalPayment].
    destruct (Rlt_dec 0 (loan_amount p)); [contradiction|].
    now rewrite map_const_repeat, length_date_range_M. }
  repeat split; try assumption.
  change (CashFlowAfterDebtService df)
    with (col_add (col_add (CashFlowBeforeDebtService df)
                     (InterestPayment df)) (PrincipalPayment df)).
  rewrite Hi, Hp.
  assert (Hb : length (CashFlowBeforeDebtService df)
               = Z.to_nat (hold_months p)).
  { subst df. now rewrite length_CashFlowBeforeDebtService, length_index. }
  rewrite (col_add_zeros _ _ Hb). now apply col_add_zeros.
Qed.

(** ** The metrics computation *)

Section Metrics.

Variable str_to_float : string -> option R.
Variable pd_Timestamp : pyval -> py (option date).
Variable xirr_xirr : cashflow_dict -> py (option R).
Variable brentq : (R -> R) -> R -> R -> nat -> R -> py R.
Variable npf_irr : list R -> py R.

Lemma lookup_clean_loop (items : pydict) :
  forall (h : gmap nat pydict) (dc : nat) (cur : pydict),
    h !! dc = Some cur ->
    fold_left (clean_step str_to_float dc) items h !! dc
    = Some (fold_left
              (fun acc kv =>
                 if is_int_float_str (snd kv)
                    && negb (is_non_numeric_key (fst kv))
                 then setitem acc (fst kv)
                        (PFloat (_safe_float str_to_float (snd kv)))
                 else acc)
              items cur).
Proof.
  induction items as [|kv items IH]; intros h dc cur Hcur; simpl.
  - exact Hcur.
  - apply IH. unfold clean_step.
    destruct (is_int_float_str (snd kv) && negb (is_non_numeric_key (fst kv)));
      [|exact Hcur].
    unfold heap_setitem. rewrite Hcur. apply lookup_insert_eq.
Qed.

(** The outcome of a call is the metrics of the cleaned copy. *)
Lemma generate_return_metrics_outcome (data : nat) (h : gmap nat pydict)
    (d : pydict) :
  h !! data = Some d ->
  snd (generate_return_metrics str_to_float pd_Timestamp xirr_xirr brentq
         npf_irr data h)
  = compute_metrics str_to_float pd_Timestamp xirr_xirr brentq npf_irr
      (clean_dict str_to_float d).
Proof.
  intros Hd. unfold generate_return_metrics.
  pose proof (lookup_clean_loop d (<[fresh (dom h):=d]> h) (fresh (dom h)) d
                (lookup_insert_eq _ _ _)) as Hc.
  unfold pydict in *. rewrite Hd, Hc. reflexivity.
Qed.

(** Reading the assumptions back from a successful [read_assumptions]. *)
Lemma read_assumptions_purchase_price (a : pydict) (p : Assumptions) :
  read_assumptions str_to_float pd_Timestamp a = Ok p ->
  f str_to_float (get a "purchase_price") = Ok (purchase_price p).
Proof.
  unfold read_assumptions. intros H.
  repeat match type of H with
         | bind ?m _ = Ok _ =>
             let E := fresh "E" in destruct m eqn:E; simpl in H;
             [|discriminate H]
         end.
  destruct a0 as [d|]; [|discriminate H].
  injection H as <-. reflexivity.
Qed.

Lemma last_lookup (l : list R) (v d : R) :
  l !! (length l - 1)%nat = Some v -> List.last l d = v.
Proof.
  destruct l as [|x l] using rev_ind; [discriminate|].
  rewrite length_app, last_last. simpl.
  replace (length l + 1 - 1)%nat with (length l + 0)%nat by lia.
  rewrite lookup_app_r by lia.
  replace (length l + 0 - length l)%nat with 0%nat by lia.
  simpl. congruence.
Qed.

(** The two sale fields of a successful computation. *)
Lemma compute_metrics_sale_fields (dc : pydict) (m : metrics) :
  compute_metrics str_to_float pd_Timestamp xirr_xirr brentq npf_irr dc
  = Ok m ->
  exists p : Assumptions,
    read_assumptions str_to_float pd_Timestamp dc = Ok p /\
    metric m "projected_sale_price"
    = Some (Some (py_round (py_round (purchase_price p * (12 / 10)) 2) 6)) /\
    metric m "net_sale_proceeds"
    = Some (Some (py_round
                    (py_round
                       (List.last
                          (LeveredCashFlow
                             (equity_frame p (monthly_frame p))) 0) 2) 6)).
Proof.
  unfold compute_metrics, build_proforma. intros H.
  destruct (read_assumptions str_to_float pd_Timestamp dc) as [p|e] eqn:Hp;
    [|discriminate H].
  simpl in H.
  repeat match type of H with
         | bind ?m _ = Ok _ =>
             let E := fresh "E" in destruct m eqn:E; simpl in H;
             [|discriminate H]
         end.
  injection H as <-. exists p. split; [reflexivity|].
  pose proof (read_assumptions_purchase_price dc p Hp) as Hf.
  match goal with
  | E : py_float _ (get_default dc "purchase_price" _) = Ok ?y |- _ =>
      rewrite <- (f_get_py_float str_to_float dc "purchase_price" _ y Hf E)
  end.
  split; reflexivity.
Qed.

End Metrics.

(** ** Records on which the metrics are computed without an exception *)

Section Success.

Variable str_to_float : string -> option R.
Variable pd_Timestamp : pyval -> py (option date).
Variable xirr_xirr : cashflow_dict -> py (option R).
Variable brentq : (R -> R) -> R -> R -> nat -> R -> py R.
Variable npf_irr : list R -> py R.

Variable a : pydict.
Variables pp lv hy : R.
Hypothesis Hpp : dict_lookup a "purchase_price" = Some (PFloat pp).
Hypothesis Hlv : dict_lookup a "ltv" = Some (PFloat lv).
Hypothesis Hhy : dict_lookup a "hold_period_years" = Some (PFloat hy).

Lemma going_in_cap_rate_ok (df : MonthlyFrame) :
  exists v, going_in_cap_rate df a = Ok v.
Proof.
  unfold going_in_cap_rate, get, getitem. rewrite Hpp.
  destruct (truthy (PFloat pp)); cbn [bind py_mul py_add py_sub float_div py_float]; eauto.
Qed.

Lemma loan_constant_ok (df : MonthlyFrame) :
  exists v, loan_constant a df = Ok v.
Proof.
  unfold loan_constant, getitem. rewrite Hpp, Hlv. cbn [bind py_mul py_add py_sub float_div py_float].
  destruct (truthy (PFloat (pp * lv))); cbn [bind py_mul py_add py_sub float_div py_float]; eauto.
Qed.

Lemma going_in_dscr_ok (df : MonthlyFrame) :
  exists v, going_in_dscr a df = Ok v.
Proof.
  unfold going_in_dscr. destruct (Rnonzero _); eauto.
Qed.

Lemma going_in_debt_yield_ok (df : MonthlyFrame) :
  exists v, going_in_debt_yield a df = Ok v.
Proof.
  unfold going_in_debt_yield, getitem. rewrite Hpp, Hlv. cbn [bind py_mul py_add py_sub float_div py_float].
  destruct (truthy (PFloat (pp * lv))); cbn [bind py_mul py_add py_sub float_div py_float]; eauto.
Qed.

Lemma exit_ltv_ok (eq : EquityFrame) (ec : R) :
  py_float str_to_float
    (get_default a "exit_cap_rate_expectation" (PFloat (55 / 1000))) = Ok ec ->
  exists v, exit_ltv str_to_float a eq = Ok v.
Proof.
  intros Hec. unfold exit_ltv, get_default at 1 2. rewrite Hpp, Hlv, Hec.
  cbn [bind py_mul py_add py_sub float_div py_float]. destruct (Rlt_dec 0 ec); [|eauto].
  destruct (Rlt_dec 0 (pp * (11 / 10))); eauto.
Qed.

Lemma avg_unlevered_coc_ok (df : MonthlyFrame) :
  exists v, avg_unlevered_coc df a = Ok v.
Proof.
  unfold avg_unlevered_coc, getitem. rewrite Hpp, Hhy. cbn [bind py_mul py_add py_sub float_div py_float].
  destruct (truthy (PFloat pp)); eauto.
Qed.

Lemma avg_levered_coc_ok (df : MonthlyFrame) (cc : R) :
  get_default a "closing_costs" (PInt 0) = PFloat cc
  \/ get_default a "closing_costs" (PInt 0) = PInt 0 ->
  exists v, avg_levered_coc df a = Ok v.
Proof.
  intros Hcc. unfold avg_levered_coc, getitem. rewrite Hpp, Hlv, Hhy. cbn [bind py_mul py_add py_sub float_div py_float].
  destruct Hcc as [-> | ->]; cbn [bind py_mul py_add py_sub float_div py_float];
    match goal with
    | |- context [truthy ?v] => destruct (truthy v)
    end; eauto.
Qed.

(** On a record that gives the purchase price, the loan-to-value ratio and
    the hold period as floats, the metrics are computed once the projection
    is. *)
Lemma compute_metrics_ok (p : Assumptions) (ec cs cc : R) :
  read_assumptions str_to_float pd_Timestamp a = Ok p ->
  py_float str_to_float
    (get_default a "exit_cap_rate_expectation" (PFloat (55 / 1000))) = Ok ec ->
  py_float str_to_float
    (get_default a "cost_of_sale_percentage" (PFloat (5 / 100))) = Ok cs ->
  get_default a "closing_costs" (PInt 0) = PFloat cc
  \/ get_default a "closing_costs" (PInt 0) = PInt 0 ->
  exists m,
    compute_metrics str_to_float pd_Timestamp xirr_xirr brentq npf_irr a
    = Ok m.
Proof.
  intros Hp Hec Hcs Hcc. unfold compute_metrics, build_proforma.
  rewrite Hp. unfold project. cbn [bind fst snd].
  destruct (going_in_cap_rate_ok (monthly_frame p)) as [m1 ->].
  destruct (loan_constant_ok (monthly_frame p)) as [m2 ->].
  destruct (going_in_dscr_ok (monthly_frame p)) as [m3 ->].
  destruct (going_in_debt_yield_ok (monthly_frame p)) as [m4 ->].
  destruct (exit_ltv_ok (equity_frame p (monthly_frame p)) ec Hec) as [m5 ->].
  cbn [bind]. unfold unlevered_irr, levered_irr.
  destruct (_calc_xirr_returns xirr_xirr brentq npf_irr
              (zip (eq_index (equity_frame p (monthly_frame p)))
                 (UnleveredCashFlow (equity_frame p (monthly_frame p)))))
    as [m6 ->].
  destruct (_calc_xirr_returns xirr_xirr brentq npf_irr
              (zip (eq_index (equity_frame p (monthly_frame p)))
                 (LeveredCashFlow (equity_frame p (monthly_frame p)))))
    as [m7 ->].
  cbn [bind].
  destruct (avg_unlevered_coc_ok (monthly_frame p)) as [m10 ->].
  destruct (avg_levered_coc_ok (monthly_frame p) cc Hcc) as [m11 ->].
  cbn [bind]. rewrite Hcs.
  unfold get_default at 1. rewrite Hpp. cbn [py_float bind]. eauto.
Qed.

End Success.

(** ** The sample records *)

Ltac eval_read_assumptions :=
  cbv [read_assumptions get get_default dict_lookup String.eqb Ascii.eqb
       Bool.eqb Timestamp_2020];
  rewrite ?f_PFloat, ?f_PInt, ?f_PNone; cbn [bind];
  rewrite ?py_int_IZR.

Lemma clean_flat_year :
  clean_dict no_numeric_strings flat_year
  = [("date_of_close", PStr "2020-01-01");
     ("hold_period_years", PFloat 1);
     ("purchase_price", PFloat 1000);
     ("closing_costs", PFloat 0);
     ("rent_immediately_after_purchase", PFloat 10);
     ("vacancy_immediately_after_purchase", PFloat 0);
     ("operating_expenses_after_purchase", PFloat 0);
     ("capital_expense_after_purchase", PFloat 0);
     ("expected_rent_growth", PFloat 0);
     ("expected_expense_growth", PFloat 0);
     ("expected_capex_growth", PFloat 0);
     ("exit_cap_rate_expectation", PFloat 1);
     ("cost_of_sale_percentage", PFloat 0);
     ("ltv", PFloat 0);
     ("interest_rate", PFloat 0);
     ("amortization_years", PFloat 30)]%string.
Proof. reflexivity. Qed.

Lemma read_flat_year :
  read_assumptions no_numeric_strings Timestamp_2020
    (clean_dict no_numeric_strings flat_year)
  = Ok flat_year_assumptions.
Proof.
  rewrite clean_flat_year. eval_read_assumptions.
  unfold flat_year_assumptions. do 2 f_equal; lra.
Qed.

(** The last levered amount: the last month's cash flow after debt service
    and the net sale proceeds of the waterfall. *)
Lemma final_levered (p : Assumptions) :
  (1 <= hold_years p)%Z ->
  let df := monthly_frame p in
  exists cfa : R,
    CashFlowAfterDebtService df !! (Z.to_nat (hold_months p) - 1)%nat
    = Some cfa /\
    List.last (LeveredCashFlow (equity_frame p df)) 0
    = cfa + (sale_price p df - sale_cost p df - loan_payoff p df).
Proof.
  intros Hh df. set (n := Z.to_nat (hold_months p)).
  assert (Hn : (1 <= n)%nat) by (subst n; unfold hold_months; lia).
  assert (Hla : length (CashFlowAfterDebtService df) = n).
  { subst df n. now rewrite length_CashFlowAfterDebtService, length_index. }
  destruct (lookup_lt_is_Some_2 (CashFlowAfterDebtService df) (n - 1))
    as [cfa Hcfa]; [lia|].
  exists cfa. split; [exact Hcfa|].
  apply last_lookup. subst df. rewrite length_LeveredCashFlow.
  fold n. replace (S n - 1)%nat with n by lia.
  rewrite LeveredCashFlow_equity. now apply lookup_terminal.
Qed.

Lemma flat_year_waterfall :
  let p := flat_year_assumptions in
  let df := monthly_frame p in
  sale_price p df = 120 /\
  sale_cost p df = 0 /\
  loan_payoff p df = 0 /\
  List.last (LeveredCashFlow (equity_frame p df)) 0 = 130.
Proof.
  intros p df.
  destruct (flat_projection p eq_refl eq_refl eq_refl)
    as (_ & _ & Hnoi & Hcf).
  destruct (no_loan_after_debt_service p) as (_ & Hpr & Hads).
  { unfold loan_amount; simpl; lra. }
  fold df in Hnoi, Hcf, Hpr, Hads.
  change (Z.to_nat (hold_months p)) with 12%nat in *.
  assert (Hs : sale_price p df = 120).
  { unfold sale_price, f12_noi. rewrite Hnoi.
    rewrite iloc_tail_all by (rewrite repeat_length; lia).
    rewrite Rsum_repeat. simpl.
    destruct (Req_dec_T 1 0); lra. }
  assert (Hc : sale_cost p df = 0).
  { unfold sale_cost. rewrite Hs. simpl. lra. }
  assert (Hl : loan_payoff p df = 0).
  { unfold loan_payoff, loan_amount. rewrite Hpr, Rsum_repeat. simpl.
    unfold Rmax. destruct (Rle_dec _ 0); lra. }
  repeat split; try assumption.
  destruct (final_levered p) as (cfa & Hcfa & Hlast); [simpl; lia|].
  fold df in Hcfa, Hlast. rewrite Hlast, Hs, Hc, Hl.
  rewrite Hads, Hcf in Hcfa.
  change (Z.to_nat (hold_months p)) with 12%nat in Hcfa.
  simpl in Hcfa. injection Hcfa as <-. lra.
Qed.

(** ** The sale fields of the metrics *)

(** C1, as the code has it: [projected_sale_price] is the purchase price
    times 1.2 and [net_sale_proceeds] is the last levered equity amount,
    each rounded to 2 and then to 6 decimals.  From a hold of one year on,
    that last amount is the last month's cash flow after debt service plus
    the net proceeds of the sale waterfall. *)
Theorem C1_sale_fields
    (str_to_float : string -> option R)
    (pd_Timestamp : pyval -> py (option date))
    (xirr_xirr : cashflow_dict -> py (option R))
    (brentq : (R -> R) -> R -> R -> nat -> R -> py R)
    (npf_irr : list R -> py R)
    (data : nat) (h : gmap nat pydict) (m : metrics) :
  snd (generate_return_metrics str_to_float pd_Timestamp xirr_xirr brentq
         npf_irr data h) = Ok m ->
  exists (d : pydict) (p : Assumptions),
    h !! data = Some d /\
    read_assumptions str_to_float pd_Timestamp (clean_dict str_to_float d)
    = Ok p /\
    let df := monthly_frame p in
    let last_levered := List.last (LeveredCashFlow (equity_frame p df)) 0 in
    metric m "projected_sale_price"
    = Some (Some (py_round (py_round (purchase_price p * (12 / 10)) 2) 6)) /\
    metric m "net_sale_proceeds"
    = Some (Some (py_round (py_round last_levered 2) 6)) /\
    ((1 <= hold_years p)%Z ->
     exists cfa : R,
       CashFlowAfterDebtService df !! (Z.to_nat (hold_months p) - 1)%nat
       = Some cfa /\
       last_levered
       = cfa + (sale_price p df - sale_cost p df - loan_payoff p df)).
Proof.
  intros H. destruct (h !! data) as [d|] eqn:Hd.
  - rewrite (generate_return_metrics_outcome _ _ _ _ _ _ _ d Hd) in H.
    apply compute_metrics_sale_fields in H as (p & Hp & Hs & Hn).
    exists d, p. repeat split; try assumption.
    apply final_levered.
  - unfold generate_return_metrics in H. unfold pydict in *.
    rewrite Hd in H. discriminate H.
Qed.

Lemma flat_year_metrics
    (xirr_xirr : cashflow_dict -> py (option R))
    (brentq : (R -> R) -> R -> R -> nat -> R -> py R)
    (npf_irr : list R -> py R) :
  exists m : metrics,
    snd (generate_return_metrics no_numeric_strings Timestamp_2020 xirr_xirr
           brentq npf_irr 0 {[ 0%nat := flat_year ]}) = Ok m /\
    metric m "projected_sale_price" = Some (Some 1200) /\
    metric m "net_sale_proceeds" = Some (Some 130).
Proof.
  rewrite (generate_return_metrics_outcome _ _ _ _ _ _ _ flat_year)
    by apply lookup_singleton_eq.
  destruct (compute_metrics_ok no_numeric_strings Timestamp_2020 xirr_xirr
              brentq npf_irr (clean_dict no_numeric_strings flat_year)
              1000 0 1) with (p := flat_year_assumptions) (ec := 1) (cs := 0)
                              (cc := 0)
    as [m Hm]; try (rewrite clean_flat_year; reflexivity).
  - apply read_flat_year.
  - left. rewrite clean_flat_year. reflexivity.
  - exists m. split; [exact Hm|].
    apply compute_metrics_sale_fields in Hm as (p & Hp & Hs & Hn).
    rewrite read_flat_year in Hp. injection Hp as <-.
    destruct flat_year_waterfall as (_ & _ & _ & Hlast).
    rewrite Hs, Hn, Hlast. simpl purchase_price.
    replace (1000 * (12 / 10)) with (IZR 1200) by lra.
    rewrite !py_round_IZR. split; reflexivity.
Qed.

(** The theorem at the sample record. *)
Lemma C1_sale_fields_witness :
  exists (m : metrics) (p : Assumptions),
    metric m "projected_sale_price"
    = Some (Some (py_round (py_round (purchase_price p * (12 / 10)) 2) 6)).
Proof.
  destruct (flat_year_metrics xirr_fails brentq_fails npf_irr_fails)
    as (m & Hm & _).
  destruct (C1_sale_fields _ _ _ _ _ _ _ _ Hm) as (d & p & _ & _ & H & _).
  exists m, p. exact H.
Defined.

(** C1 as stated fails on the sample record: the waterfall sells for 120
    and nets 120, the metrics report 1200 and 130. *)
Lemma C1_counterexample :
  let p := flat_year_assumptions in
  let df := monthly_frame p in
  read_assumptions no_numeric_strings Timestamp_2020
    (clean_dict no_numeric_strings flat_year) = Ok p /\
  sale_price p df = 120 /\
  sale_price p df - sale_cost p df - loan_payoff p df = 120 /\
  exists m : metrics,
    snd (generate_return_metrics no_numeric_strings Timestamp_2020 xirr_fails
           brentq_fails npf_irr_fails 0 {[ 0%nat := flat_year ]}) = Ok m /\
    metric m "projected_sale_price" = Some (Some 1200) /\
    metric m "net_sale_proceeds" = Some (Some 130).
Proof.
  intros p df.
  destruct flat_year_waterfall as (Hs & Hc & Hl & _).
  fold p df in Hs, Hc, Hl.
  split; [apply read_flat_year|]. split; [exact Hs|].
  split; [rewrite Hs, Hc, Hl; lra|].
  apply flat_year_metrics.
Qed.

(** ** A hold period of zero years *)

Lemma zero_hold_frame (p : Assumptions) :
  hold_years p = 0%Z ->
  monthly_frame p = mkMonthly [] [] [] [] [] [] [] [] [] [] [] [] [] [].
Proof.
  intros Hh. unfold monthly_frame, date_range_M, hold_months. rewrite Hh.
  simpl. destruct (Rlt_dec 0 (loan_amount p)); reflexivity.
Qed.

(** C7, as the code has it: a hold period of zero years is not rejected.
    Once the cleaned record [a] is read, the projection is an empty monthly
    frame and an equity frame of the closing event alone, onto which a sale
    at price 0 and the payoff [max(purchase_price * ltv, 0)] of the whole
    loan are booked; and [generate_return_metrics] returns a metrics
    dictionary whenever [a] gives [purchase_price], [ltv] and
    [hold_period_years] as floats and [closing_costs],
    [exit_cap_rate_expectation] and [cost_of_sale_percentage] as floats or
    not at all. *)
Theorem C7_zero_hold_proceeds
    (str_to_float : string -> option R)
    (pd_Timestamp : pyval -> py (option date))
    (xirr_xirr : cashflow_dict -> py (option R))
    (brentq : (R -> R) -> R -> R -> nat -> R -> py R)
    (npf_irr : list R -> py R)
    (data : nat) (h : gmap nat pydict) (d : pydict) (p : Assumptions) :
  h !! data = Some d ->
  let a := clean_dict str_to_float d in
  read_assumptions str_to_float pd_Timestamp a = Ok p ->
  hold_years p = 0%Z ->
  (exists (df : MonthlyFrame) (eq : EquityFrame),
      build_proforma str_to_float pd_Timestamp a = Ok (df, eq) /\
      index df = [] /\
      NetOperatingIncome df = [] /\
      CashFlowAfterDebtService df = [] /\
      sale_price p df = 0 /\
      loan_payoff p df = Rmax (purchase_price p * ltv p) 0 /\
      eq_index eq = [date_of_close p] /\
      UnleveredCashFlow eq = [- purchase_price p - closing_costs p] /\
      LeveredCashFlow eq
      = [- purchase_price p - closing_costs p + purchase_price p * ltv p
         - Rmax (purchase_price p * ltv p) 0]) /\
  (forall pp lv hy : R,
      dict_lookup a "purchase_price" = Some (PFloat pp) ->
      dict_lookup a "ltv" = Some (PFloat lv) ->
      dict_lookup a "hold_period_years" = Some (PFloat hy) ->
      (forall k : string,
          In k ["closing_costs"; "exit_cap_rate_expectation";
                "cost_of_sale_percentage"]%string ->
          dict_lookup a k = None
          \/ exists r : R, dict_lookup a k = Some (PFloat r)) ->
      exists m : metrics,
        snd (generate_return_metrics str_to_float pd_Timestamp xirr_xirr
               brentq npf_irr data h) = Ok m).
Proof.
  intros Hd a Hp Hh. split.
  - exists (monthly_frame p), (equity_frame p (monthly_frame p)).
    split; [unfold build_proforma; now rewrite Hp|].
    assert (Hs : sale_price p (monthly_frame p) = 0).
    { unfold sale_price, f12_noi. rewrite (zero_hold_frame p Hh). simpl.
      destruct (Req_dec_T (exit_cap p) 0); [reflexivity|].
      unfold Rdiv. apply Rmult_0_l. }
    assert (Hl : loan_payoff p (monthly_frame p)
                 = Rmax (purchase_price p * ltv p) 0).
    { unfold loan_payoff, loan_amount. rewrite (zero_hold_frame p Hh). simpl.
      f_equal. lra. }
    rewrite UnleveredCashFlow_equity, LeveredCashFlow_equity.
    unfold sale_cost. rewrite Hs, Hl.
    rewrite (zero_hold_frame p Hh).
    repeat split; try reflexivity; try assumption.
    + unfold iloc_last_add. simpl. f_equal. lra.
    + unfold iloc_last_add, loan_amount. simpl. f_equal. lra.
  - intros pp lv hy Hpp Hlv Hhy Hk.
    rewrite (generate_return_metrics_outcome _ _ _ _ _ _ _ d Hd). fold a.
    assert (Hec : exists ec,
               py_float str_to_float
                 (get_default a "exit_cap_rate_expectation"
                    (PFloat (55 / 1000))) = Ok ec).
    { unfold get_default.
      destruct (Hk "exit_cap_rate_expectation"%string) as [-> | [r ->]];
        [simpl; tauto | |]; simpl; eauto. }
    assert (Hcs : exists cs,
               py_float str_to_float
                 (get_default a "cost_of_sale_percentage"
                    (PFloat (5 / 100))) = Ok cs).
    { unfold get_default.
      destruct (Hk "cost_of_sale_percentage"%string) as [-> | [r ->]];
        [simpl; tauto | |]; simpl; eauto. }
    assert (Hcc : exists cc,
               get_default a "closing_costs" (PInt 0) = PFloat cc
               \/ get_default a "closing_costs" (PInt 0) = PInt 0).
    { unfold get_default.
      destruct (Hk "closing_costs"%string) as [-> | [r ->]];
        [simpl; tauto | |]; [exists 0; now right | exists r; now left]. }
    destruct Hec as [ec Hec], Hcs as [cs Hcs], Hcc as [cc Hcc].
    exact (compute_metrics_ok str_to_float pd_Timestamp xirr_xirr brentq
             npf_irr a pp lv hy Hpp Hlv Hhy p ec cs cc Hp Hec Hcs Hcc).
Qed.

Lemma clean_zero_hold :
  clean_dict no_numeric_strings zero_hold
  = [("date_of_close", PStr "2020-01-01");
     ("hold_period_years", PFloat 0);
     ("purchase_price", PFloat 0);
     ("closing_costs", PFloat 0);
     ("rent_immediately_after_purchase", PFloat 10);
     ("vacancy_immediately_after_purchase", PFloat 0);
     ("operating_expenses_after_purchase", PFloat 0);
     ("capital_expense_after_purchase", PFloat 0);
     ("expected_rent_growth", PFloat 0);
     ("expected_expense_growth", PFloat 0);
     ("expected_capex_growth", PFloat 0);
     ("exit_cap_rate_expectation", PFloat 1);
     ("cost_of_sale_percentage", PFloat 0);
     ("ltv", PFloat 0);
     ("interest_rate", PFloat 0);
     ("amortization_years", PFloat 30)]%string.
Proof. reflexivity. Qed.

Lemma read_zero_hold :
  read_assumptions no_numeric_strings Timestamp_2020
    (clean_dict no_numeric_strings zero_hold)
  = Ok zero_hold_assumptions.
Proof.
  rewrite clean_zero_hold. eval_read_assumptions.
  unfold zero_hold_assumptions. do 2 f_equal; lra.
Qed.

Lemma zero_hold_optional_keys (k : string) :
  In k ["closing_costs"; "exit_cap_rate_expectation";
        "cost_of_sale_percentage"]%string ->
  dict_lookup (clean_dict no_numeric_strings zero_hold) k = None
  \/ exists r : R,
      dict_lookup (clean_dict no_numeric_strings zero_hold) k
      = Some (PFloat r).
Proof.
  rewrite clean_zero_hold.
  intros [<- | [<- | [<- | []]]]; right; eexists; reflexivity.
Qed.

(** The theorem at the sample record with a hold period of 0. *)
Lemma C7_zero_hold_proceeds_witness :
  (exists (df : MonthlyFrame) (eq : EquityFrame),
      build_proforma no_numeric_strings Timestamp_2020
        (clean_dict no_numeric_strings zero_hold) = Ok (df, eq) /\
      index df = [] /\
      LeveredCashFlow eq = [- 0 - 0 + 0 * 0 - Rmax (0 * 0) 0]) /\
  exists m : metrics,
    snd (generate_return_metrics no_numeric_strings Timestamp_2020
           xirr_fails brentq_fails npf_irr_fails 0
           {[ 0%nat := zero_hold ]}) = Ok m.
Proof.
  destruct (C7_zero_hold_proceeds no_numeric_strings Timestamp_2020
              xirr_fails brentq_fails npf_irr_fails 0
              {[ 0%nat := zero_hold ]} zero_hold zero_hold_assumptions
              (lookup_singleton_eq _ _) read_zero_hold eq_refl)
    as [(df & eq & Hb & Hi & _ & _ & _ & _ & _ & _ & Hl) Hm].
  split.
  - exists df, eq. repeat split; assumption.
  - apply (Hm 0 0 0); try (rewrite clean_zero_hold; reflexivity).
    apply zero_hold_optional_keys.
Defined.

(** C7 as stated fails at a hold period of 0: the call returns metrics,
    computed from a schedule without rows. *)
Lemma C7_counterexample :
  dict_lookup zero_hold "hold_period_years" = Some (PInt 0) /\
  (exists m : metrics,
      snd (generate_return_metrics no_numeric_strings Timestamp_2020
             xirr_fails brentq_fails npf_irr_fails 0
             {[ 0%nat := zero_hold ]}) = Ok m) /\
  exists (df : MonthlyFrame) (eq : EquityFrame),
    build_proforma no_numeric_strings Timestamp_2020
      (clean_dict no_numeric_strings zero_hold) = Ok (df, eq) /\
    index df = [] /\
    length (eq_index eq) = 1%nat.
Proof.
  split; [reflexivity|]. split.
  - rewrite (generate_return_metrics_outcome _ _ _ _ _ _ _ zero_hold)
      by apply lookup_singleton_eq.
    apply (compute_metrics_ok no_numeric_strings Timestamp_2020 xirr_fails
             brentq_fails npf_irr_fails
             (clean_dict no_numeric_strings zero_hold) 0 0 0)
      with (p := zero_hold_assumptions) (ec := 1) (cs := 0) (cc := 0);
      try (rewrite clean_zero_hold; reflexivity).
    + apply read_zero_hold.
    + left. rewrite clean_zero_hold. reflexivity.
  - exists (monthly_frame zero_hold_assumptions),
      (equity_frame zero_hold_assumptions
         (monthly_frame zero_hold_assumptions)).
    split; [unfold build_proforma; now rewrite read_zero_hold|].
    rewrite (zero_hold_frame zero_hold_assumptions eq_refl).
    split; reflexivity.
Qed.

(** ** A record without [ltv] *)

Lemma clean_no_ltv :
  clean_dict no_numeric_strings no_ltv
  = [("date_of_close", PStr "2020-01-01");
     ("hold_period_years", PFloat 1);
     ("purchase_price", PFloat 1000)]%string.
Proof. reflexivity. Qed.

Lemma read_no_ltv :
  read_assumptions no_numeric_strings Timestamp_2020
    (clean_dict no_numeric_strings no_ltv)
  = Ok no_ltv_assumptions.
Proof.
  rewrite clean_no_ltv. eval_read_assumptions.
  unfold no_ltv_assumptions. do 2 f_equal; lra.
Qed.

(** C8 at a record without [ltv]: the projection reads the default 0.7 and
    is built, then [loan_constant] looks the key up and the call ends in
    [KeyError]. *)
Theorem C8_missing_ltv_raises
    (xirr_xirr : cashflow_dict -> py (option R))
    (brentq : (R -> R) -> R -> R -> nat -> R -> py R)
    (npf_irr : list R -> py R) :
  dict_lookup no_ltv "ltv" = None /\
  build_proforma no_numeric_strings Timestamp_2020
    (clean_dict no_numeric_strings no_ltv)
  = Ok (project no_ltv_assumptions) /\
  ltv no_ltv_assumptions = 7 / 10 /\
  snd (generate_return_metrics no_numeric_strings Timestamp_2020 xirr_xirr
         brentq npf_irr 0 {[ 0%nat := no_ltv ]})
  = Raise (KeyError "ltv").
Proof.
  split; [reflexivity|].
  split; [unfold build_proforma; now rewrite read_no_ltv|].
  split; [reflexivity|].
  rewrite (generate_return_metrics_outcome _ _ _ _ _ _ _ no_ltv)
    by apply lookup_singleton_eq.
  unfold compute_metrics, build_proforma. rewrite read_no_ltv.
  unfold project. cbn [bind fst snd].
  destruct (going_in_cap_rate_ok (clean_dict no_numeric_strings no_ltv) 1000
              eq_refl (monthly_frame no_ltv_assumptions)) as [m1 ->].
  cbn [bind]. reflexivity.
Qed.

(** ** The theorems at sample records *)

Lemma C3_monthly_row_witness :
  GrossPotentialRent (monthly_frame two_years) !! 12%nat
  = Some (10 * Rpower (1 + 4 / 100) ((13 - 1) / 12)).
Proof.
  destruct (C3_monthly_row two_years 13) as (_ & H & _).
  - simpl. lra.
  - simpl. lra.
  - simpl. lia.
  - exact H.
Defined.

Lemma C4_full_amortization_witness :
  Rsum (map (fun m => ppmt (monthly_rate levered_year) m (nper levered_year)
                        (loan_amount levered_year))
          (map Z.of_nat (seq 1 (Z.to_nat (nper levered_year)))))
  = - loan_amount levered_year.
Proof.
  destruct (C4_full_amortization levered_year) as (H & _).
  - unfold loan_amount. simpl. lra.
  - unfold monthly_rate. simpl. lra.
  - simpl. lia.
  - exact H.
Defined.

Lemma C5_terminal_event_witness :
  length (eq_index (equity_frame flat_year_assumptions
                      (monthly_frame flat_year_assumptions)))
  = S (Z.to_nat (hold_months flat_year_assumptions)).
Proof.
  destruct (C5_terminal_event flat_year_assumptions) as (H & _).
  - simpl. lia.
  - exact H.
Defined.

Lemma C6_equity_events_witness :
  NoDup (eq_index (equity_frame flat_year_assumptions
                     (monthly_frame flat_year_assumptions))).
Proof.
  destruct (C6_equity_events flat_year_assumptions) as (_ & _ & _ & _ & H & _).
  - simpl. lia.
  - unfold valid_date. change (days_in_month _ _) with 31%Z. simpl. lia.
  - exact H.
Defined.

Lemma C9_no_loan_witness :
  LeveredCashFlow (equity_frame flat_year_assumptions
                     (monthly_frame flat_year_assumptions))
  = UnleveredCashFlow (equity_frame flat_year_assumptions
                         (monthly_frame flat_year_assumptions)).
Proof.
  destruct (C9_no_loan flat_year_assumptions) as (_ & _ & _ & H).
  - unfold loan_amount. simpl. lra.
  - exact H.
Defined.

(** * Further properties of the engines *)

(** ** The shape of the monthly frame *)

Lemma length_monthly_columns (p : Assumptions) :
  let df := monthly_frame p in
  let n := Z.to_nat (hold_months p) in
  length (MonthNum df) = n /\ length (YearsFrac df) = n /\
  length (GrossPotentialRent df) = n /\ length (VacancyLoss df) = n /\
  length (OtherIncome df) = n /\ length (NetRentalRevenue df) = n /\
  length (OperatingExpenses df) = n /\ length (NetOperatingIncome df) = n /\
  length (CapitalExpenses df) = n /\
  length (CashFlowBeforeDebtService df) = n /\
  length (InterestPayment df) = n /\ length (PrincipalPayment df) = n /\
  length (CashFlowAfterDebtService df) = n.
Proof.
  intros df n.
  assert (Hb : length (CashFlowBeforeDebtService df) = n).
  { subst df n. now rewrite length_CashFlowBeforeDebtService, length_index. }
  assert (Hi : length (InterestPayment df) = n).
  { subst df n. now rewrite length_InterestPayment, length_index. }
  assert (Hp : length (PrincipalPayment df) = n).
  { subst df n. now rewrite length_PrincipalPayment, length_index. }
  assert (Ha : length (CashFlowAfterDebtService df) = n).
  { subst df n. now rewrite length_CashFlowAfterDebtService, length_index. }
  assert (Hn : length (NetOperatingIncome df) = n).
  { subst df n. apply length_NetOperatingIncome. }
  repeat split; try assumption; subst df n; simpl;
    repeat (rewrite length_col_add);
    now rewrite ?length_map, ?length_seq, ?length_date_range_M.
Qed.

(** X1: a hold of H years gives a monthly frame of exactly 12 H rows, every
    column of which has that length. *)
Theorem X1_schedule_shape (p : Assumptions) :
  (0 <= hold_years p)%Z ->
  let df := monthly_frame p in
  Z.of_nat (length (index df)) = (12 * hold_years p)%Z /\
  length (MonthNum df) = length (index df) /\
  Forall (fun col : list R => length col = length (index df))
    [YearsFrac df; GrossPotentialRent df; VacancyLoss df; OtherIncome df;
     NetRentalRevenue df; OperatingExpenses df; NetOperatingIncome df;
     CapitalExpenses df; CashFlowBeforeDebtService df; InterestPayment df;
     PrincipalPayment df; CashFlowAfterDebtService df].
Proof.
  intros Hh df.
  pose proof (length_monthly_columns p) as H. cbv zeta in H. fold df in H.
  assert (Hi : length (index df) = Z.to_nat (hold_months p))
    by apply length_index.
  rewrite Hi. split; [unfold hold_months; lia|].
  repeat (apply conj || apply Forall_cons || apply Forall_nil); intuition.
Qed.

Lemma X1_schedule_shape_witness :
  Z.of_nat (length (index (monthly_frame flat_year_assumptions))) = 12%Z.
Proof.
  destruct (X1_schedule_shape flat_year_assumptions) as (H & _).
  - simpl. lia.
  - exact H.
Defined.

(** X2: the dates of the monthly frame are month ends, one per calendar
    month from the month after closing on, in strictly increasing order. *)
Theorem X2_monthly_dates (p : Assumptions) (i : nat) (d : date) :
  index (monthly_frame p) !! i = Some d ->
  (1 <= month d <= 12)%Z /\
  day d = days_in_month (year d) (month d) /\
  month_key d = (month_key (date_of_close p) + 1 + Z.of_nat i)%Z /\
  forall (j : nat) (d' : date),
    (i < j)%nat -> index (monthly_frame p) !! j = Some d' -> date_lt d d'.
Proof.
  intros Hd.
  assert (Hi : (i < Z.to_nat (hold_months p))%nat).
  { apply lookup_lt_Some in Hd. now rewrite length_index in Hd. }
  pose proof Hd as Hd0.
  simpl in Hd. rewrite lookup_date_range_M in Hd by assumption.
  injection Hd as <-.
  split; [apply month_range_month_end|]. split.
  { unfold month_end.
    destruct (shift_month _ _ _) as [y m]. reflexivity. }
  split.
  { rewrite month_key_month_end, month_key_add_months. lia. }
  intros j d' Hij Hj.
  assert (Hjn : (j < Z.to_nat (hold_months p))%nat).
  { apply lookup_lt_Some in Hj. now rewrite length_index in Hj. }
  simpl in Hj. rewrite lookup_date_range_M in Hj by assumption.
  injection Hj as <-.
  apply month_key_lt; try apply month_range_month_end.
  rewrite !month_key_month_end. lia.
Qed.

Lemma X2_monthly_dates_witness :
  month_key (month_end (add_months (mkdate 2020 1 1) 1) 0)
  = (month_key (mkdate 2020 1 1) + 1 + 0)%Z.
Proof.
  destruct (X2_monthly_dates flat_year_assumptions 0
              (month_end (add_months (mkdate 2020 1 1) 1) 0))
    as (_ & _ & H & _).
  - apply (lookup_date_range_M _ 12 0). lia.
  - exact H.
Defined.

(** X3: between the closing event and the last one, the equity events are
    the monthly rows: the date of the row and its cash flow before and
    after debt service. *)
Theorem X3_interior_events (p : Assumptions) (i : nat) :
  (1 <= i < Z.to_nat (hold_months p))%nat ->
  let df := monthly_frame p in
  let eq := equity_frame p df in
  eq_index eq !! i = index df !! (i - 1)%nat /\
  UnleveredCashFlow eq !! i = CashFlowBeforeDebtService df !! (i - 1)%nat /\
  LeveredCashFlow eq !! i = CashFlowAfterDebtService df !! (i - 1)%nat.
Proof.
  intros Hi df eq. destruct i as [|i]; [lia|].
  replace (S i - 1)%nat with i by lia.
  split; [reflexivity|]. subst eq df. split.
  - rewrite UnleveredCashFlow_equity, lookup_iloc_last_add_lt; [reflexivity|].
    cbn [length]. rewrite length_CashFlowBeforeDebtService, length_index. lia.
  - rewrite LeveredCashFlow_equity, lookup_iloc_last_add_lt; [reflexivity|].
    cbn [length]. rewrite length_CashFlowAfterDebtService, length_index. lia.
Qed.

Lemma X3_interior_events_witness :
  UnleveredCashFlow (equity_frame flat_year_assumptions
                       (monthly_frame flat_year_assumptions)) !! 1%nat
  = CashFlowBeforeDebtService (monthly_frame flat_year_assumptions) !! 0%nat.
Proof.
  destruct (X3_interior_events flat_year_assumptions 1) as (_ & H & _).
  - change (Z.to_nat (hold_months flat_year_assumptions)) with 12%nat. lia.
  - exact H.
Defined.

(** X4: in month [t] net rental revenue is rent plus vacancy loss plus
    other income, capital expenses follow their own growth curve (a real
    power, for a growth rate above -1), cash flow before debt service is
    NOI plus capital expenses, and cash flow after debt service adds the
    interest and principal of payment [t] of the loan of
    [purchase_price * ltv] at the monthly rate [interest_rate / 12] over
    [amort_years * 12] payments, both 0 when the loan amount is not
    positive. *)
Theorem X4_cash_flow_row (p : Assumptions) (t : Z) :
  0 < 1 + capex_growth p ->
  (1 <= t <= hold_years p * 12)%Z ->
  let df := monthly_frame p in
  let i := Z.to_nat (t - 1) in
  let y := (IZR t - 1) / 12 in
  let loan := purchase_price p * ltv p in
  exists gpr vac oth noi ip pp : R,
    GrossPotentialRent df !! i = Some gpr /\
    VacancyLoss df !! i = Some vac /\
    OtherIncome df !! i = Some oth /\
    NetOperatingIncome df !! i = Some noi /\
    InterestPayment df !! i = Some ip /\
    PrincipalPayment df !! i = Some pp /\
    NetRentalRevenue df !! i = Some (gpr + vac + oth) /\
    CapitalExpenses df !! i
    = Some (- capex_initial p * Rpower (1 + capex_growth p) y) /\
    CashFlowBeforeDebtService df !! i
    = Some (noi + - capex_initial p * Rpower (1 + capex_growth p) y) /\
    CashFlowAfterDebtService df !! i
    = Some (noi + - capex_initial p * Rpower (1 + capex_growth p) y
            + ip + pp) /\
    (0 < loan ->
     ip = ipmt (interest_rate p / 12) t (amort_years p * 12) loan /\
     pp = ppmt (interest_rate p / 12) t (amort_years p * 12) loan) /\
    (~ 0 < loan -> ip = 0 /\ pp = 0).
Proof.
  intros Hcg Ht df i y loan.
  change loan with (loan_amount p).
  change (interest_rate p / 12) with (monthly_rate p).
  change (amort_years p * 12)%Z with (nper p).
  rewrite <- (float_pow_Rpower _ y Hcg).
  assert (Hi : (i < Z.to_nat (hold_months p))%nat)
    by (subst i; unfold hold_months; lia).
  assert (HS : Z.of_nat (S i) = t) by (subst i; lia).
  pose proof (lookup_MonthNum p i Hi) as Hm.
  pose proof (lookup_YearsFrac p i Hi) as Hy.
  rewrite HS in Hm, Hy. fold df in Hm, Hy.
  destruct (length_monthly_columns p)
    as (_ & _ & Lg & Lv & Lo & _ & _ & Ln & _ & _ & Li & Lp & _).
  fold df in Lg, Lv, Lo, Ln, Li, Lp.
  destruct (lookup_lt_is_Some_2 (GrossPotentialRent df) i) as [gpr Hg];
    [lia|].
  destruct (lookup_lt_is_Some_2 (VacancyLoss df) i) as [vac Hv]; [lia|].
  destruct (lookup_lt_is_Some_2 (OtherIncome df) i) as [oth Ho]; [lia|].
  destruct (lookup_lt_is_Some_2 (NetOperatingIncome df) i) as [noi Hn];
    [lia|].
  destruct (lookup_lt_is_Some_2 (InterestPayment df) i) as [ip Hip]; [lia|].
  destruct (lookup_lt_is_Some_2 (PrincipalPayment df) i) as [pp Hpp]; [lia|].
  exists gpr, vac, oth, noi, ip, pp.
  assert (Hc : CapitalExpenses df !! i
               = Some (- capex_initial p * float_pow (1 + capex_growth p) y)).
  { change (CapitalExpenses df)
      with (map (fun y => - capex_initial p * float_pow (1 + capex_growth p) y)
              (YearsFrac df)).
    now rewrite lookup_map, Hy. }
  assert (Hb : CashFlowBeforeDebtService df !! i
               = Some (noi + - capex_initial p
                               * float_pow (1 + capex_growth p) y)).
  { change (CashFlowBeforeDebtService df)
      with (col_add (NetOperatingIncome df) (CapitalExpenses df)).
    unfold col_add. now rewrite lookup_zip_with, Hn, Hc. }
  repeat (split; [assumption|]).
  split.
  { change (NetRentalRevenue df)
      with (col_add (col_add (GrossPotentialRent df) (VacancyLoss df))
              (OtherIncome df)).
    unfold col_add. now rewrite !lookup_zip_with, Hg, Hv, Ho. }
  split; [exact Hc|]. split; [exact Hb|]. split.
  { change (CashFlowAfterDebtService df)
      with (col_add (col_add (CashFlowBeforeDebtService df)
                       (InterestPayment df)) (PrincipalPayment df)).
    unfold col_add. now rewrite !lookup_zip_with, Hb, Hip, Hpp. }
  subst df. cbn [monthly_frame InterestPayment PrincipalPayment] in Hip, Hpp.
  cbn [monthly_frame MonthNum] in Hm.
  destruct (Rlt_dec 0 (loan_amount p)) as [Hl|Hl].
  - rewrite lookup_map, Hm in Hip, Hpp.
    injection Hip as <-. injection Hpp as <-.
    split; [auto|contradiction].
  - rewrite lookup_map in Hip, Hpp.
    destruct (date_range_M _ _ !! i); [|discriminate].
    injection Hip as <-. injection Hpp as <-.
    split; [contradiction|auto].
Qed.

Lemma X4_cash_flow_row_witness :
  exists noi : R,
    CashFlowBeforeDebtService (monthly_frame flat_year_assumptions) !! 0%nat
    = Some (noi + - 0 * Rpower (1 + 0) ((1 - 1) / 12)).
Proof.
  destruct (X4_cash_flow_row flat_year_assumptions 1)
    as (gpr & vac & oth & noi & ip & pp & _ & _ & _ & _ & _ & _ & _ & _ & H & _).
  - simpl. lra.
  - simpl. lia.
  - exists noi. exact H.
Defined.

(** ** Reading the assumption record *)

Section Reading.

Variable str_to_float : string -> option R.
Variable pd_Timestamp : pyval -> py (option date).

(** What a successful [read_assumptions] has read. *)
Lemma read_assumptions_inv (a : pydict) (p : Assumptions) :
  read_assumptions str_to_float pd_Timestamp a = Ok p ->
  pd_Timestamp (get a "date_of_close") = Ok (Some (date_of_close p)) /\
  (exists hy,
      f str_to_float (get_default a "hold_period_years" (PInt 10)) = Ok hy
      /\ hold_years p = py_int hy) /\
  f str_to_float (get a "purchase_price") = Ok (purchase_price p) /\
  (exists cc,
      f str_to_float (get_default a "closing_costs" (PFloat (2 / 100)))
      = Ok cc
      /\ closing_costs p = purchase_price p * cc) /\
  f str_to_float (get a "rent_immediately_after_purchase")
  = Ok (rent_base p) /\
  f str_to_float
    (get_default a "vacancy_immediately_after_purchase" (PFloat (5 / 100)))
  = Ok (vacancy p) /\
  f str_to_float
    (get_default a "other_income_immediately_after_purchase" (PInt 0))
  = Ok (other_income p) /\
  f str_to_float (get a "operating_expenses_after_purchase")
  = Ok (expense_base p) /\
  f str_to_float (get a "capital_expense_after_purchase")
  = Ok (capex_initial p) /\
  f str_to_float (get_default a "expected_rent_growth" (PFloat (4 / 100)))
  = Ok (rent_growth p) /\
  f str_to_float (get_default a "expected_expense_growth" (PFloat (25 / 1000)))
  = Ok (expense_growth p) /\
  f str_to_float (get_default a "expected_capex_growth" (PFloat (2 / 100)))
  = Ok (capex_growth p) /\
  f str_to_float (get_default a "expected_appreciation" (PFloat (54 / 1000)))
  = Ok (appreciation p) /\
  f str_to_float
    (get_default a "exit_cap_rate_expectation" (PFloat (55 / 1000)))
  = Ok (exit_cap p) /\
  f str_to_float (get_default a "cost_of_sale_percentage" (PFloat (5 / 100)))
  = Ok (cost_of_sale p) /\
  f str_to_float (get_default a "ltv" (PFloat (7 / 10))) = Ok (ltv p) /\
  f str_to_float (get_default a "interest_rate" (PFloat (45 / 1000)))
  = Ok (interest_rate p) /\
  (exists ay,
      f str_to_float (get_default a "amortization_years" (PInt 30)) = Ok ay
      /\ amort_years p = py_int ay).
Proof.
  unfold read_assumptions. intros H.
  repeat match type of H with
         | bind ?m _ = Ok _ =>
             let E := fresh "E" in destruct m eqn:E; simpl in H;
             [|discriminate H]
         end.
  destruct a0 as [d|]; [|discriminate H].
  injection H as H. subst p. cbn.
  repeat match goal with
         | |- _ /\ _ => split
         | |- exists _, _ => eexists; split; reflexivity
         end; reflexivity.
Qed.

Lemma get_default_absent (a : pydict) (key : string) (v : pyval) :
  dict_lookup a key = None -> get_default a key v = v.
Proof. intros H. unfold get_default. now rewrite H. Qed.

Lemma get_absent (a : pydict) (key : string) :
  dict_lookup a key = None -> get a key = PNone.
Proof. intros H. unfold get. now rewrite H. Qed.

Lemma get_default_present (a : pydict) (key : string) (v w : pyval) :
  dict_lookup a key = Some w -> get_default a key v = w.
Proof. intros H. unfold get_default. now rewrite H. Qed.

Lemma get_present (a : pydict) (key : string) (w : pyval) :
  dict_lookup a key = Some w -> get a key = w.
Proof. intros H. unfold get. now rewrite H. Qed.

Ltac field_of_read H K :=
  first [ rewrite (get_default_absent _ _ _ K) in H
        | rewrite (get_absent _ _ K) in H
        | rewrite (get_default_present _ _ _ _ K) in H
        | rewrite (get_present _ _ _ K) in H ];
  rewrite ?f_PFloat, ?f_PInt, ?f_PNone in H;
  injection H as <-.

(** X5: a key that the record leaves out is read as its default: 10 years
    of hold, 30 of amortization, closing costs of 2 percent of the price,
    0.05 vacancy, the four growth rates, 0.055 exit cap, 0.05 cost of sale,
    0.7 loan to value, 0.045 interest, and 0 for the price, the rent, other
    income, the expenses and the capital expense. *)
Theorem X5_absent_keys_default (a : pydict) (p : Assumptions) :
  read_assumptions str_to_float pd_Timestamp a = Ok p ->
  (dict_lookup a "hold_period_years" = None -> hold_years p = 10%Z) /\
  (dict_lookup a "purchase_price" = None -> purchase_price p = 0) /\
  (dict_lookup a "closing_costs" = None ->
   closing_costs p = purchase_price p * (2 / 100)) /\
  (dict_lookup a "rent_immediately_after_purchase" = None ->
   rent_base p = 0) /\
  (dict_lookup a "vacancy_immediately_after_purchase" = None ->
   vacancy p = 5 / 100) /\
  (dict_lookup a "other_income_immediately_after_purchase" = None ->
   other_income p = 0) /\
  (dict_lookup a "operating_expenses_after_purchase" = None ->
   expense_base p = 0) /\
  (dict_lookup a "capital_expense_after_purchase" = None ->
   capex_initial p = 0) /\
  (dict_lookup a "expected_rent_growth" = None -> rent_growth p = 4 / 100) /\
  (dict_lookup a "expected_expense_growth" = None ->
   expense_growth p = 25 / 1000) /\
  (dict_lookup a "expected_capex_growth" = None ->
   capex_growth p = 2 / 100) /\
  (dict_lookup a "expected_appreciation" = None ->
   appreciation p = 54 / 1000) /\
  (dict_lookup a "exit_cap_rate_expectation" = None ->
   exit_cap p = 55 / 1000) /\
  (dict_lookup a "cost_of_sale_percentage" = None ->
   cost_of_sale p = 5 / 100) /\
  (dict_lookup a "ltv" = None -> ltv p = 7 / 10) /\
  (dict_lookup a "interest_rate" = None -> interest_rate p = 45 / 1000) /\
  (dict_lookup a "amortization_years" = None -> amort_years p = 30%Z).
Proof.
  intros Hp.
  destruct (read_assumptions_inv a p Hp)
    as (_ & (hy & Hhy & Ehy) & Hpp & (cc & Hcc & Ecc) & Hrb & Hvc & Hoi & Heb
        & Hcx & Hrg & Heg & Hcg & Hap & Hec & Hcs & Hlv & Hir
        & (ay & Hay & Eay)).
  repeat split; intros K.
  - field_of_read Hhy K. rewrite Ehy. apply py_int_IZR.
  - field_of_read Hpp K. reflexivity.
  - field_of_read Hcc K. exact Ecc.
  - field_of_read Hrb K. reflexivity.
  - field_of_read Hvc K. reflexivity.
  - field_of_read Hoi K. reflexivity.
  - field_of_read Heb K. reflexivity.
  - field_of_read Hcx K. reflexivity.
  - field_of_read Hrg K. reflexivity.
  - field_of_read Heg K. reflexivity.
  - field_of_read Hcg K. reflexivity.
  - field_of_read Hap K. reflexivity.
  - field_of_read Hec K. reflexivity.
  - field_of_read Hcs K. reflexivity.
  - field_of_read Hlv K. reflexivity.
  - field_of_read Hir K. reflexivity.
  - field_of_read Hay K. rewrite Eay. apply py_int_IZR.
Qed.

(** X6: a key that is present with the value [None] is read as 0, also
    where an absent key would have a default: a hold period of [None] is a
    hold of 0 years. *)
Theorem X6_none_reads_as_zero (a : pydict) (p : Assumptions) :
  read_assumptions str_to_float pd_Timestamp a = Ok p ->
  (dict_lookup a "hold_period_years" = Some PNone -> hold_years p = 0%Z) /\
  (dict_lookup a "purchase_price" = Some PNone -> purchase_price p = 0) /\
  (dict_lookup a "closing_costs" = Some PNone ->
   closing_costs p = purchase_price p * 0) /\
  (dict_lookup a "vacancy_immediately_after_purchase" = Some PNone ->
   vacancy p = 0) /\
  (dict_lookup a "expected_rent_growth" = Some PNone -> rent_growth p = 0) /\
  (dict_lookup a "expected_expense_growth" = Some PNone ->
   expense_growth p = 0) /\
  (dict_lookup a "expected_capex_growth" = Some PNone ->
   capex_growth p = 0) /\
  (dict_lookup a "exit_cap_rate_expectation" = Some PNone ->
   exit_cap p = 0) /\
  (dict_lookup a "cost_of_sale_percentage" = Some PNone ->
   cost_of_sale p = 0) /\
  (dict_lookup a "ltv" = Some PNone -> ltv p = 0) /\
  (dict_lookup a "interest_rate" = Some PNone -> interest_rate p = 0) /\
  (dict_lookup a "amortization_years" = Some PNone -> amort_years p = 0%Z).
Proof.
  intros Hp.
  destruct (read_assumptions_inv a p Hp)
    as (_ & (hy & Hhy & Ehy) & Hpp & (cc & Hcc & Ecc) & Hrb & Hvc & Hoi & Heb
        & Hcx & Hrg & Heg & Hcg & Hap & Hec & Hcs & Hlv & Hir
        & (ay & Hay & Eay)).
  repeat split; intros K.
  - field_of_read Hhy K. rewrite Ehy. apply (py_int_IZR 0).
  - field_of_read Hpp K. reflexivity.
  - field_of_read Hcc K. exact Ecc.
  - field_of_read Hvc K. reflexivity.
  - field_of_read Hrg K. reflexivity.
  - field_of_read Heg K. reflexivity.
  - field_of_read Hcg K. reflexivity.
  - field_of_read Hec K. reflexivity.
  - field_of_read Hcs K. reflexivity.
  - field_of_read Hlv K. reflexivity.
  - field_of_read Hir K. reflexivity.
  - field_of_read Hay K. rewrite Eay. apply (py_int_IZR 0).
Qed.

End Reading.

Section Building.

Variable str_to_float : string -> option R.
Variable pd_Timestamp : pyval -> py (option date).

Lemma f_ok_non_string (v : pyval) :
  (forall s, v <> PStr s) -> exists r, f str_to_float v = Ok r.
Proof.
  intros Hv. destruct v as [|z|r|s].
  - rewrite f_PNone; eauto.
  - rewrite f_PInt; eauto.
  - rewrite f_PFloat; eauto.
  - now destruct (Hv s).
Qed.

Lemma get_non_string (a : pydict) (key : string) :
  (forall s, dict_lookup a key <> Some (PStr s)) ->
  forall s, get a key <> PStr s.
Proof.
  intros H s. unfold get. destruct (dict_lookup a key) as [v|] eqn:E.
  - intros ->. now apply (H s).
  - discriminate.
Qed.

Lemma get_default_non_string (a : pydict) (key : string) (v : pyval) :
  (forall s, v <> PStr s) ->
  (forall s, dict_lookup a key <> Some (PStr s)) ->
  forall s, get_default a key v <> PStr s.
Proof.
  intros Hv H s. unfold get_default.
  destruct (dict_lookup a key) as [w|] eqn:E.
  - intros ->. now apply (H s).
  - apply Hv.
Qed.

(** A record without strings under the keys that are read as numbers is
    read without an exception. *)
Lemma read_assumptions_ok (a : pydict) (d : date) :
  pd_Timestamp (get a "date_of_close") = Ok (Some d) ->
  (forall key s, List.In key projection_keys ->
                 dict_lookup a key <> Some (PStr s)) ->
  exists p : Assumptions,
    read_assumptions str_to_float pd_Timestamp a = Ok p
    /\ date_of_close p = d.
Proof.
  intros Hd Hs. unfold read_assumptions. rewrite Hd. cbn [bind].
  repeat match goal with
         | |- context [bind (f str_to_float ?v) _] =>
             let r := fresh "r" in
             destruct (f_ok_non_string v) as [r ->];
             [ first [ apply get_non_string
                     | apply get_default_non_string; [discriminate|] ];
               intros s; apply Hs; simpl; tauto
             | cbn [bind] ]
         end.
  eexists. split; reflexivity.
Qed.

(** X7: [build_proforma] yields no projection from a record without a
    closing date, nor from one that holds, under a key it reads as a number,
    a non-empty string that [float] rejects: it raises. *)
Theorem X7_build_proforma_outcome (a : pydict) :
  (pd_Timestamp (get a "date_of_close") = Ok None ->
   exists e : pyexn, build_proforma str_to_float pd_Timestamp a = Raise e) /\
  (forall key s : string,
      List.In key projection_keys ->
      dict_lookup a key = Some (PStr s) ->
      s <> EmptyString ->
      str_to_float s = None ->
      exists e : pyexn, build_proforma str_to_float pd_Timestamp a = Raise e).
Proof.
  split.
  - intros Hd. unfold build_proforma, read_assumptions. rewrite Hd.
    cbn [bind].
    repeat match goal with
           | |- context [bind (f str_to_float ?v) _] =>
               destruct (f str_to_float v); cbn [bind]; [|eauto]
           end.
    eauto.
  - intros key s Hin Hl Hs Hn.
    assert (Hf : f str_to_float (PStr s) = Raise ValueError).
    { unfold f, truthy, py_float.
      destruct (String.eqb s EmptyString) eqn:E;
        [apply String.eqb_eq in E; contradiction|].
      simpl. now rewrite E, Hn. }
    assert (Hfd : forall dflt,
               f str_to_float (get_default a key dflt) = Raise ValueError)
      by (intros dflt; unfold get_default; now rewrite Hl).
    assert (Hfg : f str_to_float (get a key) = Raise ValueError)
      by (unfold get; now rewrite Hl).
    unfold build_proforma.
    destruct (read_assumptions str_to_float pd_Timestamp a) as [p|e] eqn:Hp;
      [|cbn [bind]; eauto].
    exfalso. apply read_assumptions_inv in Hp.
    destruct Hp as (_ & (hy & H1 & _) & H2 & (cc & H3 & _) & H4 & H5 & H6 & H7
                    & H8 & H9 & H10 & H11 & H12 & H13 & H14 & H15 & H16
                    & (ay & H17 & _)).
    unfold projection_keys in Hin. cbn [List.In] in Hin.
    repeat (destruct Hin as [<- | Hin];
            [ first [ rewrite Hfd in *; discriminate
                    | rewrite Hfg in *; discriminate ] |]).
    contradiction.
Qed.

End Building.

Lemma X5_absent_keys_default_witness : ltv no_ltv_assumptions = 7 / 10.
Proof.
  destruct (X5_absent_keys_default no_numeric_strings Timestamp_2020
              (clean_dict no_numeric_strings no_ltv) no_ltv_assumptions
              read_no_ltv)
    as (_ & _ & _ & _ & _ & _ & _ & _ & _ & _ & _ & _ & _ & _ & H & _).
  apply H. reflexivity.
Defined.

Lemma null_hold_no_strings (key s : string) :
  List.In key projection_keys -> dict_lookup null_hold key <> Some (PStr s).
Proof.
  unfold projection_keys. simpl.
  intros H; repeat (destruct H as [<-|H]; [discriminate|]); contradiction.
Qed.

Lemma X6_none_reads_as_zero_witness :
  exists p : Assumptions,
    read_assumptions no_numeric_strings Timestamp_2020 null_hold = Ok p
    /\ hold_years p = 0%Z.
Proof.
  destruct (read_assumptions_ok no_numeric_strings Timestamp_2020 null_hold
              (mkdate 2020 1 1) eq_refl null_hold_no_strings)
    as (p & Hp & _).
  exists p. split; [exact Hp|].
  destruct (X6_none_reads_as_zero no_numeric_strings Timestamp_2020
              null_hold p Hp) as (H & _).
  apply H. reflexivity.
Defined.

Lemma X7_build_proforma_outcome_witness :
  (exists e : pyexn,
      build_proforma no_numeric_strings Timestamp_2020 [] = Raise e) /\
  (exists e : pyexn,
      build_proforma no_numeric_strings Timestamp_2020 unpriced = Raise e).
Proof.
  split.
  - destruct (X7_build_proforma_outcome no_numeric_strings Timestamp_2020 [])
      as (H & _).
    apply H. reflexivity.
  - destruct (X7_build_proforma_outcome no_numeric_strings Timestamp_2020
                unpriced) as (_ & H).
    apply (H "purchase_price"%string "n/a"%string).
    + simpl. tauto.
    + reflexivity.
    + discriminate.
    + reflexivity.
Defined.

(** ** The loan at sale *)

Lemma Rsum_ppmt_partial (rate pv : R) (N n : nat) :
  0 < rate -> 0 < pv ->
  Rsum (map (fun m => ppmt rate m (Z.of_nat N) pv) (map Z.of_nat (seq 1 n)))
  = (level_payment rate (Z.of_nat N) pv + rate * pv)
    * ((1 + rate) ^ n - 1) / rate.
Proof.
  intros Hr Hpv.
  rewrite <- seq_shift, !map_map.
  rewrite (map_ext _ (fun k => (level_payment rate (Z.of_nat N) pv + rate * pv)
                               * (1 + rate) ^ k))
    by (intros k; now apply ppmt_geometric).
  apply Rsum_geometric. lra.
Qed.

(** X8: with a positive loan and rate, and the annuity formulas for the
    payments, the payoff booked at sale is the balance still outstanding
    after the months of the hold, L (q^N - q^n) / (q^N - 1) for q = 1 + the
    monthly rate, N the months of amortization and n those of the hold; it
    is 0 when the hold is as long as the amortization or longer. *)
Theorem X8_loan_payoff_outstanding (p : Assumptions) :
  0 < loan_amount p -> 0 < monthly_rate p ->
  (1 <= amort_years p)%Z -> (0 <= hold_years p)%Z ->
  let q := 1 + monthly_rate p in
  let N := Z.to_nat (nper p) in
  let n := Z.to_nat (hold_months p) in
  ((hold_years p <= amort_years p)%Z ->
   loan_payoff p (monthly_frame p)
   = loan_amount p * (q ^ N - q ^ n) / (q ^ N - 1)) /\
  ((amort_years p <= hold_years p)%Z ->
   loan_payoff p (monthly_frame p) = 0).
Proof.
  intros Hl Hr Ha Hh q N n.
  assert (HN : (1 <= N)%nat) by (subst N; unfold nper; lia).
  assert (HzN : Z.of_nat N = nper p) by (subst N; unfold nper; lia).
  assert (Hq : 1 < q ^ N) by (subst q; now apply pow_gt_1).
  assert (Hsum : Rsum (PrincipalPayment (monthly_frame p))
                 = (level_payment (monthly_rate p) (nper p) (loan_amount p)
                    + monthly_rate p * loan_amount p)
                   * (q ^ n - 1) / monthly_rate p).
  { cbn [monthly_frame PrincipalPayment].
    destruct (Rlt_dec 0 (loan_amount p)); [|contradiction].
    rewrite length_date_range_M. fold n. rewrite <- HzN.
    now apply Rsum_ppmt_partial. }
  assert (Hbal : loan_amount p
                 - - Rsum (PrincipalPayment (monthly_frame p))
                 = loan_amount p * (q ^ N - q ^ n) / (q ^ N - 1)).
  { rewrite Hsum, <- HzN, level_payment_annuity by assumption.
    fold q. field. split; lra. }
  unfold loan_payoff. rewrite Hbal. split; intros Hcmp.
  - assert (Hle : q ^ n <= q ^ N).
    { apply Rle_pow; [subst q; lra|].
      subst n N. unfold hold_months, nper. lia. }
    apply Rmax_left.
    apply Rmult_le_pos; [|apply Rlt_le, Rinv_0_lt_compat; lra].
    apply Rmult_le_pos; lra.
  - assert (Hle : q ^ N <= q ^ n).
    { apply Rle_pow; [subst q; lra|].
      subst n N. unfold hold_months, nper. lia. }
    apply Rmax_right.
    assert (Hinv : 0 < / (q ^ N - 1)) by (apply Rinv_0_lt_compat; lra).
    assert (Hpos : 0 <= loan_amount p * (q ^ n - q ^ N) * / (q ^ N - 1)).
    { apply Rmult_le_pos; [apply Rmult_le_pos|]; lra. }
    unfold Rdiv. lra.
Qed.

Lemma X8_loan_payoff_outstanding_witness :
  loan_payoff levered_year (monthly_frame levered_year)
  = loan_amount levered_year
    * ((1 + monthly_rate levered_year) ^ Z.to_nat (nper levered_year)
       - (1 + monthly_rate levered_year)
         ^ Z.to_nat (hold_months levered_year))
    / ((1 + monthly_rate levered_year) ^ Z.to_nat (nper levered_year) - 1).
Proof.
  destruct (X8_loan_payoff_outstanding levered_year) as (H & _).
  - unfold loan_amount. simpl. lra.
  - unfold monthly_rate. simpl. lra.
  - simpl. lia.
  - simpl. lia.
  - apply H. simpl. lia.
Defined.

(** ** The metric helpers *)

(** X9: the exit loan-to-value is 8/11 of the loan-to-value ratio of the
    record whenever the purchase price and the exit cap rate are positive,
    whatever the equity frame holds, and [None] otherwise. *)
Theorem X9_exit_ltv_ratio (str_to_float : string -> option R)
    (a : pydict) (eq : EquityFrame) (pp lv ec : R) :
  py_float str_to_float (get_default a "purchase_price" (PInt 0)) = Ok pp ->
  py_float str_to_float (get_default a "ltv" (PInt 0)) = Ok lv ->
  py_float str_to_float
    (get_default a "exit_cap_rate_expectation" (PFloat (55 / 1000))) = Ok ec ->
  (0 < ec -> 0 < pp ->
   exit_ltv str_to_float a eq = Ok (Some (lv * (8 / 11)))) /\
  (~ (0 < ec /\ 0 < pp) -> exit_ltv str_to_float a eq = Ok None).
Proof.
  intros Hpp Hlv Hec. unfold exit_ltv. rewrite Hpp, Hlv, Hec. cbn [bind].
  split.
  - intros H1 H2. destruct (Rlt_dec 0 ec); [|contradiction].
    destruct (Rlt_dec 0 (pp * (11 / 10))); [|lra].
    do 2 f_equal. field. lra.
  - intros H. destruct (Rlt_dec 0 ec); [|reflexivity].
    destruct (Rlt_dec 0 (pp * (11 / 10))); [|reflexivity].
    exfalso. apply H. split; lra.
Qed.

Lemma X9_exit_ltv_ratio_witness :
  exit_ltv no_numeric_strings
    [("purchase_price", PFloat 1000); ("ltv", PFloat 1)]%string
    (mkEquity [] [] [])
  = Ok (Some (1 * (8 / 11))).
Proof.
  destruct (X9_exit_ltv_ratio no_numeric_strings
              [("purchase_price", PFloat 1000); ("ltv", PFloat 1)]%string
              (mkEquity [] [] []) 1000 1 (55 / 1000) eq_refl eq_refl eq_refl)
    as (H & _).
  apply H; lra.
Defined.

(** X10: a record without a purchase price gets no cap rate, but makes
    [loan_constant], [going_in_debt_yield] and both cash-on-cash averages
    raise [KeyError]; with the price present, a record without a
    loan-to-value ratio makes the three leverage metrics raise, and one
    without a hold period the cash-on-cash averages. *)
Theorem X10_missing_keys (a : pydict) (df : MonthlyFrame) :
  (dict_lookup a "purchase_price" = None ->
   going_in_cap_rate df a = Ok None /\
   loan_constant a df = Raise (KeyError "purchase_price") /\
   going_in_debt_yield a df = Raise (KeyError "purchase_price") /\
   avg_unlevered_coc df a = Raise (KeyError "purchase_price") /\
   avg_levered_coc df a = Raise (KeyError "purchase_price")) /\
  (forall pp : R,
      dict_lookup a "purchase_price" = Some (PFloat pp) ->
      (dict_lookup a "ltv" = None ->
       loan_constant a df = Raise (KeyError "ltv") /\
       going_in_debt_yield a df = Raise (KeyError "ltv") /\
       avg_levered_coc df a = Raise (KeyError "ltv")) /\
      (dict_lookup a "hold_period_years" = None ->
       avg_unlevered_coc df a = Raise (KeyError "hold_period_years") /\
       forall lv : R,
         dict_lookup a "ltv" = Some (PFloat lv) ->
         avg_levered_coc df a = Raise (KeyError "hold_period_years"))).
Proof.
  split.
  - intros H.
    unfold going_in_cap_rate, loan_constant, going_in_debt_yield,
      avg_unlevered_coc, avg_levered_coc, get, getitem.
    rewrite H. repeat split; reflexivity.
  - intros pp Hpp. split.
    + intros H.
      unfold loan_constant, going_in_debt_yield, avg_levered_coc, getitem.
      rewrite Hpp, H. repeat split; reflexivity.
    + intros H. split.
      * unfold avg_unlevered_coc, getitem. rewrite Hpp, H. reflexivity.
      * intros lv Hlv. unfold avg_levered_coc, getitem.
        rewrite Hpp, Hlv, H. reflexivity.
Qed.

Lemma X10_missing_keys_witness :
  loan_constant [("purchase_price", PFloat 1000)]%string
    (monthly_frame flat_year_assumptions)
  = Raise (KeyError "ltv").
Proof.
  destruct (X10_missing_keys [("purchase_price", PFloat 1000)]%string
              (monthly_frame flat_year_assumptions)) as (_ & H).
  destruct (H 1000 eq_refl) as (H1 & _).
  destruct (H1 eq_refl) as (H2 & _). exact H2.
Defined.

Lemma Rsum_iloc_head_zeros (k n : nat) : Rsum (iloc_head k (repeat 0 n)) = 0.
Proof.
  unfold iloc_head. revert k. induction n as [|n IH]; intros [|k]; simpl;
    try reflexivity.
  fold (Rsum (firstn k (repeat 0 n))). rewrite IH. lra.
Qed.

(** X11: without leverage the three debt metrics are undefined, not
    errors: a zero product of price and loan-to-value gives no loan
    constant and no debt yield, and a projection without a positive loan
    gives no debt service coverage ratio. *)
Theorem X11_no_leverage_metrics (a : pydict) (pp lv : R) :
  dict_lookup a "purchase_price" = Some (PFloat pp) ->
  dict_lookup a "ltv" = Some (PFloat lv) ->
  pp * lv = 0 ->
  (forall df : MonthlyFrame,
      loan_constant a df = Ok None /\ going_in_debt_yield a df = Ok None) /\
  (forall p : Assumptions,
      ~ 0 < loan_amount p -> going_in_dscr a (monthly_frame p) = Ok None).
Proof.
  intros Hpp Hlv H0. split.
  - intros df. unfold loan_constant, going_in_debt_yield, getitem.
    rewrite Hpp, Hlv. cbn [bind py_mul truthy]. rewrite H0.
    destruct (Req_dec_T 0 0); [|contradiction]. split; reflexivity.
  - intros p Hl. unfold going_in_dscr.
    destruct (no_loan_after_debt_service p Hl) as (Hi & Hp & _).
    rewrite Hi, Hp, !Rsum_iloc_head_zeros. unfold Rnonzero.
    destruct (Req_dec_T (0 + 0) 0); [reflexivity|lra].
Qed.

Lemma X11_no_leverage_metrics_witness :
  going_in_dscr [("purchase_price", PFloat 1000); ("ltv", PFloat 0)]%string
    (monthly_frame flat_year_assumptions)
  = Ok None.
Proof.
  destruct (X11_no_leverage_metrics
              [("purchase_price", PFloat 1000); ("ltv", PFloat 0)]%string
              1000 0 eq_refl eq_refl) as (_ & H).
  - lra.
  - apply H. unfold loan_amount. simpl. lra.
Defined.

Lemma Rsum_filter_negative (col : list R) :
  Rsum (List.filter (fun v => Rltb v 0) col) <= 0
  /\ (Rsum (List.filter (fun v => Rltb v 0) col) <> 0 ->
      exists v, List.In v col /\ v < 0).
Proof.
  induction col as [|x col [IH1 IH2]]; simpl.
  - split; [lra|intros H; now destruct H].
  - destruct (Rltb x 0) eqn:E; simpl.
    + assert (Hx : x < 0).
      { unfold Rltb in E. now destruct (Rlt_dec x 0). }
      fold (Rsum (List.filter (fun v => Rltb v 0) col)).
      split; [lra|]. intros _. exists x. auto.
    + split; [exact IH1|]. intros H.
      destruct (IH2 H) as (v & Hv & Hneg). exists v. auto.
Qed.

Lemma Rsum_filter_positive (col : list R) :
  0 <= Rsum (List.filter (fun v => Rltb 0 v) col).
Proof.
  induction col as [|x col IH]; simpl; [lra|].
  destruct (Rltb 0 x) eqn:E; simpl; [|exact IH].
  assert (Hx : 0 < x).
  { unfold Rltb in E. now destruct (Rlt_dec 0 x). }
  fold (Rsum (List.filter (fun v => Rltb 0 v) col)). lra.
Qed.

Lemma Rsum_filter_negative_lt (col : list R) (v : R) :
  List.In v col -> v < 0 -> Rsum (List.filter (fun v => Rltb v 0) col) < 0.
Proof.
  induction col as [|x col IH]; simpl; [contradiction|].
  intros Hin Hv. pose proof (Rsum_filter_negative col) as [Hle _].
  destruct (Rltb x 0) eqn:E; simpl.
  - assert (Hx : x < 0).
    { unfold Rltb in E. now destruct (Rlt_dec x 0). }
    fold (Rsum (List.filter (fun v => Rltb v 0) col)). lra.
  - destruct Hin as [-> | Hin]; [|now apply IH].
    unfold Rltb in E. destruct (Rlt_dec v 0); [discriminate|contradiction].
Qed.

Lemma equity_multiple_one_period :
  equity_multiple [-100; 150] = Some (3 / 2).
Proof.
  unfold equity_multiple, Rnonzero, Rltb. cbn [List.filter].
  destruct (Rlt_dec (-100) 0) as [_|H]; [|exfalso; lra].
  destruct (Rlt_dec 150 0) as [H|_]; [exfalso; lra|].
  destruct (Rlt_dec 0 (-100)) as [H|_]; [exfalso; lra|].
  destruct (Rlt_dec 0 150) as [_|H]; [|exfalso; lra].
  cbn [Rsum fold_right].
  destruct (Req_dec_T (-100 + 0) 0) as [H|_]; [exfalso; lra|].
  f_equal. rewrite Rabs_left by lra.
  replace (- (-100 + 0)) with 100 by lra. lra.
Qed.

(** X12: an equity multiple is undefined on a series without a negative
    amount and defined on every series with one; where it is defined it is
    not negative. *)
Theorem X12_equity_multiple (eq : EquityFrame) :
  (Forall (fun v => 0 <= v) (UnleveredCashFlow eq) ->
   unlevered_equity_multiple eq = None) /\
  (Forall (fun v => 0 <= v) (LeveredCashFlow eq) ->
   levered_equity_multiple eq = None) /\
  (forall m : R,
      unlevered_equity_multiple eq = Some m ->
      0 <= m /\ exists v, List.In v (UnleveredCashFlow eq) /\ v < 0) /\
  (forall m : R,
      levered_equity_multiple eq = Some m ->
      0 <= m /\ exists v, List.In v (LeveredCashFlow eq) /\ v < 0) /\
  (forall v : R,
      List.In v (UnleveredCashFlow eq) -> v < 0 ->
      exists m : R, unlevered_equity_multiple eq = Some m) /\
  (forall v : R,
      List.In v (LeveredCashFlow eq) -> v < 0 ->
      exists m : R, levered_equity_multiple eq = Some m).
Proof.
  assert (Hnone : forall col, Forall (fun v => 0 <= v) col ->
                              equity_multiple col = None).
  { intros col Hc. unfold equity_multiple, Rnonzero.
    destruct (Req_dec_T _ 0) as [|Hne]; [reflexivity|].
    destruct (Rsum_filter_negative col) as [_ H].
    destruct (H Hne) as (v & Hv & Hneg).
    rewrite Forall_forall in Hc. apply list_elem_of_In in Hv.
    specialize (Hc v Hv). lra. }
  assert (Hsome : forall col m, equity_multiple col = Some m ->
                                0 <= m /\ exists v, List.In v col /\ v < 0).
  { intros col m. unfold equity_multiple, Rnonzero.
    destruct (Req_dec_T _ 0) as [|Hne]; [discriminate|].
    intros [= <-]. destruct (Rsum_filter_negative col) as [Hle H].
    split; [|now apply H].
    apply Rmult_le_pos; [apply Rsum_filter_positive|].
    apply Rlt_le, Rinv_0_lt_compat, Rabs_pos_lt. exact Hne. }
  assert (Hdef : forall col v, List.In v col -> v < 0 ->
                               exists m, equity_multiple col = Some m).
  { intros col v Hin Hv. unfold equity_multiple, Rnonzero.
    pose proof (Rsum_filter_negative_lt col v Hin Hv) as Hlt.
    destruct (Req_dec_T _ 0) as [E|_]; [exfalso; lra|]. eauto. }
  unfold unlevered_equity_multiple, levered_equity_multiple.
  split; [apply Hnone|]. split; [apply Hnone|].
  split; [intros m Hm; now apply Hsome|].
  split; [intros m Hm; now apply Hsome|].
  split; intros v Hin Hv; now apply (Hdef _ v).
Qed.

Lemma X12_equity_multiple_witness :
  unlevered_equity_multiple one_period = Some (3 / 2) /\
  0 <= 3 / 2 /\
  (exists v, List.In v [-100; 150] /\ v < 0) /\
  unlevered_equity_multiple (mkEquity [] [] []) = None.
Proof.
  split; [exact equity_multiple_one_period|].
  destruct (X12_equity_multiple one_period) as (_ & _ & H & _).
  destruct (H (3 / 2) equity_multiple_one_period) as [H1 H2].
  split; [exact H1|]. split; [exact H2|].
  destruct (X12_equity_multiple (mkEquity [] [] [])) as (H0 & _).
  apply H0. constructor.
Defined.

(** ** The metrics dictionary *)

Section Shape.

Variable str_to_float : string -> option R.
Variable pd_Timestamp : pyval -> py (option date).
Variable xirr_xirr : cashflow_dict -> py (option R).
Variable brentq : (R -> R) -> R -> R -> nat -> R -> py R.
Variable npf_irr : list R -> py R.

(** A successful computation returns the fourteen metrics, rounded. *)
Lemma compute_metrics_shape (dc : pydict) (m : metrics) :
  compute_metrics str_to_float pd_Timestamp xirr_xirr brentq npf_irr dc
  = Ok m ->
  exists vs : list (option R),
    length vs = 14%nat /\ m = round_metrics (zip metric_keys vs).
Proof.
  unfold compute_metrics. intros H.
  repeat match type of H with
         | bind ?m _ = Ok _ =>
             let E := fresh "E" in destruct m eqn:E; cbn [bind] in H;
             [|discriminate H]
         end.
  match type of H with
  | Ok (round_metrics ?l) = _ => exists (map snd l)
  end.
  split; [reflexivity|]. injection H as <-. reflexivity.
Qed.

Lemma generate_return_metrics_shape (data : nat) (h : gmap nat pydict)
    (m : metrics) :
  snd (generate_return_metrics str_to_float pd_Timestamp xirr_xirr brentq
         npf_irr data h) = Ok m ->
  exists vs : list (option R),
    length vs = 14%nat /\ m = round_metrics (zip metric_keys vs).
Proof.
  intros H. destruct (h !! data) as [d|] eqn:Hd.
  - rewrite (generate_return_metrics_outcome _ _ _ _ _ _ _ d Hd) in H.
    now apply compute_metrics_shape in H.
  - unfold generate_return_metrics in H. unfold pydict in *.
    rewrite Hd in H. discriminate H.
Qed.

Ltac explicit_values vs Hlen :=
  repeat (let v := fresh "v" in destruct vs as [|v vs]; [discriminate Hlen|]);
  destruct vs; [|discriminate Hlen].

(** X13: whenever [generate_return_metrics] returns, the dictionary has
    exactly the fourteen metric keys, in their fixed order, whichever of
    the helpers returned [None]. *)
Theorem X13_metrics_shape (data : nat) (h : gmap nat pydict) (m : metrics) :
  snd (generate_return_metrics str_to_float pd_Timestamp xirr_xirr brentq
         npf_irr data h) = Ok m ->
  map fst m = metric_keys /\ length m = 14%nat.
Proof.
  intros H.
  destruct (generate_return_metrics_shape data h m H) as (vs & Hlen & ->).
  explicit_values vs Hlen.
  split; reflexivity.
Qed.

(** X14: the row [insert_proforma_data] builds from the metrics of a
    successful run has 15 values, and none of its 14 metric columns is
    looked up under a key the engine does not produce: every column name is
    a key of the dictionary. *)
Theorem X14_proforma_row_keys (data : nat) (h : gmap nat pydict)
    (m : metrics) (property_id : Z) :
  snd (generate_return_metrics str_to_float pd_Timestamp xirr_xirr brentq
         npf_irr data h) = Ok m ->
  length (proforma_values property_id m) = 15%nat /\
  Forall (fun key => exists v, metric m key = Some v) proforma_columns /\
  Forall (fun key => List.In key proforma_columns) (map fst m).
Proof.
  intros H.
  destruct (generate_return_metrics_shape data h m H) as (vs & Hlen & ->).
  explicit_values vs Hlen.
  split; [reflexivity|]. split.
  - repeat (apply Forall_cons; split; [cbn; eauto|]). constructor.
  - repeat (apply Forall_cons; split; [cbn; tauto|]). constructor.
Qed.

End Shape.

Lemma X13_metrics_shape_witness :
  exists m : metrics, map fst m = metric_keys.
Proof.
  destruct (flat_year_metrics xirr_fails brentq_fails npf_irr_fails)
    as (m & Hm & _).
  exists m. exact (proj1 (X13_metrics_shape _ _ _ _ _ _ _ _ Hm)).
Defined.

Lemma X14_proforma_row_keys_witness :
  exists m : metrics, length (proforma_values 1 m) = 15%nat.
Proof.
  destruct (flat_year_metrics xirr_fails brentq_fails npf_irr_fails)
    as (m & Hm & _).
  exists m. exact (proj1 (X14_proforma_row_keys _ _ _ _ _ _ _ _ 1%Z Hm)).
Defined.

(** ** The dictionary handed to the solvers *)

Lemma keys_cf_setitem (c : cashflow_dict) (d : date) (v : R) :
  map fst (cf_setitem c d v)
  = if existsb (date_eqb d) (map fst c) then map fst c
    else map fst c ++ [d].
Proof.
  induction c as [|[k w] c IH]; simpl; [reflexivity|].
  destruct (date_eqb k d) eqn:E.
  - apply date_eqb_eq in E as ->.
    assert (E : date_eqb d d = true) by now apply date_eqb_eq.
    now rewrite E.
  - assert (E' : date_eqb d k = false).
    { apply date_eqb_neq. intros ->.
      assert (date_eqb k k = true) by now apply date_eqb_eq. congruence. }
    rewrite E'. simpl. rewrite IH.
    now destruct (existsb (date_eqb d) (map fst c)).
Qed.

Lemma NoDup_keys_cf_setitem (c : cashflow_dict) (d : date) (v : R) :
  NoDup (map fst c) -> NoDup (map fst (cf_setitem c d v)).
Proof.
  intros Hc. rewrite keys_cf_setitem.
  destruct (existsb (date_eqb d) (map fst c)) eqn:E; [exact Hc|].
  apply NoDup_app. split; [exact Hc|]. split; [|apply NoDup_singleton].
  intros x Hx Hd. apply list_elem_of_singleton in Hd as ->.
  assert (Ht : existsb (date_eqb d) (map fst c) = true).
  { apply existsb_exists. exists d. split; [now apply list_elem_of_In|].
    now apply date_eqb_eq. }
  congruence.
Qed.

Lemma In_cf_setitem (c : cashflow_dict) (d : date) (v : R) (kv : date * R) :
  List.In kv (cf_setitem c d v) -> List.In kv c \/ kv = (d, v).
Proof.
  induction c as [|[k w] c IH]; simpl.
  - intros [<-|[]]. now right.
  - destruct (date_eqb k d) eqn:E; simpl.
    + apply date_eqb_eq in E as ->. intros [<-|H]; auto.
    + intros [<-|H]; auto. destruct (IH H); auto.
Qed.

Lemma lib_of_series_invariant (s : series) :
  forall acc : cashflow_dict,
    NoDup (map fst acc) ->
    let lib :=
      fold_left
        (fun acc kv =>
           if Rnonzero (snd kv) then cf_setitem acc (fst kv) (snd kv) else acc)
        s acc in
    NoDup (map fst lib)
    /\ forall kv, List.In kv lib ->
                  List.In kv acc \/ (List.In kv s /\ snd kv <> 0).
Proof.
  induction s as [|[d v] s IH]; intros acc Hacc; simpl.
  - split; [exact Hacc|]. auto.
  - destruct (Rnonzero v) eqn:Hv; simpl.
    + destruct (IH (cf_setitem acc d v)) as [H1 H2].
      { now apply NoDup_keys_cf_setitem. }
      split; [exact H1|]. intros kv Hkv.
      destruct (H2 kv Hkv) as [Hin|[Hin Hne]].
      * destruct (In_cf_setitem _ _ _ _ Hin) as [Ha | ->]; [now left|].
        right. split; [now left|]. simpl. unfold Rnonzero in Hv.
        now destruct (Req_dec_T v 0).
      * right. split; [now right|exact Hne].
    + destruct (IH acc Hacc) as [H1 H2].
      split; [exact H1|]. intros kv Hkv.
      destruct (H2 kv Hkv) as [Hin|[Hin Hne]]; [now left|].
      right. split; [now right|exact Hne].
Qed.

(** X15: the dictionary [_calc_xirr] hands to the solvers has one entry per
    date, each of them a nonzero entry of the series, so it is no longer
    than the series. *)
Theorem X15_solver_input (s : series) :
  NoDup (map fst (lib_of_series s)) /\
  (forall d v, List.In (d, v) (lib_of_series s) ->
               List.In (d, v) s /\ v <> 0) /\
  (length (lib_of_series s) <= length (nonzero_entries s) <= length s)%nat.
Proof.
  destruct (lib_of_series_invariant s [] (NoDup_nil_2)) as [H1 H2].
  split; [exact H1|]. split.
  - intros d v Hin. destruct (H2 (d, v) Hin) as [Hnil|H]; [destruct Hnil|].
    exact H.
  - split; [apply length_lib_of_series|].
    unfold nonzero_entries. apply filter_length_le.
Qed.

Lemma X15_solver_input_witness :
  NoDup (map fst (lib_of_series [(mkdate 2020 1 1, 100)])).
Proof.
  exact (proj1 (X15_solver_input [(mkdate 2020 1 1, 100)])).
Defined.

(** ** The bracket scan *)

Lemma In_insert_sorted (x y : date * R) (l : list (date * R)) :
  List.In x (insert_sorted y l) -> x = y \/ List.In x l.
Proof.
  induction l as [|z l IH]; simpl.
  - intros [<-|[]]. now left.
  - destruct (date_ltb (fst y) (fst z)); simpl.
    + intros [<-|H]; auto.
    + intros [<-|H]; auto. destruct (IH H); auto.
Qed.

Lemma In_sorted_items (x : date * R) (c : cashflow_dict) :
  List.In x (sorted_items c) -> List.In x c.
Proof.
  induction c as [|y c IH]; simpl; [auto|].
  intros H. destruct (In_insert_sorted _ _ _ H) as [->|H']; auto.
Qed.

Section Scan.

Variable brentq : (R -> R) -> R -> R -> nat -> R -> py R.

Lemma bracket_scan_seq (npv : R -> R) (r : R) (n : nat) :
  forall a : nat,
    bracket_scan brentq npv (seq a n) = Some r ->
    exists i : nat,
      (a <= i < a + n)%nat /\
      npv (grid i) * npv (grid (S i)) < 0 /\
      brentq npv (grid i) (grid (S i)) 200 (1 / 10 ^ 10) = Ok r /\
      forall j : nat,
        (a <= j < i)%nat ->
        ~ npv (grid j) * npv (grid (S j)) < 0
        \/ exists e, brentq npv (grid j) (grid (S j)) 200 (1 / 10 ^ 10)
                     = Raise e.
Proof.
  induction n as [|n IH]; intros a; cbn [seq bracket_scan]; [discriminate|].
  destruct (Rlt_dec (npv (grid a) * npv (grid (S a))) 0) as [Hs|Hs].
  - destruct (brentq npv (grid a) (grid (S a)) 200 (1 / 10 ^ 10))
      as [x|e] eqn:Hb.
    + intros [= <-]. exists a.
      split; [lia|]. split; [exact Hs|]. split; [exact Hb|]. intros j Hj. lia.
    + intros H. destruct (IH (S a) H) as (i & Hi & Hsi & Hbi & Hj).
      exists i. split; [lia|]. split; [exact Hsi|]. split; [exact Hbi|].
      intros j Hji. destruct (Nat.eq_dec j a) as [->|Hne].
      * right. now exists e.
      * apply Hj. lia.
  - intros H. destruct (IH (S a) H) as (i & Hi & Hsi & Hbi & Hj).
    exists i. split; [lia|]. split; [exact Hsi|]. split; [exact Hbi|].
    intros j Hji. destruct (Nat.eq_dec j a) as [->|Hne].
    + now left.
    + apply Hj. lia.
Qed.

Lemma bracket_scan_none (npv : R -> R) (idxs : list nat) :
  Forall (fun i => ~ npv (grid i) * npv (grid (S i)) < 0) idxs ->
  bracket_scan brentq npv idxs = None.
Proof.
  induction 1 as [|i idxs Hi _ IH]; cbn [bracket_scan]; [reflexivity|].
  destruct (Rlt_dec (npv (grid i) * npv (grid (S i))) 0); [contradiction|].
  exact IH.
Qed.

(** X16: when the bracket scan returns a rate, the dictionary has at least
    two entries with a positive and a negative amount among them, and the
    rate is what [brentq] returned on the lowest of the 199 grid brackets on
    which the net present value changes sign and [brentq] did not raise;
    when the value changes sign on no bracket, the scan returns [None]. *)
Theorem X16_lowest_bracket (c : cashflow_dict) :
  let npv := npv_of_items (sorted_items c) in
  (forall r : R,
      _xirr_fallback brentq c = Some r ->
      (2 <= length c)%nat /\
      (exists kv, List.In kv c /\ 0 < snd kv) /\
      (exists kv, List.In kv c /\ snd kv < 0) /\
      exists i : nat,
        (i < 199)%nat /\
        npv (grid i) * npv (grid (S i)) < 0 /\
        brentq npv (grid i) (grid (S i)) 200 (1 / 10 ^ 10) = Ok r /\
        forall j : nat,
          (j < i)%nat ->
          ~ npv (grid j) * npv (grid (S j)) < 0
          \/ exists e, brentq npv (grid j) (grid (S j)) 200 (1 / 10 ^ 10)
                       = Raise e) /\
  ((forall i : nat, (i < 199)%nat -> ~ npv (grid i) * npv (grid (S i)) < 0) ->
   _xirr_fallback brentq c = None).
Proof.
  intros npv. unfold _xirr_fallback. split.
  - intros r.
    destruct (Nat.ltb_spec (length c) 2) as [|Hlen]; [discriminate|].
    subst npv.
    destruct (sorted_items c) as [|[d0 v0] items] eqn:Es; [discriminate|].
    rewrite <- Es.
    destruct (existsb (fun x => Rltb 0 x) (map snd (sorted_items c))) eqn:Ep;
      [|discriminate].
    destruct (existsb (fun x => Rltb x 0) (map snd (sorted_items c))) eqn:En;
      [|discriminate].
    cbn [andb]. intros H. split; [exact Hlen|].
    apply existsb_exists in Ep as (x & Hx & Hpos).
    apply existsb_exists in En as (y & Hy & Hneg).
    apply in_map_iff in Hx as (kx & <- & Hkx).
    apply in_map_iff in Hy as (ky & <- & Hky).
    split.
    { exists kx. split; [apply In_sorted_items; exact Hkx|].
      unfold Rltb in Hpos.
      destruct (Rlt_dec 0 (snd kx)); [assumption|discriminate Hpos]. }
    split.
    { exists ky. split; [apply In_sorted_items; exact Hky|].
      unfold Rltb in Hneg.
      destruct (Rlt_dec (snd ky) 0); [assumption|discriminate Hneg]. }
    apply bracket_scan_seq in H as (i & Hi & Hs & Hb & Hj).
    rewrite Es in Hs, Hb, Hj. rewrite Es.
    exists i. split; [lia|]. split; [exact Hs|]. split; [exact Hb|].
    intros j Hji. apply Hj. lia.
  - intros Hno.
    destruct (length c <? 2)%nat; [reflexivity|].
    subst npv.
    destruct (sorted_items c) as [|[d0 v0] items] eqn:Es; [reflexivity|].
    rewrite <- Es.
    destruct (existsb _ _ && existsb _ _); [|reflexivity].
    apply bracket_scan_none. apply Forall_forall. intros i Hi.
    apply list_elem_of_In, in_seq in Hi.
    rewrite Es. apply Hno. lia.
Qed.

End Scan.

(** The scan on the two cash flows [two_flows]: the net present value is
    [-100 + 121 / (1 + r)], positive up to grid point 58 and negative from
    grid point 59 on. *)
Lemma sorted_two_flows : sorted_items two_flows = two_flows.
Proof. reflexivity. Qed.

Lemma npv_two_flows (r : R) :
  0 < 1 + r -> npv_of_items two_flows r = -100 + 121 / (1 + r).
Proof.
  intros Hr. unfold npv_of_items, two_flows.
  cbn [map zip_with fst snd Rsum fold_right].
  change (toordinal (mkdate 2021 1 1) - toordinal (mkdate 2021 1 1))%Z
    with 0%Z.
  change (toordinal (mkdate 2022 1 1) - toordinal (mkdate 2021 1 1))%Z
    with 365%Z.
  rewrite !float_pow_Rpower by exact Hr.
  replace (0 / 365) with 0 by lra.
  replace (365 / 365) with 1 by lra.
  rewrite Rpower_O by exact Hr. rewrite Rpower_1 by exact Hr. lra.
Qed.

Lemma grid_above_minus_one (i : nat) : 0 < 1 + grid i.
Proof. unfold grid. pose proof (pos_INR i). lra. Qed.

Lemma npv_two_flows_positive (i : nat) :
  (i <= 58)%nat -> 0 < npv_of_items two_flows (grid i).
Proof.
  intros Hi. pose proof (grid_above_minus_one i) as Hg.
  rewrite npv_two_flows by exact Hg.
  assert (Hlt : grid i < 21 / 100).
  { apply le_INR in Hi. rewrite (INR_IZR_INZ 58) in Hi.
    change (Z.of_nat 58) with 58%Z in Hi.
    unfold grid. lra. }
  replace (-100 + 121 / (1 + grid i))
    with ((121 - 100 * (1 + grid i)) / (1 + grid i)) by (field; lra).
  apply Rdiv_lt_0_compat; lra.
Qed.

Lemma npv_two_flows_negative (i : nat) :
  (59 <= i)%nat -> npv_of_items two_flows (grid i) < 0.
Proof.
  intros Hi. pose proof (grid_above_minus_one i) as Hg.
  rewrite npv_two_flows by exact Hg.
  assert (Hlt : 21 / 100 < grid i).
  { apply le_INR in Hi. rewrite (INR_IZR_INZ 59) in Hi.
    change (Z.of_nat 59) with 59%Z in Hi.
    unfold grid. lra. }
  assert (H : 0 < (100 * (1 + grid i) - 121) / (1 + grid i))
    by (apply Rdiv_lt_0_compat; lra).
  replace (-100 + 121 / (1 + grid i))
    with (- ((100 * (1 + grid i) - 121) / (1 + grid i))) by (field; lra).
  lra.
Qed.

Lemma bracket_scan_skip
    (brentq : (R -> R) -> R -> R -> nat -> R -> py R) (npv : R -> R)
    (k m : nat) :
  forall a n : nat,
    n = (k + m)%nat ->
    (forall j : nat, (a <= j < a + k)%nat ->
                     ~ npv (grid j) * npv (grid (S j)) < 0) ->
    bracket_scan brentq npv (seq a n)
    = bracket_scan brentq npv (seq (a + k) m).
Proof.
  induction k as [|k IH]; intros a n -> Hj.
  - rewrite Nat.add_0_r. reflexivity.
  - cbn [Nat.add seq bracket_scan].
    destruct (Rlt_dec (npv (grid a) * npv (grid (S a))) 0) as [Hs|_].
    + exfalso. apply (Hj a); [lia|exact Hs].
    + rewrite (IH (S a) (k + m)%nat eq_refl)
        by (intros j Hja; apply Hj; lia).
      f_equal. f_equal. lia.
Qed.

Lemma bracket_scan_hit
    (brentq : (R -> R) -> R -> R -> nat -> R -> py R) (npv : R -> R)
    (a n : nat) (r : R) :
  npv (grid a) * npv (grid (S a)) < 0 ->
  brentq npv (grid a) (grid (S a)) 200%nat (1 / 10 ^ 10) = Ok r ->
  bracket_scan brentq npv (seq a (S n)) = Some r.
Proof.
  intros Hs Hb. cbn [seq bracket_scan].
  destruct (Rlt_dec (npv (grid a) * npv (grid (S a))) 0) as [_|Hn];
    [|contradiction].
  rewrite Hb. reflexivity.
Qed.

Lemma _xirr_fallback_scan
    (brentq : (R -> R) -> R -> R -> nat -> R -> py R) (c : cashflow_dict) :
  (2 <= length c)%nat ->
  existsb (fun v => Rltb 0 v) (map snd (sorted_items c))
  && existsb (fun v => Rltb v 0) (map snd (sorted_items c)) = true ->
  _xirr_fallback brentq c
  = bracket_scan brentq (npv_of_items (sorted_items c)) (seq 0 199).
Proof.
  intros Hlen Hsign. unfold _xirr_fallback.
  destruct (Nat.ltb_spec (length c) 2) as [Hlt|_]; [lia|].
  destruct (sorted_items c) as [|[d0 v0] items] eqn:Es.
  - discriminate Hsign.
  - rewrite Hsign. reflexivity.
Qed.

Lemma _xirr_fallback_two_flows (r0 : R) :
  _xirr_fallback (brentq_returns r0) two_flows = Some r0.
Proof.
  rewrite _xirr_fallback_scan.
  - rewrite sorted_two_flows.
    rewrite (bracket_scan_skip _ _ 58 141 0 199 eq_refl).
    + apply bracket_scan_hit; [|reflexivity].
      assert (H1 : 0 < npv_of_items two_flows (grid (0 + 58)))
        by (apply npv_two_flows_positive; lia).
      assert (H2 : npv_of_items two_flows (grid (S (0 + 58))) < 0)
        by (apply npv_two_flows_negative; lia).
      nra.
    + intros j Hj.
      assert (H1 : 0 < npv_of_items two_flows (grid j))
        by (apply npv_two_flows_positive; lia).
      assert (H2 : 0 < npv_of_items two_flows (grid (S j)))
        by (apply npv_two_flows_positive; lia).
      pose proof (Rmult_lt_0_compat _ _ H1 H2). lra.
  - unfold two_flows. cbn [length]. lia.
  - rewrite sorted_two_flows.
    unfold two_flows, Rltb. cbn [map snd existsb].
    destruct (Rlt_dec 0 (-100)) as [H|_]; [exfalso; lra|].
    destruct (Rlt_dec 0 121) as [_|H]; [|exfalso; lra].
    destruct (Rlt_dec (-100) 0) as [_|H]; [|exfalso; lra].
    reflexivity.
Qed.

Lemma X16_lowest_bracket_witness :
  _xirr_fallback (brentq_returns (21 / 100)) two_flows = Some (21 / 100) /\
  (exists i : nat,
      (i < 199)%nat /\
      npv_of_items (sorted_items two_flows) (grid i)
      * npv_of_items (sorted_items two_flows) (grid (S i)) < 0) /\
  _xirr_fallback brentq_fails [] = None.
Proof.
  split; [exact (_xirr_fallback_two_flows (21 / 100))|]. split.
  - destruct (X16_lowest_bracket (brentq_returns (21 / 100)) two_flows)
      as [H _].
    destruct (H (21 / 100) (_xirr_fallback_two_flows (21 / 100)))
      as (_ & _ & _ & i & Hi & Hs & _).
    exists i. split; [exact Hi|exact Hs].
  - apply (proj2 (X16_lowest_bracket brentq_fails [])).
    intros i _. simpl. lra.
Defined.

(** ** The cleaned copy *)

Lemma lookup_setitem_eq (a : pydict) (key : string) (v : pyval) :
  dict_lookup (setitem a key v) key = Some v.
Proof.
  induction a as [|[k w] a IH]; simpl.
  - now rewrite String.eqb_refl.
  - destruct (String.eqb k key) eqn:E; simpl; rewrite E; auto.
Qed.

Lemma lookup_setitem_ne (a : pydict) (key key' : string) (v : pyval) :
  key <> key' -> dict_lookup (setitem a key v) key' = dict_lookup a key'.
Proof.
  intros Hne. induction a as [|[k w] a IH]; simpl.
  - destruct (String.eqb_spec key key'); [contradiction|reflexivity].
  - destruct (String.eqb_spec k key) as [->|Hk]; simpl.
    + destruct (String.eqb_spec key key'); [contradiction|reflexivity].
    + now rewrite IH.
Qed.

Lemma keys_setitem_present (a : pydict) (key : string) (v : pyval) :
  List.In key (map fst a) -> map fst (setitem a key v) = map fst a.
Proof.
  induction a as [|[k w] a IH]; simpl; [intros []|].
  destruct (String.eqb_spec k key) as [->|Hk]; simpl; [reflexivity|].
  intros [H|H]; [contradiction|]. now rewrite IH.
Qed.

Section Cleaning.

Variable str_to_float : string -> option R.

Let clean (acc : pydict) (kv : string * pyval) : pydict :=
  if is_int_float_str (snd kv) && negb (is_non_numeric_key (fst kv))
  then setitem acc (fst kv) (PFloat (_safe_float str_to_float (snd kv)))
  else acc.

Lemma keys_clean_loop (items : pydict) :
  forall acc : pydict,
    (forall kv, List.In kv items -> List.In (fst kv) (map fst acc)) ->
    map fst (fold_left clean items acc) = map fst acc.
Proof.
  induction items as [|kv items IH]; intros acc Hsub; simpl; [reflexivity|].
  assert (Hk : map fst (clean acc kv) = map fst acc).
  { unfold clean. destruct (_ && _); [|reflexivity].
    apply keys_setitem_present. apply Hsub. now left. }
  rewrite IH; [exact Hk|].
  intros kv' Hin. rewrite Hk. apply Hsub. now right.
Qed.

Lemma lookup_clean_loop_other (items : pydict) (key : string) :
  is_non_numeric_key key = true ->
  forall acc : pydict,
    dict_lookup (fold_left clean items acc) key = dict_lookup acc key.
Proof.
  intros Hkey. induction items as [|kv items IH]; intros acc; simpl;
    [reflexivity|].
  rewrite IH. unfold clean.
  destruct (is_int_float_str (snd kv) && negb (is_non_numeric_key (fst kv)))
    eqn:E; [|reflexivity].
  apply lookup_setitem_ne. intros Heq. rewrite Heq, Hkey in E.
  now rewrite andb_false_r in E.
Qed.

Lemma lookup_clean_loop_numeric (items : pydict) (key : string) :
  NoDup (map fst items) ->
  forall acc : pydict,
    dict_lookup (fold_left clean items acc) key
    = match dict_lookup items key with
      | Some v =>
          if is_int_float_str v && negb (is_non_numeric_key key)
          then Some (PFloat (_safe_float str_to_float v))
          else dict_lookup acc key
      | None => dict_lookup acc key
      end.
Proof.
  induction items as [|[k v] items IH]; intros Hnd acc; simpl;
    [reflexivity|].
  apply NoDup_cons in Hnd as [Hk Hnd]. rewrite (IH Hnd).
  destruct (String.eqb_spec k key) as [->|Hne].
  - assert (Hnone : dict_lookup items key = None).
    { clear -Hk. induction items as [|[k' v'] items IH]; simpl; [reflexivity|].
      simpl in Hk. apply not_elem_of_cons in Hk as [Hne Hk].
      destruct (String.eqb_spec k' key); [congruence|]. now apply IH. }
    rewrite Hnone. unfold clean. simpl.
    destruct (is_int_float_str v && negb (is_non_numeric_key key));
      [apply lookup_setitem_eq|reflexivity].
  - assert (Hacc : dict_lookup (clean acc (k, v)) key = dict_lookup acc key).
    { unfold clean. simpl. destruct (_ && _); [|reflexivity].
      now apply lookup_setitem_ne. }
    rewrite Hacc. reflexivity.
Qed.

(** X17: the cleaning loop keeps the keys of the record and their order,
    leaves the values under the eleven descriptive keys as they are, and,
    for a record with distinct keys, turns every other int, float or string
    into a float (0.0 for a string that is not a number) and leaves
    [None] as it is. *)
Theorem X17_clean_dict (d : pydict) :
  map fst (clean_dict str_to_float d) = map fst d /\
  (forall key : string,
      is_non_numeric_key key = true ->
      dict_lookup (clean_dict str_to_float d) key = dict_lookup d key) /\
  (NoDup (map fst d) ->
   forall (key : string) (v : pyval),
     is_non_numeric_key key = false ->
     dict_lookup d key = Some v ->
     dict_lookup (clean_dict str_to_float d) key
     = Some (match v with
             | PNone => PNone
             | PInt z => PFloat (IZR z)
             | PFloat r => PFloat r
             | PStr s =>
                 PFloat (match py_float str_to_float (PStr s) with
                         | Ok r => r
                         | Raise _ => 0
                         end)
             end)).
Proof.
  unfold clean_dict. fold clean. split; [|split].
  - apply keys_clean_loop. intros kv Hin.
    apply in_map_iff. now exists kv.
  - intros key Hkey. now apply lookup_clean_loop_other.
  - intros Hnd key v Hkey Hv.
    rewrite (lookup_clean_loop_numeric d key Hnd d), Hv, Hkey.
    destruct v; reflexivity.
Qed.

End Cleaning.

Lemma X17_clean_dict_witness :
  dict_lookup (clean_dict no_numeric_strings no_ltv) "purchase_price"
  = Some (PFloat 1000).
Proof.
  destruct (X17_clean_dict no_numeric_strings no_ltv) as (_ & _ & H).
  apply (H ltac:(unfold no_ltv; simpl; repeat constructor;
                 rewrite ?list_elem_of_In; simpl; intuition discriminate)
           "purchase_price"%string (PInt 1000)); reflexivity.
Defined.

(** ** The acquisition row *)

(** X18: the row written to [acquisition_data] has 23 values, and for a
    record that sets none of the four growth assumptions the growth rates
    stored in it are the ones the projection was built with. *)
Theorem X18_stored_growth_rates
    (str_to_float : string -> option R)
    (pd_Timestamp : pyval -> py (option date))
    (a : pydict) (p : Assumptions) (property_id : Z) :
  read_assumptions str_to_float pd_Timestamp a = Ok p ->
  dict_lookup a "expected_rent_growth" = None ->
  dict_lookup a "expected_expense_growth" = None ->
  dict_lookup a "expected_capex_growth" = None ->
  dict_lookup a "expected_appreciation" = None ->
  length (acquisition_values property_id a) = 23%nat /\
  drop 19 (acquisition_values property_id a)
  = [PFloat (rent_growth p); PFloat (expense_growth p);
     PFloat (capex_growth p); PFloat (appreciation p)].
Proof.
  intros Hp Kr Ke Kc Ka.
  destruct (read_assumptions_inv str_to_float pd_Timestamp a p Hp)
    as (_ & _ & _ & _ & _ & _ & _ & _ & _ & Hrg & Heg & Hcg & Hap & _).
  rewrite (get_default_absent _ _ _ Kr), f_PFloat in Hrg.
  rewrite (get_default_absent _ _ _ Ke), f_PFloat in Heg.
  rewrite (get_default_absent _ _ _ Kc), f_PFloat in Hcg.
  rewrite (get_default_absent _ _ _ Ka), f_PFloat in Hap.
  injection Hrg as <-. injection Heg as <-.
  injection Hcg as <-. injection Hap as <-.
  split; reflexivity.
Qed.

Lemma X18_stored_growth_rates_witness :
  drop 19 (acquisition_values 1 (clean_dict no_numeric_strings no_ltv))
  = [PFloat (rent_growth no_ltv_assumptions);
     PFloat (expense_growth no_ltv_assumptions);
     PFloat (capex_growth no_ltv_assumptions);
     PFloat (appreciation no_ltv_assumptions)].
Proof.
  exact (proj2 (X18_stored_growth_rates no_numeric_strings Timestamp_2020
                  (clean_dict no_numeric_strings no_ltv) no_ltv_assumptions
                  1%Z read_no_ltv eq_refl eq_refl eq_refl eq_refl)).
Defined.

(** ** The operating expense ratio *)

Lemma Rsum_map_scale {A : Type} (c : R) (g : A -> R) (l : list A) :
  Rsum (map (fun x => c * g x) l) = c * Rsum (map g l).
Proof.
  induction l as [|x l IH]; simpl; [lra|].
  fold (Rsum (map (fun x => c * g x) l)) (Rsum (map g l)). rewrite IH. lra.
Qed.

Lemma Rsum_positive (l : list R) :
  l <> [] -> Forall (fun x => 0 < x) l -> 0 < Rsum l.
Proof.
  intros Hne Hl. induction Hl as [|x l Hx Hl IH]; [contradiction|].
  simpl. fold (Rsum l). destruct l as [|y l]; [simpl; lra|].
  assert (0 < Rsum (y :: l)) by (apply IH; discriminate). lra.
Qed.

Lemma float_pow_positive (b y : R) : 0 < b -> 0 < float_pow b y.
Proof.
  intros Hb. unfold float_pow. destruct (Rlt_dec 0 b); [|contradiction].
  unfold Rpower. apply exp_pos.
Qed.

(** X19: when operating expenses grow at the rate of the rent, the first
    year's operating expense ratio is the ratio of the two base amounts,
    for a positive rent and a growth rate above -1; with a rent of 0 the
    ratio is undefined. *)
Theorem X19_op_ex_ratio (p : Assumptions) :
  ((1 <= hold_years p)%Z ->
   expense_growth p = rent_growth p ->
   0 < 1 + rent_growth p ->
   0 < rent_base p ->
   year1_op_ex_ratio (monthly_frame p)
   = Some (Rabs (expense_base p) / rent_base p)) /\
  (rent_base p = 0 -> year1_op_ex_ratio (monthly_frame p) = None).
Proof.
  set (df := monthly_frame p).
  set (pw := fun y => float_pow (1 + rent_growth p) y).
  set (ys := firstn 12 (YearsFrac df)).
  assert (Hg : Rsum (iloc_head 12 (GrossPotentialRent df))
               = rent_base p * Rsum (map pw ys)).
  { unfold iloc_head.
    change (GrossPotentialRent df)
      with (map (fun y => rent_base p * pw y) (YearsFrac df)).
    now rewrite firstn_map, Rsum_map_scale. }
  split.
  - intros Hh He Hq Hr.
    assert (Ho : Rsum (iloc_head 12 (OperatingExpenses df))
                 = - expense_base p * Rsum (map pw ys)).
    { unfold iloc_head.
      change (OperatingExpenses df)
        with (map (fun y => - expense_base p
                            * float_pow (1 + expense_growth p) y)
                (YearsFrac df)).
      rewrite He. fold pw.
      now rewrite firstn_map, (Rsum_map_scale (- expense_base p) pw). }
    assert (Hs : 0 < Rsum (map pw ys)).
    { apply Rsum_positive.
      - intros E. apply (f_equal (@length R)) in E.
        rewrite length_map in E. subst ys.
        rewrite length_firstn in E.
        destruct (length_monthly_columns p) as (_ & Ly & _).
        fold df in Ly. rewrite Ly in E. cbn [length] in E.
        unfold hold_months in E. lia.
      - apply Forall_forall. intros x Hx.
        apply list_elem_of_In, in_map_iff in Hx as (y & <- & _).
        now apply float_pow_positive. }
    unfold year1_op_ex_ratio. fold df. rewrite Hg, Ho. unfold Rnonzero.
    destruct (Req_dec_T (rent_base p * Rsum (map pw ys)) 0) as [E|_].
    + exfalso. assert (0 < rent_base p * Rsum (map pw ys))
        by (apply Rmult_lt_0_compat; assumption). lra.
    + f_equal. rewrite Rabs_mult, Rabs_Ropp, (Rabs_pos_eq (Rsum (map pw ys)))
        by lra.
      field. split; lra.
  - intros Hr. unfold year1_op_ex_ratio. fold df. rewrite Hg, Hr.
    unfold Rnonzero.
    destruct (Req_dec_T (0 * Rsum (map pw ys)) 0); [reflexivity|lra].
Qed.

Lemma X19_op_ex_ratio_witness :
  year1_op_ex_ratio (monthly_frame flat_year_assumptions)
  = Some (Rabs (expense_base flat_year_assumptions)
          / rent_base flat_year_assumptions).
Proof.
  apply (proj1 (X19_op_ex_ratio flat_year_assumptions)).
  - simpl. lia.
  - reflexivity.
  - simpl. lra.
  - simpl. lra.
Defined.

(** ** Growth curves *)

Lemma float_pow_succ (b y : R) : 0 < b -> float_pow b (y + 1) = float_pow b y * b.
Proof.
  intros Hb. unfold float_pow. destruct (Rlt_dec 0 b); [|contradiction].
  now rewrite Rpower_plus, Rpower_1.
Qed.

Lemma lookup_YearsFrac_next_year (p : Assumptions) (i : nat) (y : R) :
  (i + 12 < Z.to_nat (hold_months p))%nat ->
  YearsFrac (monthly_frame p) !! i = Some y ->
  YearsFrac (monthly_frame p) !! (i + 12)%nat = Some (y + 1).
Proof.
  intros Hi Hy.
  rewrite lookup_YearsFrac in Hy by lia. injection Hy as <-.
  rewrite lookup_YearsFrac by lia. f_equal.
  replace (Z.of_nat (S (i + 12))) with (Z.of_nat (S i) + 12)%Z by lia.
  rewrite plus_IZR. lra.
Qed.

(** X21: twelve months on, rent and other income are (1 + rent_growth)
    times what they were, operating expenses (1 + expense_growth) times and
    capital expenses (1 + capex_growth) times: the monthly curves compound
    to the annual rates exactly, for growth rates above -1. *)
Theorem X21_annual_compounding (p : Assumptions) (i : nat) :
  (i + 12 < Z.to_nat (hold_months p))%nat ->
  let df := monthly_frame p in
  (0 < 1 + rent_growth p ->
   forall g o : R,
     GrossPotentialRent df !! i = Some g ->
     OtherIncome df !! i = Some o ->
     GrossPotentialRent df !! (i + 12)%nat = Some (g * (1 + rent_growth p))
     /\ OtherIncome df !! (i + 12)%nat = Some (o * (1 + rent_growth p))) /\
  (0 < 1 + expense_growth p ->
   forall e : R,
     OperatingExpenses df !! i = Some e ->
     OperatingExpenses df !! (i + 12)%nat
     = Some (e * (1 + expense_growth p))) /\
  (0 < 1 + capex_growth p ->
   forall c : R,
     CapitalExpenses df !! i = Some c ->
     CapitalExpenses df !! (i + 12)%nat = Some (c * (1 + capex_growth p))).
Proof.
  intros Hi df.
  assert (Hy : YearsFrac df !! i
               = Some ((IZR (Z.of_nat (S i)) - 1) / 12))
    by (apply lookup_YearsFrac; lia).
  pose proof (lookup_YearsFrac_next_year p i _ Hi Hy) as Hy'.
  fold df in Hy'.
  assert (Hcurve : forall (base growth : R) (col : list R) (v : R),
             col = map (fun y => base * float_pow (1 + growth) y)
                     (YearsFrac df) ->
             0 < 1 + growth ->
             col !! i = Some v ->
             col !! (i + 12)%nat = Some (v * (1 + growth))).
  { intros base growth col v -> Hg Hv.
    rewrite lookup_map, Hy in Hv. injection Hv as <-.
    rewrite lookup_map, Hy'. cbn [fmap option_fmap option_map].
    rewrite float_pow_succ by assumption. f_equal. ring. }
  split; [|split].
  - intros Hg g o Hgv Hov. split.
    + now apply (Hcurve (rent_base p) (rent_growth p) _ g eq_refl).
    + now apply (Hcurve (other_income p) (rent_growth p) _ o eq_refl).
  - intros Hg e He.
    now apply (Hcurve (- expense_base p) (expense_growth p) _ e eq_refl).
  - intros Hg c Hc.
    now apply (Hcurve (- capex_initial p) (capex_growth p) _ c eq_refl).
Qed.

(** X22: with base amounts and a vacancy rate that are not negative and
    growth rates above -1, rent is not negative in any month and vacancy
    loss, operating expenses and capital expenses are outflows, not
    positive in any month. *)
Theorem X22_sign_conventions (p : Assumptions) :
  0 < 1 + rent_growth p -> 0 < 1 + expense_growth p ->
  0 < 1 + capex_growth p ->
  0 <= rent_base p -> 0 <= vacancy p -> 0 <= expense_base p ->
  0 <= capex_initial p ->
  let df := monthly_frame p in
  Forall (fun v => 0 <= v) (GrossPotentialRent df) /\
  Forall (fun v => v <= 0) (VacancyLoss df) /\
  Forall (fun v => v <= 0) (OperatingExpenses df) /\
  Forall (fun v => v <= 0) (CapitalExpenses df).
Proof.
  intros Hr He Hc Hrb Hv Heb Hcx df.
  assert (Hg : Forall (fun v => 0 <= v) (GrossPotentialRent df)).
  { apply Forall_forall. intros v Hin.
    apply list_elem_of_In, in_map_iff in Hin as (y & <- & _).
    apply Rmult_le_pos; [exact Hrb|]. now apply Rlt_le, float_pow_positive. }
  split; [exact Hg|]. split; [|split].
  - apply Forall_forall. intros v Hin.
    apply list_elem_of_In in Hin.
    change (VacancyLoss df)
      with (map (fun g => - g * vacancy p) (GrossPotentialRent df)) in Hin.
    apply in_map_iff in Hin as (g & <- & Hgin).
    rewrite Forall_forall in Hg. apply list_elem_of_In in Hgin.
    specialize (Hg g Hgin). nra.
  - apply Forall_forall. intros v Hin.
    apply list_elem_of_In, in_map_iff in Hin as (y & <- & _).
    pose proof (float_pow_positive (1 + expense_growth p) y He). nra.
  - apply Forall_forall. intros v Hin.
    apply list_elem_of_In, in_map_iff in Hin as (y & <- & _).
    pose proof (float_pow_positive (1 + capex_growth p) y Hc). nra.
Qed.

Lemma X22_sign_conventions_witness :
  Forall (fun v => 0 <= v)
    (GrossPotentialRent (monthly_frame flat_year_assumptions)).
Proof.
  apply (X22_sign_conventions flat_year_assumptions); simpl; lra.
Defined.

Lemma X21_annual_compounding_witness :
  exists g : R,
    GrossPotentialRent (monthly_frame two_years) !! 0%nat = Some g
    /\ GrossPotentialRent (monthly_frame two_years) !! 12%nat
       = Some (g * (1 + rent_growth two_years)).
Proof.
  assert (Hn : (0 + 12 < Z.to_nat (hold_months two_years))%nat).
  { change (Z.to_nat (hold_months two_years)) with 24%nat. lia. }
  destruct (X21_annual_compounding two_years 0 Hn) as (H & _).
  destruct (length_monthly_columns two_years) as (_ & _ & Lg & _ & Lo & _).
  destruct (lookup_lt_is_Some_2 (GrossPotentialRent (monthly_frame two_years))
              0) as [g Hg]; [rewrite Lg; lia|].
  destruct (lookup_lt_is_Some_2 (OtherIncome (monthly_frame two_years)) 0)
    as [o Ho]; [rewrite Lo; lia|].
  exists g. split; [exact Hg|].
  apply (H ltac:(simpl; lra) g o Hg Ho).
Defined.

(** ** The order of the cash flows *)

Lemma date_ltb_true (a b : date) :
  date_ltb a b = true <->
  (year a < year b
   \/ year a = year b
      /\ (month a < month b \/ month a = month b /\ day a < day b))%Z.
Proof.
  unfold date_ltb.
  rewrite !orb_true_iff, !andb_true_iff, !orb_true_iff, !andb_true_iff,
    !Z.ltb_lt, !Z.eqb_eq.
  reflexivity.
Qed.

Lemma date_ltb_false (a b : date) :
  date_ltb a b = false <->
  ~ (year a < year b
     \/ year a = year b
        /\ (month a < month b \/ month a = month b /\ day a < day b))%Z.
Proof.
  rewrite <- date_ltb_true. destruct (date_ltb a b); split; intros H;
    try discriminate; try reflexivity; try (now destruct H); auto.
Qed.

Lemma date_not_before_trans (a b c : date) :
  date_ltb b a = false -> date_ltb c b = false -> date_ltb c a = false.
Proof. rewrite !date_ltb_false. lia. Qed.

Lemma date_before_not_before (a b : date) :
  date_ltb a b = true -> date_ltb b a = false.
Proof. rewrite date_ltb_true, date_ltb_false. lia. Qed.

Lemma Permutation_insert_sorted (x : date * R) (l : list (date * R)) :
  insert_sorted x l ≡ₚ x :: l.
Proof.
  induction l as [|y l IH]; simpl; [reflexivity|].
  destruct (date_ltb (fst x) (fst y)); [reflexivity|].
  rewrite IH. apply Permutation_swap.
Qed.

Lemma StronglySorted_insert_sorted (x : date * R) (l : list (date * R)) :
  StronglySorted (fun a b => date_ltb (fst b) (fst a) = false) l ->
  StronglySorted (fun a b => date_ltb (fst b) (fst a) = false)
    (insert_sorted x l).
Proof.
  induction 1 as [|y l Hl IH Hy]; simpl.
  - repeat constructor.
  - destruct (date_ltb (fst x) (fst y)) eqn:E.
    + apply SSorted_cons; [now apply SSorted_cons|].
      constructor; [now apply date_before_not_before|].
      eapply Forall_impl; [exact Hy|]. intros z Hz. simpl in Hz.
      apply (date_not_before_trans _ (fst y)); [|exact Hz].
      now apply date_before_not_before.
    + apply SSorted_cons; [exact IH|].
      apply Forall_insert_sorted; assumption.
Qed.

(** X23: the items [_xirr_fallback] works on are the entries of the
    dictionary in ascending order of date, so the date [t0] it measures
    time from is the earliest: no entry has a date before it. *)
Theorem X23_sorted_items (c : cashflow_dict) :
  sorted_items c ≡ₚ c /\
  StronglySorted (fun a b => date_ltb (fst b) (fst a) = false)
    (sorted_items c) /\
  forall (t0 : date) (v0 : R) (rest : list (date * R)),
    sorted_items c = (t0, v0) :: rest ->
    forall kv, List.In kv c -> date_ltb (fst kv) t0 = false.
Proof.
  assert (Hperm : sorted_items c ≡ₚ c).
  { induction c as [|x c IH]; simpl; [reflexivity|].
    now rewrite Permutation_insert_sorted, IH. }
  assert (Hsort : StronglySorted (fun a b => date_ltb (fst b) (fst a) = false)
                    (sorted_items c)).
  { induction c as [|x c IH]; simpl; [constructor|].
    apply StronglySorted_insert_sorted. apply IH.
    clear -Hperm. simpl in Hperm.
    rewrite Permutation_insert_sorted in Hperm.
    now apply Permutation_cons_inv in Hperm. }
  split; [exact Hperm|]. split; [exact Hsort|].
  intros t0 v0 rest Es kv Hin.
  rewrite Es in Hperm, Hsort.
  apply StronglySorted_inv in Hsort as [_ Hfirst].
  apply list_elem_of_In in Hin. rewrite <- Hperm in Hin.
  apply elem_of_cons in Hin as [->|Hin].
  - simpl. rewrite date_ltb_false. lia.
  - rewrite Forall_forall in Hfirst. exact (Hfirst kv Hin).
Qed.

Lemma X23_sorted_items_witness :
  sorted_items [(mkdate 2020 1 1, 100)] ≡ₚ [(mkdate 2020 1 1, 100)].
Proof.
  exact (proj1 (X23_sorted_items [(mkdate 2020 1 1, 100)])).
Defined.
